(** * Apraksin Dvor pavilion map: a model of the client-side code

    The repository is a browser application: [auth.js] (phone whitelist
    login), [data.js] (REST access layer with a localStorage cache),
    [floor-plan.service.js] (click hit-testing on a floor plan) and [sw.js]
    (the service worker).  Every function below is a transliteration of the
    JavaScript function of the same name; the browser and the network are
    explicit inputs. *)

From Stdlib Require Import ZArith NArith List Bool Lia String Ascii Floats.
From Stdlib Require Import DecimalString.
From stdpp Require Import base option list gmap.

Local Open Scope Z_scope.

(* ================================================================== *)
(** * JavaScript data *)
(* ================================================================== *)

Module JS.

(** A JavaScript string is a sequence of UTF-16 code units. *)
Abbreviation code_unit := N.
Abbreviation jsstring := (list code_unit).

(** Reads the UTF-8 bytes of a literal as UTF-16 code units, so that the
    source's string constants can be written as they stand. *)
Fixpoint utf16_of_utf8 (bs : list N) : jsstring :=
  match bs with
  | [] => []
  | b :: rest =>
      if (b <? 128)%N then b :: utf16_of_utf8 rest
      else if (b <? 224)%N then
        match rest with
        | c :: rest' => ((b - 192) * 64 + (c - 128))%N :: utf16_of_utf8 rest'
        | [] => [b]
        end
      else if (b <? 240)%N then
        match rest with
        | c :: d :: rest' =>
            ((b - 224) * 4096 + (c - 128) * 64 + (d - 128))%N
              :: utf16_of_utf8 rest'
        | _ => [b]
        end
      else
        match rest with
        | c :: d :: e :: rest' =>
            let cp := ((b - 240) * 262144 + (c - 128) * 4096
                       + (d - 128) * 64 + (e - 128) - 65536)%N in
            (55296 + cp / 1024)%N :: (56320 + cp mod 1024)%N
              :: utf16_of_utf8 rest'
        | _ => [b]
        end
  end.

Definition lit (s : string) : jsstring :=
  utf16_of_utf8 (map N_of_ascii (list_ascii_of_string s)).

Definition str_eqb (a b : jsstring) : bool := bool_decide (a = b).

(** [String.prototype.startsWith] and [endsWith] (no position argument). *)
Fixpoint startsWith (s p : jsstring) : bool :=
  match p, s with
  | [], _ => true
  | c :: p', d :: s' => (c =? d)%N && startsWith s' p'
  | _ :: _, [] => false
  end.

Definition endsWith (s e : jsstring) : bool := startsWith (rev s) (rev e).

(** White space and line terminators, the code units [trim] strips. *)
Definition is_ws (c : code_unit) : bool :=
  bool_decide (c ∈ [9; 10; 11; 12; 13; 32; 160; 5760; 8192; 8193; 8194; 8195;
                    8196; 8197; 8198; 8199; 8200; 8201; 8202; 8232; 8233;
                    8239; 8287; 12288; 65279]%N).

Fixpoint trimStart (s : jsstring) : jsstring :=
  match s with
  | c :: t => if is_ws c then trimStart t else s
  | [] => []
  end.

Definition trimEnd (s : jsstring) : jsstring := rev (trimStart (rev s)).
Definition trim (s : jsstring) : jsstring := trimEnd (trimStart s).

(** The class [\d] of a regular expression without the [u] flag: 0-9. *)
Definition is_digit (c : code_unit) : bool := (48 <=? c)%N && (c <=? 57)%N.

(** [Number.prototype.toString] on an integer (below 1e21: plain decimal). *)
Definition number_to_string (z : Z) : jsstring :=
  lit (NilZero.string_of_int (Z.to_int z)).

(** JavaScript values as the code meets them: what [JSON.parse] yields,
    and [undefined].  An object keeps its properties in insertion order.
    Numbers are the integers (identifiers, counters, millisecond time
    stamps); the access layer does arithmetic on time stamps only. *)
#[warnings="-register-all"]
Inductive value : Type :=
  | VUndef
  | VNull
  | VBool (b : bool)
  | VNum (n : Z)
  | VStr (s : jsstring)
  | VArr (items : list value)
  | VObj (props : list (jsstring * value)).

Abbreviation obj := (list (jsstring * value)).

(** What a [throw] carries. *)
Inductive exn : Type :=
  | Error (message : jsstring)   (* new Error(message) *)
  | TypeError                    (* property of null/undefined, call of a non-function *)
  | SyntaxError                  (* JSON.parse, response.json() *)
  | NetworkError.                (* fetch rejected *)

(** The outcome of evaluating an expression or running a function. *)
Inductive result (A : Type) : Type :=
  | Return (a : A)
  | Throw (e : exn).
Arguments Return {A} a.
Arguments Throw {A} e.

#[global] Instance result_ret : MRet result := fun A a => Return a.
#[global] Instance result_bind : MBind result := fun A B f r =>
  match r with
  | Return a => f a
  | Throw e => Throw e
  end.

(** ToBoolean. *)
Definition truthy (v : value) : bool :=
  match v with
  | VUndef | VNull => false
  | VBool b => b
  | VNum n => negb (n =? 0)
  | VStr s => negb (str_eqb s [])
  | VArr _ | VObj _ => true
  end.

Fixpoint obj_get (k : jsstring) (o : obj) : value :=
  match o with
  | [] => VUndef
  | (k', v) :: o' => if str_eqb k' k then v else obj_get k o'
  end.

(** Assignment to a property: an existing key keeps its place. *)
Fixpoint obj_set (k : jsstring) (v : value) (o : obj) : obj :=
  match o with
  | [] => [(k, v)]
  | (k', v') :: o' =>
      if str_eqb k' k then (k, v) :: o' else (k', v') :: obj_set k v o'
  end.

(** Object spread [{...acc, ...src}]. *)
Definition obj_spread (acc src : obj) : obj :=
  fold_left (fun a kv => obj_set kv.1 kv.2 a) src acc.

(** Property read [v.k] where [k] is not an array index.  Reading from
    [undefined] or [null] throws; a primitive has no own property but a
    string's and an array's [length]. *)
Definition prop (v : value) (k : jsstring) : value :=
  match v with
  | VObj o => obj_get k o
  | VArr l => if str_eqb k (lit "length") then VNum (Z.of_nat (length l)) else VUndef
  | VStr s => if str_eqb k (lit "length") then VNum (Z.of_nat (length s)) else VUndef
  | _ => VUndef
  end.

Definition nullish (v : value) : bool :=
  match v with VUndef | VNull => true | _ => false end.

Definition get_prop (v : value) (k : jsstring) : result value :=
  if nullish v then Throw TypeError else Return (prop v k).

(** Element read [v[0]] on a value that is not [undefined] or [null]. *)
Definition index0 (v : value) : value :=
  match v with
  | VArr l => match l with x :: _ => x | [] => VUndef end
  | VStr s => match s with c :: _ => VStr [c] | [] => VUndef end
  | VObj o => obj_get (lit "0") o
  | _ => VUndef
  end.

(** Strict equality [===].  Primitives compare by value.  Objects and
    arrays compare by reference: the operands the access layer compares
    come from different JSON documents or from the caller, so two of them
    are never one reference. *)
Definition strict_eq (a b : value) : bool :=
  match a, b with
  | VUndef, VUndef => true
  | VNull, VNull => true
  | VBool x, VBool y => eqb x y
  | VNum x, VNum y => (x =? y)
  | VStr x, VStr y => str_eqb x y
  | _, _ => false
  end.

End JS.

(* ================================================================== *)
(** * The page's environment *)
(* ================================================================== *)

(** Built-ins of the browser that the code calls and this development does
    not look inside, and the page's configuration. *)
Record Env : Type := {
  JSON_stringify : JS.value -> JS.jsstring;
  (** [None]: the text is not JSON and [JSON.parse] throws. *)
  JSON_parse : JS.jsstring -> option JS.value;
  JSON_parse_empty : JSON_parse [] = None;
  (** ToNumber on a string, an array or an object; [None] is NaN. *)
  ToNumber_object : JS.value -> option Z;
  encodeURIComponent : JS.jsstring -> JS.jsstring;
  (** [new Date(t).toISOString()]. *)
  toISOString : Z -> JS.jsstring;
  (** [Math.random().toString(36).substr(2, 9)] for the n-th draw. *)
  random36 : N -> JS.jsstring;
  (** [window.SupabaseConfig.url], copied into AuthConfig and DataConfig. *)
  SUPABASE_URL : JS.jsstring;
  (** [AuthConfig.SUPABASE_ANON_KEY]; [None] is the [null] it holds until
      initAuth has read the configuration. *)
  SUPABASE_ANON_KEY : option JS.jsstring;
}.

(** ToNumber, as the relational and arithmetic operators apply it. *)
Definition to_number (env : Env) (v : JS.value) : option Z :=
  match v with
  | JS.VNum n => Some n
  | JS.VBool b => Some (if b then 1 else 0)
  | JS.VNull => Some 0
  | JS.VUndef => None
  | _ => ToNumber_object env v
  end.

(** The network as the page sees it. *)
Module Net.
Import JS.

Inductive Method := GET | POST | PATCH | DELETE.

#[global] Instance Method_eq_dec : EqDecision Method.
Proof. solve_decision. Defined.

Record Request : Type := {
  url : jsstring;
  method : Method;
  body : option jsstring;
}.

(** A response: [response.ok], [response.status], [await response.text()]
    and [await response.json()] ([None]: the body is not JSON). *)
Record Response : Type := {
  ok : bool;
  status : Z;
  text : jsstring;
  json : option value;
}.

Inductive FetchResult : Type :=
  | Rejected                    (* the promise of fetch rejects *)
  | Responds (r : Response).

End Net.

(* ================================================================== *)
(** * auth.js *)
(* ================================================================== *)

Module Auth.
Import JS Net.

Definition msg_invalid_phone_format : jsstring :=
  lit "Неверный формат номера телефона".
Definition msg_must_have_11_digits : jsstring :=
  lit "Номер должен содержать 11 цифр".

Definition DB_TABLE_TENANTS : jsstring := lit "tenants".

(** [/^\+7\d{10}$/.test(s)] *)
Definition phoneRegex_test (s : jsstring) : bool :=
  match s with
  | plus :: seven :: ds =>
      (plus =? 43)%N && (seven =? 55)%N          (* "+" and "7" *)
      && (length ds =? 10)%nat && forallb is_digit ds
  | _ => false
  end.

Definition validatePhoneNumber (phone : jsstring) : bool :=
  let trimmed := trim phone in
  phoneRegex_test trimmed.

Definition formatPhoneNumber (phone : jsstring) : result jsstring :=
  (* phone.replace(/\D/g, '') *)
  let digitsOnly := filter (fun c => is_digit c = true) phone in
  let normalized :=
    if startsWith digitsOnly (lit "8")
    then lit "7" ++ drop 1 digitsOnly
    else digitsOnly in
  if negb (length normalized =? 11)%nat
  then Throw (Error msg_must_have_11_digits)
  else Return (lit "+" ++ normalized).

(** The request [checkPhone] sends. *)
Definition checkPhone_request (env : Env) (phone : jsstring) : Request :=
  {| url := SUPABASE_URL env ++ lit "/rest/v1/" ++ DB_TABLE_TENANTS
            ++ lit "?phone=eq." ++ encodeURIComponent env phone
            ++ lit "&select=*";
     method := GET;
     body := None |}.

(** [fetch] is the network's answer to a request.  The result is the
    value the promise resolves to, or what it rejects with (the [catch]
    block logs and rethrows). *)
Definition checkPhone (env : Env) (fetch : Request -> FetchResult)
    (phone : jsstring) : result value :=
  if negb (validatePhoneNumber phone)
  then Throw (Error msg_invalid_phone_format)
  else
    (* the log line reads AuthConfig.SUPABASE_ANON_KEY.substring(0, 20) *)
    _ ← match SUPABASE_ANON_KEY env with
        | Some _ => Return tt
        | None => Throw TypeError
        end;
    match fetch (checkPhone_request env phone) with
    | Rejected => Throw NetworkError
    | Responds response =>
        if negb (ok response)
        then Throw (Error (lit "HTTP error! status: "
                           ++ number_to_string (status response)
                           ++ lit " - " ++ text response))
        else
          match json response with
          | None => Throw SyntaxError
          | Some data =>
              if negb (truthy data)
                 || strict_eq (prop data (lit "length")) (VNum 0)
              then Return VNull
              else
                let tenant := index0 data in
                (* the log line reads tenant.id, tenant.name, ... *)
                _ ← get_prop tenant (lit "id");
                if negb (truthy (prop tenant (lit "approved")))
                then Return VNull
                else Return tenant
          end
    end.

End Auth.

(* ================================================================== *)
(** * data.js *)
(* ================================================================== *)

Module Data.
Import JS Net.

(** ** The state the access layer runs in *)

(** What a function of data.js can read and change: the module's state,
    the browser's storage, the clock, the random source and the network.
    [network] lists the outcomes of the fetch calls to come, in order (an
    exhausted list: the call rejects); [requests] records the calls made,
    oldest first. *)
Record World : Type := {
  currentTenant : value;                  (* window.Auth?.getCurrentTenant?.() *)
  pavilions : value;                      (* DataState.pavilions *)
  localStorage : gmap jsstring jsstring;
  clock : Z;                              (* Date.now() *)
  seed : N;                               (* draws of Math.random so far *)
  network : list FetchResult;
  requests : list Request;
}.

Definition with_pavilions (v : value) (w : World) : World :=
  {| currentTenant := currentTenant w; pavilions := v;
     localStorage := localStorage w; clock := clock w; seed := seed w;
     network := network w; requests := requests w |}.

Definition with_localStorage (s : gmap jsstring jsstring) (w : World) : World :=
  {| currentTenant := currentTenant w; pavilions := pavilions w;
     localStorage := s; clock := clock w; seed := seed w;
     network := network w; requests := requests w |}.

Definition with_clock (t : Z) (w : World) : World :=
  {| currentTenant := currentTenant w; pavilions := pavilions w;
     localStorage := localStorage w; clock := t; seed := seed w;
     network := network w; requests := requests w |}.

Definition with_seed (n : N) (w : World) : World :=
  {| currentTenant := currentTenant w; pavilions := pavilions w;
     localStorage := localStorage w; clock := clock w; seed := n;
     network := network w; requests := requests w |}.

Definition with_network (n : list FetchResult) (r : list Request) (w : World) : World :=
  {| currentTenant := currentTenant w; pavilions := pavilions w;
     localStorage := localStorage w; clock := clock w; seed := seed w;
     network := n; requests := r |}.

(** Computations: a [throw] keeps the changes made before it. *)
Definition M (A : Type) : Type := World -> result A * World.

#[global] Instance M_ret : MRet M := fun A a w => (Return a, w).
#[global] Instance M_bind : MBind M := fun A B f m w =>
  match m w with
  | (Return a, w') => f a w'
  | (Throw e, w') => (Throw e, w')
  end.

Definition throw {A} (e : exn) : M A := fun w => (Throw e, w).
Definition lift {A} (r : result A) : M A := fun w => (r, w).
Definition gets {A} (f : World -> A) : M A := fun w => (Return (f w), w).
Definition modify (f : World -> World) : M unit := fun w => (Return tt, f w).

(** [try { body } catch (error) { handler }] *)
Definition try_catch {A} (body : M A) (handler : exn -> M A) : M A :=
  fun w =>
    match body w with
    | (Return a, w') => (Return a, w')
    | (Throw e, w') => handler e w'
    end.

(** ** Browser primitives *)

Definition Date_now : M Z := gets clock.

Definition localStorage_getItem (k : jsstring) : M (option jsstring) :=
  gets (fun w => localStorage w !! k).

(** Storage is taken to have room: [setItem] does not throw. *)
Definition localStorage_setItem (k s : jsstring) : M unit :=
  modify (fun w => with_localStorage (<[k := s]> (localStorage w)) w).

Definition localStorage_removeItem (k : jsstring) : M unit :=
  modify (fun w => with_localStorage (delete k (localStorage w)) w).

Definition fetch (req : Request) : M Response :=
  fun w =>
    match network w with
    | Responds r :: rest => (Return r, with_network rest (requests w ++ [req]) w)
    | Rejected :: rest => (Throw NetworkError, with_network rest (requests w ++ [req]) w)
    | [] => (Throw NetworkError, with_network [] (requests w ++ [req]) w)
    end.

(** ** Arrays *)

(** [arr.findIndex(f)] with the element found; [None] is -1.  The callback
    may throw. *)
Fixpoint find_from (f : value -> result bool) (l : list value) (i : nat)
  : result (option (nat * value)) :=
  match l with
  | [] => Return None
  | x :: l' =>
      b ← f x;
      if (b : bool) then Return (Some (i, x)) else find_from f l' (S i)
  end.

Fixpoint filter_items (f : value -> result bool) (l : list value)
  : result (list value) :=
  match l with
  | [] => Return []
  | x :: l' =>
      b ← f x;
      rest ← filter_items f l';
      Return (if (b : bool) then x :: rest else rest)
  end.

(** Calling an array method on a value that is not an array is a
    TypeError ([v.find is not a function], or a read from null). *)
Definition arr_findIndex (f : value -> result bool) (v : value)
  : result (option (nat * value)) :=
  match v with
  | VArr l => find_from f l 0
  | _ => Throw TypeError
  end.

(** [arr.find(f)]: the element, or [undefined]. *)
Definition arr_find (f : value -> result bool) (v : value) : result value :=
  r ← arr_findIndex f v;
  Return (match r with Some (_, x) => x | None => VUndef end).

Definition arr_filter (f : value -> result bool) (v : value)
  : result (list value) :=
  match v with
  | VArr l => filter_items f l
  | _ => Throw TypeError
  end.

(** The callbacks [p => p.id === id] and [p => p.id !== id]. *)
Definition id_is (id : jsstring) (p : value) : result bool :=
  pid ← get_prop p (lit "id");
  Return (strict_eq pid (VStr id)).

Definition id_is_not (id : jsstring) (p : value) : result bool :=
  pid ← get_prop p (lit "id");
  Return (negb (strict_eq pid (VStr id))).

(** ** Configuration *)

Definition TABLES_PAVILIONS : jsstring := lit "pavilions".
Definition CACHE_PREFIX : jsstring := lit "aprashka_cache_".
Definition CACHE_TIMEOUT : Z := 60 * 60 * 1000.

Definition msg_auth_required_update : jsstring :=
  lit "Требуется авторизация для обновления павильона".
Definition msg_pavilion_not_found : jsstring := lit "Павильон не найден".
Definition msg_not_owner_update : jsstring :=
  lit "Нет прав для редактирования этого павильона".
Definition msg_update_failed : jsstring := lit "Ошибка при обновлении павильона".
Definition msg_auth_required_delete : jsstring :=
  lit "Требуется авторизация для удаления павильона".
Definition msg_not_owner_delete : jsstring :=
  lit "Нет прав для удаления этого павильона".
Definition msg_auth_required : jsstring := lit "Требуется авторизация".
Definition msg_not_owner_add_discount : jsstring :=
  lit "Нет прав для добавления скидки".
Definition msg_not_owner_remove_discount : jsstring :=
  lit "Нет прав для удаления скидки".

Section WithEnv.
Variable env : Env.

(** ** Cache *)

(** [Date.now() - timestamp > CACHE_TIMEOUT]; a NaN compares false. *)
Definition cache_expired (now : Z) (timestamp : value) : bool :=
  match to_number env timestamp with
  | Some t => CACHE_TIMEOUT <? now - t
  | None => false
  end.

Definition getCacheData (key : jsstring) : M value :=
  try_catch
    (let cacheKey := CACHE_PREFIX ++ key in
     cached ← localStorage_getItem cacheKey;
     match cached with
     | None => mret VNull
     | Some s =>
         if str_eqb s [] then mret VNull          (* !cached *)
         else
           match JSON_parse env s with
           | None => throw SyntaxError
           | Some data =>
               timestamp ← lift (get_prop data (lit "timestamp"));
               now ← Date_now;
               if truthy timestamp && cache_expired now timestamp
               then localStorage_removeItem cacheKey;; mret VNull
               else lift (get_prop data (lit "value"))
           end
     end)
    (fun _ => mret VNull).

Definition setCacheData (key : jsstring) (v : value) : M unit :=
  let cacheKey := CACHE_PREFIX ++ key in
  now ← Date_now;
  let data := VObj [(lit "value", v); (lit "timestamp", VNum now)] in
  localStorage_setItem cacheKey (JSON_stringify env data).

Definition clearCacheData (key : jsstring) : M unit :=
  localStorage_removeItem (CACHE_PREFIX ++ key).

(** ** Requests *)

(** [supabaseRequest(endpoint, { method, body })]; its [catch] block logs
    and rethrows. *)
Definition supabaseRequest (endpoint : jsstring) (m : Method)
    (b : option jsstring) : M value :=
  response ← fetch {| url := SUPABASE_URL env ++ endpoint;
                      method := m; body := b |};
  if negb (ok response)
  then throw (Error (lit "HTTP " ++ number_to_string (status response)
                     ++ lit ": " ++ text response))
  else if bool_decide (m = DELETE) then mret VNull
  else match json response with
       | Some v => mret v
       | None => throw SyntaxError
       end.

(** [v > 0] *)
Definition gt_zero (v : value) : bool :=
  match to_number env v with
  | Some n => 0 <? n
  | None => false
  end.

(** ** Pavilions *)

Definition getAllPavilions : M value :=
  try_catch
    (cachedData ← getCacheData (lit "pavilions");
     if truthy cachedData then
       modify (with_pavilions cachedData);;
       mret cachedData
     else
       response ← supabaseRequest
         (lit "/rest/v1/" ++ TABLES_PAVILIONS ++ lit "?select=*") GET None;
       modify (with_pavilions response);;
       setCacheData (lit "pavilions") response;;
       (* the log line reads response.length *)
       _ ← lift (get_prop response (lit "length"));
       mret response)
    (fun _ => gets pavilions).

(** [getPavilionById], returning with the pavilion the place it holds in
    [DataState.pavilions] when it is that very object (and not one parsed
    from a response): callers that change the object change the list. *)
Definition lookupPavilion (id : jsstring) : M (value * option nat) :=
  try_catch
    (ps ← gets pavilions;
     found ← lift (arr_findIndex (id_is id) ps);
     let pavilion := match found with Some (_, p) => p | None => VUndef end in
     if truthy pavilion then
       mret (pavilion, fst <$> found)
     else
       response ← supabaseRequest
         (lit "/rest/v1/" ++ TABLES_PAVILIONS ++ lit "?id=eq." ++ id
          ++ lit "&select=*") GET None;
       if truthy response && gt_zero (prop response (lit "length")) then
         (* the log line reads response[0].name *)
         _ ← lift (get_prop (index0 response) (lit "name"));
         mret (index0 response, None)
       else mret (VNull, None))
    (fun _ => mret (VNull, None)).

Definition getPavilionById (id : jsstring) : M value :=
  r ← lookupPavilion id;
  mret r.1.

(** [DataState.pavilions[index] = x] *)
Definition pavilions_set (index : nat) (x : value) : M unit :=
  modify (fun w =>
    match pavilions w with
    | VArr l => with_pavilions (VArr (<[index := x]> l)) w
    | _ => w
    end).

(** The [catch] blocks of the functions below log and rethrow. *)
Definition updatePavilion (id : jsstring) (data : obj) : M value :=
  currentTenant ← gets currentTenant;
  if negb (truthy currentTenant) then throw (Error msg_auth_required_update)
  else
    pavilion ← getPavilionById id;
    if negb (truthy pavilion) then throw (Error msg_pavilion_not_found)
    else if negb (strict_eq (prop pavilion (lit "tenant_id"))
                            (prop currentTenant (lit "id")))
    then throw (Error msg_not_owner_update)
    else
      now ← Date_now;
      let updateData :=
        obj_set (lit "updated_at") (VStr (toISOString env now))
                (obj_spread [] data) in
      response ← supabaseRequest
        (lit "/rest/v1/" ++ TABLES_PAVILIONS ++ lit "?id=eq." ++ id)
        PATCH (Some (JSON_stringify env (VObj updateData)));
      if truthy response && truthy (index0 response) then
        ps ← gets pavilions;
        index ← lift (arr_findIndex (id_is id) ps);
        match index with
        | Some (i, _) => pavilions_set i (index0 response)
        | None => mret tt
        end;;
        clearCacheData (lit "pavilions");;
        mret (index0 response)
      else throw (Error msg_update_failed).

Definition deletePavilion (id : jsstring) : M value :=
  currentTenant ← gets currentTenant;
  if negb (truthy currentTenant) then throw (Error msg_auth_required_delete)
  else
    pavilion ← getPavilionById id;
    if negb (truthy pavilion) then throw (Error msg_pavilion_not_found)
    else if negb (strict_eq (prop pavilion (lit "tenant_id"))
                            (prop currentTenant (lit "id")))
    then throw (Error msg_not_owner_delete)
    else
      supabaseRequest
        (lit "/rest/v1/" ++ TABLES_PAVILIONS ++ lit "?id=eq." ++ id)
        DELETE None;;
      ps ← gets pavilions;
      kept ← lift (arr_filter (id_is_not id) ps);
      modify (with_pavilions (VArr kept));;
      clearCacheData (lit "pavilions");;
      mret (VBool true).

(** ** Discounts *)

Definition generateId : M jsstring :=
  now ← Date_now;
  n ← gets seed;
  modify (with_seed (n + 1)%N);;
  mret (number_to_string now ++ lit "_" ++ random36 env n).

Definition is_array (v : value) : bool :=
  match v with VArr _ => true | _ => false end.

Definition items_of (v : value) : list value :=
  match v with VArr l => l | _ => [] end.

(** [discounts.push(newDiscount)] when [discounts] is the array held by
    the pavilion at place [i] of [DataState.pavilions]: the list sees it. *)
Definition push_in_place (i : nat) (discounts' : list value) : M unit :=
  modify (fun w =>
    match pavilions w with
    | VArr l =>
        match l !! i with
        | Some (VObj o) =>
            with_pavilions
              (VArr (<[i := VObj (obj_set (lit "discounts") (VArr discounts') o)]> l)) w
        | _ => w
        end
    | _ => w
    end).

Definition addDiscount (pavilionId : jsstring) (discountData : obj) : M value :=
  currentTenant ← gets currentTenant;
  if negb (truthy currentTenant) then throw (Error msg_auth_required)
  else
    found ← lookupPavilion pavilionId;
    let pavilion := found.1 in
    if negb (truthy pavilion) then throw (Error msg_pavilion_not_found)
    else if negb (strict_eq (prop pavilion (lit "tenant_id"))
                            (prop currentTenant (lit "id")))
    then throw (Error msg_not_owner_add_discount)
    else
      (* let discounts = pavilion.discounts || [];
         if (!Array.isArray(discounts)) discounts = []; *)
      let stored := prop pavilion (lit "discounts") in
      let shared := truthy stored && is_array stored in
      let discounts := if shared then items_of stored else [] in
      id ← generateId;
      now ← Date_now;
      let newDiscount :=
        VObj (obj_set (lit "created_at") (VStr (toISOString env now))
                (obj_spread [(lit "id", VStr id)] discountData)) in
      let discounts' := discounts ++ [newDiscount] in
      match shared, found.2 with
      | true, Some i => push_in_place i discounts'
      | _, _ => mret tt
      end;;
      updatePavilion pavilionId [(lit "discounts", VArr discounts')].

(** The callback [d => d.id !== discountId]. *)
Definition removeDiscount (pavilionId discountId : jsstring) : M value :=
  currentTenant ← gets currentTenant;
  if negb (truthy currentTenant) then throw (Error msg_auth_required)
  else
    pavilion ← getPavilionById pavilionId;
    if negb (truthy pavilion) then throw (Error msg_pavilion_not_found)
    else if negb (strict_eq (prop pavilion (lit "tenant_id"))
                            (prop currentTenant (lit "id")))
    then throw (Error msg_not_owner_remove_discount)
    else
      let stored := prop pavilion (lit "discounts") in
      discounts ← lift (arr_filter (id_is_not discountId)
                          (if truthy stored then stored else VArr []));
      updatePavilion pavilionId [(lit "discounts", VArr discounts)].

End WithEnv.

End Data.

(* ================================================================== *)
(** * floor-plan.service.js *)
(* ================================================================== *)

Module FloorPlan.
Import JS.

Local Open Scope float_scope.

(** Coordinates are percentages of the image, JavaScript numbers:
    binary64 floats.  [None] is a missing ([undefined] or [null])
    component. *)
Record Coordinates : Type := {
  x : option float;
  y : option float;
}.

Record Pavilion : Type := {
  pavilion_number : jsstring;
  coordinates : option Coordinates;     (* None: no coordinates stored *)
}.

(** [v || 0] on a number or a missing value: 0, -0 and NaN are falsy. *)
Definition or_zero (v : option float) : float :=
  match v with
  | Some f => if (f =? 0) || PrimFloat.is_nan f then 0 else f
  | None => 0
  end.

Definition tolerance : float := 5.

(** [Math.abs(px - xPercent) < tolerance && Math.abs(py - yPercent) < tolerance] *)
Definition within_tolerance (xPercent yPercent : float) (c : Coordinates) : bool :=
  let px := or_zero (x c) in
  let py := or_zero (y c) in
  (PrimFloat.abs (px - xPercent) <? tolerance)
  && (PrimFloat.abs (py - yPercent) <? tolerance).

(** The loop [for (const pavilion of floorPlanState.pavilionsList)]. *)
Fixpoint scan (pavilionsList : list Pavilion) (xPercent yPercent : float)
  : option Pavilion :=
  match pavilionsList with
  | [] => None
  | pavilion :: rest =>
      match coordinates pavilion with
      | None => scan rest xPercent yPercent            (* continue *)
      | Some c =>
          if within_tolerance xPercent yPercent c
          then Some pavilion
          else scan rest xPercent yPercent
      end
  end.

(** [pavilionsList] is [floorPlanState.pavilionsList]; [None] is [null]. *)
Definition findPavilionAtPoint (pavilionsList : list Pavilion)
    (xPercent yPercent : float) : option Pavilion :=
  if (length pavilionsList =? 0)%nat then None
  else scan pavilionsList xPercent yPercent.

End FloorPlan.

(* ================================================================== *)
(** * sw.js *)
(* ================================================================== *)

Module ServiceWorker.
Import JS.

Definition CACHE_VERSION : jsstring := lit "v1".
Definition CACHE_NAME : jsstring := lit "apra-shka-" ++ CACHE_VERSION.

Definition CACHEABLE_EXTENSIONS : list jsstring :=
  [lit ".js"; lit ".css"; lit ".html"; lit ".json"; lit ".svg"; lit ".png";
   lit ".jpg"; lit ".jpeg"; lit ".gif"; lit ".webp"; lit ".woff";
   lit ".woff2"; lit ".ttf"].

Definition NETWORK_TIMEOUT : Z := 5000.

Record Request : Type := {
  method : jsstring;
  url : jsstring;
  pathname : jsstring;        (* new URL(request.url).pathname *)
}.

Record Response : Type := {
  status : Z;
  statusText : jsstring;
  body : jsstring;
}.

(** A cache maps request URLs to responses; the cache storage holds the
    named caches in the order they were created. *)
Abbreviation Cache := (list (jsstring * Response)).
Abbreviation CacheStorage := (list (jsstring * Cache)).

(** One call of [fetch]: when it settles and with what ([None]: rejects). *)
Record Outcome : Type := {
  delay : Z;
  answer : option Response;
}.

Record World : Type := {
  caches : CacheStorage;
  network : list Outcome;       (* outcomes of the fetch calls to come *)
  fetched : list Request;       (* fetch calls made, oldest first *)
}.

Definition cache_match (u : jsstring) (c : Cache) : option Response :=
  snd <$> find (fun e => str_eqb e.1 u) c.

(** [caches.match(request)]: the first cache, in creation order, that
    holds the request. *)
Fixpoint caches_match (u : jsstring) (cs : CacheStorage) : option Response :=
  match cs with
  | [] => None
  | (_, c) :: cs' =>
      match cache_match u c with
      | Some r => Some r
      | None => caches_match u cs'
      end
  end.

(** [cache.put(request, response)] replaces the entry of the request. *)
Definition cache_put (u : jsstring) (r : Response) (c : Cache) : Cache :=
  filter (fun e => e.1 ≠ u) c ++ [(u, r)].

(** [caches.open(name)] followed by [cache.put]: the cache is created
    when there is none of that name. *)
Fixpoint caches_put (name u : jsstring) (r : Response) (cs : CacheStorage)
  : CacheStorage :=
  match cs with
  | [] => [(name, [(u, r)])]
  | (n, c) :: cs' =>
      if str_eqb n name then (n, cache_put u r c) :: cs'
      else (n, c) :: caches_put name u r cs'
  end.

(** [caches.delete(name)] *)
Definition caches_delete (name : jsstring) (cs : CacheStorage) : CacheStorage :=
  filter (fun c => c.1 ≠ name) cs.

(** [fetch(request)] *)
Definition fetch (request : Request) (w : World) : option Outcome * World :=
  match network w with
  | o :: rest =>
      (Some o, {| caches := caches w; network := rest;
                  fetched := fetched w ++ [request] |})
  | [] =>
      (None, {| caches := caches w; network := [];
                fetched := fetched w ++ [request] |})
  end.

Definition put_in_cache (request : Request) (r : Response) (w : World) : World :=
  {| caches := caches_put CACHE_NAME (url request) r (caches w);
     network := network w; fetched := fetched w |}.

Definition offline_response : Response :=
  {| status := 503; statusText := lit "Service Unavailable";
     body := lit "Нет соединения и нет данных в кэше" |}.

Definition api_unavailable_response : Response :=
  {| status := 503; statusText := lit "Service Unavailable";
     body := lit "API недоступна" |}.

(** ** The activate listener *)

Definition isCacheStale (cacheName : jsstring) : bool :=
  startsWith cacheName (lit "apra-shka-") && negb (str_eqb cacheName CACHE_NAME).

Definition on_activate (w : World) : World :=
  let cacheNames := map fst (caches w) in
  let stale := filter (fun n => isCacheStale n = true) cacheNames in
  {| caches := fold_left (fun cs n => caches_delete n cs) stale (caches w);
     network := network w; fetched := fetched w |}.

(** ** The fetch listener *)

Definition cacheFirstStrategy (request : Request) (w : World) : Response * World :=
  match caches_match (url request) (caches w) with
  | Some cachedResponse => (cachedResponse, w)
  | None =>
      let (o, w1) := fetch request w in
      match o ≫= answer with
      | Some networkResponse =>
          if status networkResponse =? 200
          then (networkResponse, put_in_cache request networkResponse w1)
          else (networkResponse, w1)
      | None =>
          (* catch *)
          match caches_match (url request) (caches w1) with
          | Some cachedResponse => (cachedResponse, w1)
          | None => (offline_response, w1)
          end
      end
  end.

(** The race against the timer: a fetch that settles after
    [NETWORK_TIMEOUT] loses it. *)
Definition networkFirstStrategy (request : Request) (w : World) : Response * World :=
  let (o, w1) := fetch request w in
  let raced :=
    o' ← o;
    if delay o' <? NETWORK_TIMEOUT then answer o' else None in
  match raced with
  | Some networkResponse =>
      if status networkResponse =? 200
      then (networkResponse, put_in_cache request networkResponse w1)
      else (networkResponse, w1)
  | None =>
      match caches_match (url request) (caches w1) with
      | Some cachedResponse => (cachedResponse, w1)
      | None => (api_unavailable_response, w1)
      end
  end.

(** What the listener does with a fetch event: nothing (the browser
    handles the request itself) or [event.respondWith]. *)
Inductive Handling : Type :=
  | NotHandled
  | RespondWith (r : Response).

Definition on_fetch (request : Request) (w : World) : Handling * World :=
  if negb (str_eqb (method request) (lit "GET")) then (NotHandled, w)
  else
    let isStaticAsset :=
      existsb (fun ext => endsWith (pathname request) ext) CACHEABLE_EXTENSIONS in
    if isStaticAsset
    then let (r, w') := cacheFirstStrategy request w in (RespondWith r, w')
    else let (r, w') := networkFirstStrategy request w in (RespondWith r, w').

End ServiceWorker.

(* ================================================================== *)
(** * data.js: the remaining operations *)
(* ================================================================== *)

Module DataOps.
Import JS Net Data.

Definition TABLES_TENANTS : jsstring := lit "tenants".

Definition msg_auth_required_create : jsstring :=
  lit "Требуется авторизация для создания павильона".
Definition msg_create_failed : jsstring := lit "Ошибка при создании павильона".
Definition msg_not_owner_update_discount : jsstring :=
  lit "Нет прав для обновления скидки".

(** [DataState.pavilions.push(x)] *)
Definition pavilions_push (x : value) : M unit :=
  fun w =>
    match pavilions w with
    | VArr l => (Return tt, with_pavilions (VArr (l ++ [x])) w)
    | _ => (Throw TypeError, w)
    end.

(** [arr.map(f)]; the callback may throw. *)
Fixpoint map_items (f : value -> result value) (l : list value)
  : result (list value) :=
  match l with
  | [] => Return []
  | x :: l' =>
      y ← f x;
      rest ← map_items f l';
      Return (y :: rest)
  end.

Definition arr_map (f : value -> result value) (v : value)
  : result (list value) :=
  match v with
  | VArr l => map_items f l
  | _ => Throw TypeError
  end.

(** [s.includes(sub)] *)
Fixpoint includes (s sub : jsstring) : bool :=
  startsWith s sub
  || match s with
     | [] => false
     | _ :: s' => includes s' sub
     end.

(** [{...d}] for a value [d]: the own properties of an object. *)
Definition props_of (d : value) : obj :=
  match d with
  | VObj o => o
  | _ => []
  end.

Section WithEnv.
Variable env : Env.

(** Its [catch] block logs and rethrows. *)
Definition createPavilion (data : obj) : M value :=
  currentTenant ← gets currentTenant;
  if negb (truthy currentTenant) then throw (Error msg_auth_required_create)
  else
    now ← Date_now;
    let pavilionData :=
      obj_set (lit "updated_at") (VStr (toISOString env now))
        (obj_set (lit "created_at") (VStr (toISOString env now))
           (obj_set (lit "tenant_id") (prop currentTenant (lit "id"))
              (obj_spread [] data))) in
    response ← supabaseRequest env
      (lit "/rest/v1/" ++ TABLES_PAVILIONS)
      POST (Some (JSON_stringify env (VObj pavilionData)));
    if truthy response && truthy (index0 response) then
      pavilions_push (index0 response);;
      clearCacheData (lit "pavilions");;
      mret (index0 response)
    else throw (Error msg_create_failed).

(** The callback of updateDiscount's [map]. *)
Definition merge_discount (discountId : jsstring) (data : obj) (now : Z)
    (d : value) : result value :=
  did ← get_prop d (lit "id");
  if strict_eq did (VStr discountId)
  then Return (VObj (obj_set (lit "updated_at") (VStr (toISOString env now))
                       (obj_spread (obj_spread [] (props_of d)) data)))
  else Return d.

Definition updateDiscount (pavilionId discountId : jsstring) (data : obj)
  : M value :=
  currentTenant ← gets currentTenant;
  if negb (truthy currentTenant) then throw (Error msg_auth_required)
  else
    pavilion ← getPavilionById env pavilionId;
    if negb (truthy pavilion) then throw (Error msg_pavilion_not_found)
    else if negb (strict_eq (prop pavilion (lit "tenant_id"))
                            (prop currentTenant (lit "id")))
    then throw (Error msg_not_owner_update_discount)
    else
      let stored := prop pavilion (lit "discounts") in
      now ← Date_now;
      discounts ← lift (arr_map (merge_discount discountId data now)
                          (if truthy stored then stored else VArr []));
      updatePavilion env pavilionId [(lit "discounts", VArr discounts)].

Definition getTenantByPhone (phone : jsstring) : M value :=
  try_catch
    (response ← supabaseRequest env
       (lit "/rest/v1/" ++ TABLES_TENANTS ++ lit "?phone=eq." ++ phone
        ++ lit "&select=*") GET None;
     if truthy response && gt_zero env (prop response (lit "length")) then
       (* the log line reads response[0].name *)
       _ ← lift (get_prop (index0 response) (lit "name"));
       mret (index0 response)
     else mret VNull)
    (fun _ => mret VNull).

(** [filterByCategory] and [getPavilionsByTenant] have no [try]: what
    their callback throws goes to the caller. *)
Definition filterByCategory (category : jsstring) : M value :=
  ps ← gets pavilions;
  if str_eqb category [] then mret ps                     (* !category *)
  else
    results ← lift (arr_filter
                      (fun p => c ← get_prop p (lit "category");
                                Return (strict_eq c (VStr category))) ps);
    mret (VArr results).

Definition getPavilionsByTenant (tenantId : jsstring) : M value :=
  if str_eqb tenantId [] then mret (VArr [])              (* !tenantId *)
  else
    ps ← gets pavilions;
    results ← lift (arr_filter
                      (fun p => t ← get_prop p (lit "tenant_id");
                                Return (strict_eq t (VStr tenantId))) ps);
    mret (VArr results).

(** [String.prototype.toLowerCase], a built-in taken as given. *)
Variable toLowerCase : jsstring -> jsstring.

(** [(v || '').toLowerCase()]: a value that is truthy and not a string
    has no such method. *)
Definition lower_or_empty (v : value) : result jsstring :=
  if truthy v then
    match v with
    | VStr s => Return (toLowerCase s)
    | _ => Throw TypeError
    end
  else Return [].

(** The callback of searchPavilions' [filter]. *)
Definition matches_query (lowerQuery : jsstring) (pavilion : value)
  : result bool :=
  n ← get_prop pavilion (lit "name");
  name ← lower_or_empty n;
  c ← get_prop pavilion (lit "category");
  category ← lower_or_empty c;
  t ← get_prop pavilion (lit "tenant_name");
  tenantName ← lower_or_empty t;
  Return (includes name lowerQuery
          || includes category lowerQuery
          || includes tenantName lowerQuery).

Definition searchPavilions (query : jsstring) : M value :=
  try_catch
    (ps ← gets pavilions;
     if str_eqb query [] || (length (trim query) =? 0)%nat then mret ps
     else
       let lowerQuery := toLowerCase query in
       results ← lift (arr_filter (matches_query lowerQuery) ps);
       mret (VArr results))
    (fun _ => mret (VArr [])).

End WithEnv.

End DataOps.

(* ================================================================== *)
(** * auth.js: the session *)
(* ================================================================== *)

Module Session.
Import JS Net Auth.

Definition SESSION_KEY : jsstring := lit "aprashka_auth_session".

Definition msg_input_not_found : jsstring :=
  lit "Поле ввода номера телефона не найдено".
Definition msg_contact_administration : jsstring :=
  lit "Свяжитесь с Администрацией Апраксиного двора".
Definition msg_login_failed : jsstring :=
  lit "Ошибка при входе. Попробуйте ещё раз".

(** The page auth.js runs in.  [window.Auth.getCurrentTenant] is what
    data.js reads, so AuthState.currentTenant, the storage and the clock
    are those of the access layer's world.  The header button and the
    error element of the document are not part of it. *)
Record Page : Type := {
  data : Data.World;
  isLoading : bool;                 (* AuthState.isLoading *)
  lastActivity : option Z;          (* AuthState.lastActivity *)
  isInitialized : bool;             (* AuthState.isInitialized *)
  alerts : list jsstring;           (* texts given to alert, oldest first *)
  (** values assigned to window.location.href, oldest first; the one the
      login handler assigns from its timer is listed when it is set up *)
  location : list jsstring;
}.

Definition with_data (d : Data.World) (p : Page) : Page :=
  {| data := d; isLoading := isLoading p; lastActivity := lastActivity p;
     isInitialized := isInitialized p; alerts := alerts p;
     location := location p |}.

Definition with_isLoading (b : bool) (p : Page) : Page :=
  {| data := data p; isLoading := b; lastActivity := lastActivity p;
     isInitialized := isInitialized p; alerts := alerts p;
     location := location p |}.

Definition with_currentTenant (v : value) (p : Page) : Page :=
  with_data
    {| Data.currentTenant := v; Data.pavilions := Data.pavilions (data p);
       Data.localStorage := Data.localStorage (data p);
       Data.clock := Data.clock (data p); Data.seed := Data.seed (data p);
       Data.network := Data.network (data p);
       Data.requests := Data.requests (data p) |} p.

Definition with_storage (st : gmap jsstring jsstring) (p : Page) : Page :=
  with_data (Data.with_localStorage st (data p)) p.

Definition navigate (href : jsstring) (p : Page) : Page :=
  {| data := data p; isLoading := isLoading p; lastActivity := lastActivity p;
     isInitialized := isInitialized p; alerts := alerts p;
     location := location p ++ [href] |}.

Definition getCurrentTenant (p : Page) : value := Data.currentTenant (data p).

Definition isAuthenticated (p : Page) : bool :=
  negb (strict_eq (getCurrentTenant p) VNull).

Definition canEditPavilions (p : Page) : bool := isAuthenticated p.

(** [alert] of the message; the page's error element is left out. *)
Definition showAuthError (message : jsstring) (p : Page) : Page :=
  {| data := data p; isLoading := isLoading p; lastActivity := lastActivity p;
     isInitialized := isInitialized p;
     alerts := alerts p ++ [lit "❌ " ++ message];
     location := location p |}.

Definition logout (p : Page) : Page :=
  let p1 := with_currentTenant VNull p in
  let p2 :=
    {| data := data p1; isLoading := isLoading p1; lastActivity := None;
       isInitialized := isInitialized p1; alerts := alerts p1;
       location := location p1 |} in
  let p3 := with_storage (delete SESSION_KEY (Data.localStorage (data p2))) p2 in
  navigate (lit "index.html") p3.

(** [redirectTo] is [options.redirectTo] when it is given. *)
Definition requireAuth (redirectTo : option jsstring) (p : Page)
  : result bool * Page :=
  let redirectTo := default (lit "index.html") redirectTo in
  if negb (isAuthenticated p) then (Return false, navigate redirectTo p)
  else
    (* the log line reads AuthState.currentTenant.phone *)
    match get_prop (getCurrentTenant p) (lit "phone") with
    | Throw e => (Throw e, p)
    | Return _ => (Return true, p)
    end.

Section WithEnv.
Variable env : Env.

(** The object createSession keeps of a tenant. *)
Definition session_record (tenant : value) (now : Z) : value :=
  VObj [(lit "id", prop tenant (lit "id"));
        (lit "name", prop tenant (lit "name"));
        (lit "phone", prop tenant (lit "phone"));
        (lit "email",
           if truthy (prop tenant (lit "email"))
           then prop tenant (lit "email") else VNull);
        (lit "approved", prop tenant (lit "approved"));
        (lit "created_at", prop tenant (lit "created_at"));
        (lit "loginTime", VStr (toISOString env now))].

Definition createSession (tenant : value) (p : Page) : result unit * Page :=
  (* the log line reads tenant.phone *)
  match get_prop tenant (lit "phone") with
  | Throw e => (Throw e, p)
  | Return _ =>
      let p1 :=
        with_currentTenant (session_record tenant (Data.clock (data p))) p in
      let p2 :=
        with_storage
          (<[SESSION_KEY := JSON_stringify env (getCurrentTenant p1)]>
             (Data.localStorage (data p1))) p1 in
      (Return tt, p2)
  end.

(** [config_found]: window.SupabaseConfig or the meta tags give a URL and
    a key.  The configuration initAuth copies is the [Env] the other
    functions run in.  The [catch] block logs the error and the function
    returns. *)
Definition initAuth (config_found : bool) (p : Page) : Page :=
  let finish (p : Page) : Page :=
    {| data := data p; isLoading := isLoading p;
       lastActivity := Some (Data.clock (data p));
       isInitialized := true; alerts := alerts p; location := location p |} in
  if negb config_found then p
  else
    match Data.localStorage (data p) !! SESSION_KEY with
    | Some savedSession =>
        if str_eqb savedSession [] then finish p
        else
          match JSON_parse env savedSession with
          | None => p
          | Some session =>
              let p1 := with_currentTenant session p in
              (* the log line reads AuthState.currentTenant.phone *)
              match get_prop (getCurrentTenant p1) (lit "phone") with
              | Throw _ => p1
              | Return _ => finish p1
              end
          end
    | None => finish p
    end.

(** [error.message] of what the engine or fetch raised. *)
Variable engine_message : exn -> jsstring.

Definition message (e : exn) : jsstring :=
  match e with
  | Error m => m
  | _ => engine_message e
  end.

(** The submit handler of the login form.  [input] is the value of the
    phone field, [None] when the form has no such field; [fetch] is the
    network's answer, as for [checkPhone]. *)
Definition handleLoginFormSubmit (fetch : Request -> FetchResult)
    (input : option jsstring) (p : Page) : Page :=
  let p0 := with_isLoading true p in
  let attempt : result unit * Page :=
    match input with
    | None => (Throw (Error msg_input_not_found), p0)
    | Some phone =>
        match formatPhoneNumber phone with
        | Throw e => (Throw e, p0)
        | Return formattedPhone =>
            match checkPhone env fetch formattedPhone with
            | Throw e => (Throw e, p0)
            | Return tenant =>
                if negb (truthy tenant)
                then (Return tt,
                      with_isLoading false
                        (showAuthError msg_contact_administration p0))
                else
                  match createSession tenant p0 with
                  | (Throw e, p1) => (Throw e, p1)
                  | (Return _, p1) => (Return tt, navigate (lit "admin.html") p1)
                  end
            end
        end
    end in
  let caught :=
    match attempt with
    | (Throw e, p1) =>
        showAuthError
          (if str_eqb (message e) [] then msg_login_failed else message e) p1
    | (Return _, p1) => p1
    end in
  with_isLoading false caught.

End WithEnv.

End Session.

(* ================================================================== *)
(** * sw.js: the message listener *)
(* ================================================================== *)

Module ServiceWorkerEvents.
Import JS ServiceWorker.

(** [response.ok]: a status from 200 to 299. *)
Definition response_ok (r : Response) : bool :=
  (200 <=? status r) && (status r <=? 299).

(** [caches.open(name)]: the cache is created, empty and last, when there
    is none of that name. *)
Definition caches_open (name : jsstring) (cs : CacheStorage) : CacheStorage :=
  if existsb (fun c => str_eqb c.1 name) cs then cs else cs ++ [(name, [])].

Section WithRequests.
(** [new Request(url)]: the request [cache.add(url)] fetches, its URL
    resolved against the worker's location. *)
Variable new_Request : jsstring -> Request.

(** [cache.add(url)] on the cache [name], followed by the handler's
    [.catch]: the URL is fetched, and the response is stored when it is ok
    and the failure dropped when it is not. *)
Definition cache_add_or_warn (name u : jsstring) (w : World) : World :=
  let (o, w1) := fetch (new_Request u) w in
  match o ≫= answer with
  | Some r =>
      if response_ok r
      then {| caches := caches_put name (url (new_Request u)) r (caches w1);
              network := network w1; fetched := fetched w1 |}
      else w1
  | None => w1
  end.

(** The message listener.  [type] is [event.data.type] and [urls] is
    [event.data.payload.urls] when it is an array.  The result says
    whether [self.skipWaiting()] was called. *)
Definition on_message (type : jsstring) (urls : option (list jsstring))
    (w : World) : bool * World :=
  if str_eqb type (lit "SKIP_WAITING") then (true, w)
  else if str_eqb type (lit "CLEAR_CACHE") then
    let cacheNames := map fst (caches w) in
    (false,
     {| caches := fold_left (fun cs n => caches_delete n cs) cacheNames (caches w);
        network := network w; fetched := fetched w |})
  else if str_eqb type (lit "CACHE_URLS") then
    match urls with
    | Some us =>
        let w0 := {| caches := caches_open CACHE_NAME (caches w);
                     network := network w; fetched := fetched w |} in
        (false, fold_left (fun w' u => cache_add_or_warn CACHE_NAME u w') us w0)
    | None => (false, w)
    end
  else (false, w).

End WithRequests.

End ServiceWorkerEvents.

(* ================================================================== *)
(** * A browser to run the code in *)
(* ================================================================== *)

(** A small implementation of the built-ins of [Env], enough to run the
    functions above on concrete inputs.  Its JSON is text without white
    space, string escapes or fractions; its dates and random strings are
    stand-ins. *)
Module Browser.
Import JS.

Definition quote : jsstring := [34%N].

Fixpoint print_items (pr : value -> jsstring) (l : list value) : jsstring :=
  match l with
  | [] => []
  | v :: l' =>
      match l' with
      | [] => pr v
      | _ => pr v ++ lit "," ++ print_items pr l'
      end
  end.

Fixpoint print_props (pr : value -> jsstring) (o : list (jsstring * value))
  : jsstring :=
  match o with
  | [] => []
  | (k, v) :: o' =>
      match o' with
      | [] => quote ++ k ++ quote ++ lit ":" ++ pr v
      | _ => quote ++ k ++ quote ++ lit ":" ++ pr v ++ lit "," ++ print_props pr o'
      end
  end.

Fixpoint print (v : value) : jsstring :=
  match v with
  | VUndef | VNull => lit "null"
  | VBool true => lit "true"
  | VBool false => lit "false"
  | VNum n => number_to_string n
  | VStr s => quote ++ s ++ quote
  | VArr l => lit "[" ++ print_items print l ++ lit "]"
  | VObj o => lit "{" ++ print_props print o ++ lit "}"
  end.

Definition eat (c : code_unit) (s : jsstring) : option jsstring :=
  match s with
  | d :: r => if (c =? d)%N then Some r else None
  | [] => None
  end.

Definition eat_word (word s : jsstring) : option jsstring :=
  if startsWith s word then Some (drop (length word) s) else None.

Fixpoint read_string (s : jsstring) : option (jsstring * jsstring) :=
  match s with
  | [] => None
  | c :: r =>
      if (c =? 34)%N then Some ([], r)
      else '(t, r') ← read_string r; Some (c :: t, r')
  end.

Fixpoint read_digits (s : jsstring) (acc : Z) : Z * jsstring :=
  match s with
  | c :: r =>
      if is_digit c then read_digits r (acc * 10 + (Z.of_N c - 48))
      else (acc, s)
  | [] => (acc, [])
  end.

Fixpoint parse_value (fuel : nat) (s : jsstring) : option (value * jsstring) :=
  match fuel with
  | O => None
  | S f =>
      match s with
      | [] => None
      | c :: r =>
          if (c =? 110)%N then r' ← eat_word (lit "null") s; Some (VNull, r')
          else if (c =? 116)%N then r' ← eat_word (lit "true") s; Some (VBool true, r')
          else if (c =? 102)%N then r' ← eat_word (lit "false") s; Some (VBool false, r')
          else if (c =? 34)%N then '(t, r') ← read_string r; Some (VStr t, r')
          else if (c =? 91)%N then
            match eat 93%N r with
            | Some r' => Some (VArr [], r')
            | None => '(l, r') ← parse_items f r; Some (VArr l, r')
            end
          else if (c =? 123)%N then
            match eat 125%N r with
            | Some r' => Some (VObj [], r')
            | None => '(o, r') ← parse_members f r; Some (VObj o, r')
            end
          else if (c =? 45)%N then
            let '(n, r') := read_digits r 0 in Some (VNum (- n), r')
          else if is_digit c then
            let '(n, r') := read_digits s 0 in Some (VNum n, r')
          else None
      end
  end
with parse_items (fuel : nat) (s : jsstring) : option (list value * jsstring) :=
  match fuel with
  | O => None
  | S f =>
      '(v, r) ← parse_value f s;
      match eat 44%N r with
      | Some r' => '(l, r'') ← parse_items f r'; Some (v :: l, r'')
      | None => r' ← eat 93%N r; Some ([v], r')
      end
  end
with parse_members (fuel : nat) (s : jsstring)
  : option (list (jsstring * value) * jsstring) :=
  match fuel with
  | O => None
  | S f =>
      r0 ← eat 34%N s;
      '(k, r1) ← read_string r0;
      r2 ← eat 58%N r1;
      '(v, r3) ← parse_value f r2;
      match eat 44%N r3 with
      | Some r' => '(o, r'') ← parse_members f r'; Some ((k, v) :: o, r'')
      | None => r' ← eat 125%N r3; Some ([(k, v)], r')
      end
  end.

Definition parse (s : jsstring) : option value :=
  match parse_value (S (length s)) s with
  | Some (v, []) => Some v
  | _ => None
  end.

(** Escapes what a query string reserves among the characters of a
    phone number. *)
Definition encode (s : jsstring) : jsstring :=
  flat_map (fun c => if (c =? 43)%N then lit "%2B"
                     else if (c =? 32)%N then lit "%20" else [c]) s.

Definition env : Env :=
  {| JSON_stringify := print;
     JSON_parse := parse;
     JSON_parse_empty := eq_refl;
     ToNumber_object := fun _ => None;
     encodeURIComponent := encode;
     toISOString := fun t => lit "T" ++ number_to_string t;
     random36 := fun n => lit "r" ++ number_to_string (Z.of_N n);
     SUPABASE_URL := lit "https://example.supabase.co";
     SUPABASE_ANON_KEY := Some (lit "anon-key") |}.

End Browser.

(* ================================================================== *)
(** * Sample data *)
(* ================================================================== *)

Module Sample.
Import JS.

Definition approved_tenant : obj :=
  [(lit "id", VStr (lit "t-1")); (lit "phone", VStr (lit "+79991234567"));
   (lit "name", VStr (lit "Anna")); (lit "approved", VBool true)].

Definition pending_tenant : obj :=
  [(lit "id", VStr (lit "t-2")); (lit "phone", VStr (lit "+79990000000"));
   (lit "name", VStr (lit "Boris")); (lit "approved", VBool false)].

Definition tenants_table : list obj := [pending_tenant; approved_tenant].



(** A service worker holding a stale cache, the current one and a cache
    of another application; the network will answer 200 and then 404. *)
Definition page_response : ServiceWorker.Response :=
  {| ServiceWorker.status := 200; ServiceWorker.statusText := lit "OK";
     ServiceWorker.body := lit "<html></html>" |}.

Definition missing_response : ServiceWorker.Response :=
  {| ServiceWorker.status := 404; ServiceWorker.statusText := lit "Not Found";
     ServiceWorker.body := [] |}.

Definition sw_world : ServiceWorker.World :=
  {| ServiceWorker.caches :=
       [(lit "apra-shka-v0", [(lit "/index.html", page_response)]);
        (lit "apra-shka-v1", [(lit "/index.html", page_response)]);
        (lit "other-app", [])];
     ServiceWorker.network :=
       [{| ServiceWorker.delay := 20; ServiceWorker.answer := Some page_response |};
        {| ServiceWorker.delay := 20; ServiceWorker.answer := Some missing_response |}];
     ServiceWorker.fetched := [] |}.

Definition style_request : ServiceWorker.Request :=
  {| ServiceWorker.method := lit "GET";
     ServiceWorker.url := lit "https://apra.example/css/style.css";
     ServiceWorker.pathname := lit "/css/style.css" |}.

(** The access layer with tenant t-1 signed in, two pavilions in memory
    (the first one the tenant's own, with one discount), an empty storage
    and a network that answers the next request with the patched row. *)
Definition winter_discount : value :=
  VObj [(lit "id", VStr (lit "d-1")); (lit "title", VStr (lit "Winter"))].

Definition own_pavilion : obj :=
  [(lit "id", VStr (lit "p-1")); (lit "tenant_id", VStr (lit "t-1"));
   (lit "name", VStr (lit "Shoes")); (lit "discounts", VArr [winter_discount])].

Definition other_pavilion : obj :=
  [(lit "id", VStr (lit "p-2")); (lit "tenant_id", VStr (lit "t-2"));
   (lit "name", VStr (lit "Hats")); (lit "discounts", VArr [])].

Definition patched_answer : Net.FetchResult :=
  Net.Responds {| Net.ok := true; Net.status := 200; Net.text := [];
                  Net.json := Some (VArr [VObj own_pavilion]) |}.

Definition data_world : Data.World :=
  {| Data.currentTenant := VObj approved_tenant;
     Data.pavilions := VArr [VObj own_pavilion; VObj other_pavilion];
     Data.localStorage := ∅;
     Data.clock := 1700000000000;
     Data.seed := 0;
     Data.network := [patched_answer];
     Data.requests := [] |}.

End Sample.

(** More sample data: the service worker before an API call that succeeds
    and one that is rejected, and two pages of the login flow. *)
Module Scenario.
Import JS.

Definition api_request : ServiceWorker.Request :=
  {| ServiceWorker.method := lit "GET";
     ServiceWorker.url := lit "https://db.example/rest/v1/pavilions?select=*";
     ServiceWorker.pathname := lit "/rest/v1/pavilions" |}.

Definition api_response : ServiceWorker.Response :=
  {| ServiceWorker.status := 200; ServiceWorker.statusText := lit "OK";
     ServiceWorker.body := lit "[]" |}.

Definition in_time : ServiceWorker.Outcome :=
  {| ServiceWorker.delay := 120; ServiceWorker.answer := Some api_response |}.

Definition api_world : ServiceWorker.World :=
  {| ServiceWorker.caches := [(lit "other-app", []); (lit "apra-shka-v1", [])];
     ServiceWorker.network :=
       [in_time; {| ServiceWorker.delay := 30; ServiceWorker.answer := None |}];
     ServiceWorker.fetched := [] |}.

Definition static_answer : ServiceWorker.Outcome :=
  {| ServiceWorker.delay := 20; ServiceWorker.answer := Some Sample.page_response |}.

(** A pavilion whose coordinates object holds no numbers yet, and one
    whose coordinates are NaN (what parseFloat gives for an empty field). *)
Definition unplaced_pavilion : FloorPlan.Pavilion :=
  {| FloorPlan.pavilion_number := lit "2.01";
     FloorPlan.coordinates :=
       Some {| FloorPlan.x := None; FloorPlan.y := None |} |}.

Definition nan_pavilion : FloorPlan.Pavilion :=
  {| FloorPlan.pavilion_number := lit "2.02";
     FloorPlan.coordinates :=
       Some {| FloorPlan.x := Some PrimFloat.nan; FloorPlan.y := Some PrimFloat.nan |} |}.

(** The tenant's pavilion with a null among its discounts, alone in
    memory. *)
Definition legacy_pavilion : obj :=
  [(lit "id", VStr (lit "p-3")); (lit "tenant_id", VStr (lit "t-1"));
   (lit "name", VStr (lit "Bags"));
   (lit "discounts", VArr [VNull; Sample.winter_discount])].

Definition legacy_world : Data.World :=
  Data.with_pavilions (VArr [VObj legacy_pavilion]) Sample.data_world.

(** A tenant row with every column the session keeps. *)
Definition tenant_row : value :=
  VObj [(lit "id", VStr (lit "t-1")); (lit "name", VStr (lit "Anna"));
        (lit "phone", VStr (lit "+79991234567"));
        (lit "email", VStr (lit "anna@example.org"));
        (lit "approved", VBool true);
        (lit "created_at", VStr (lit "2024-01-01T00:00:00Z"))].

(** The login page: nobody signed in. *)
Definition login_page : Session.Page :=
  Session.with_currentTenant VNull
    {| Session.data := Sample.data_world; Session.isLoading := false;
       Session.lastActivity := None; Session.isInitialized := false;
       Session.alerts := []; Session.location := [] |}.

(** A page opened with a session in the storage whose tenant is not
    approved. *)
Definition returning_page : Session.Page :=
  Session.with_storage
    {[ Session.SESSION_KEY
       := JSON_stringify Browser.env (VObj Sample.pending_tenant) ]}
    login_page.

End Scenario.

(* ================================================================== *)
(** * Vocabulary of the properties *)
(* ================================================================== *)

Section AuthVocabulary.
Import JS Net Auth.

(** The digits of the input, a leading 8 replaced by 7. *)
Definition normalized_digits (phone : jsstring) : jsstring :=
  match filter (fun c => is_digit c = true) phone with
  | d :: rest => if (d =? 56)%N then 55%N :: rest else d :: rest
  | [] => []
  end.

(** The rows of the tenants table whose phone column equals the number:
    what the query [?phone=eq.<number>&select=*] selects. *)
Definition rows_with_phone (table : list obj) (phone : jsstring) : list obj :=
  filter (fun row => strict_eq (obj_get (lit "phone") row) (VStr phone) = true)
         table.

(** The endpoint's answer carrying the selected rows. *)
Definition select_answer (env : Env) (rows : list obj) : FetchResult :=
  Responds {| ok := true; status := 200;
              text := JSON_stringify env (VArr (VObj <$> rows));
              json := Some (VArr (VObj <$> rows)) |}.

End AuthVocabulary.

Section FloorPlanVocabulary.
Import JS FloorPlan.

Local Open Scope float_scope.



(** The stored coordinates lie within five percent of the click on both
    axes, read as they are stored: both components are numbers, and each
    differs from the click's by less than 5. *)
Definition stored_within (xPercent yPercent : float) (c : Coordinates) : Prop :=
  exists px py,
    x c = Some px /\ y c = Some py
    /\ (PrimFloat.abs (px - xPercent) <? 5) = true
    /\ (PrimFloat.abs (py - yPercent) <? 5) = true.

End FloorPlanVocabulary.

Section DataVocabulary.
Import JS Net Data.
Variable env : Env.

(** The requests that change the database. *)
Definition writes (rs : list Request) : list Request :=
  filter (fun r => method r <> GET) rs.

(** The page's own state: everything but the network and its record. *)
Definition same_page (w w' : World) : Prop :=
  currentTenant w' = currentTenant w
  /\ pavilions w' = pavilions w
  /\ localStorage w' = localStorage w
  /\ clock w' = clock w
  /\ seed w' = seed w.

(** The world seen from the network: same calls made, same answers to
    come. *)
Definition same_network (w w' : World) : Prop :=
  requests w' = requests w /\ network w' = network w.

(** The cache entry setCacheData writes. *)
Definition cache_entry (v : value) (timestamp : Z) : value :=
  VObj [(lit "value", v); (lit "timestamp", VNum timestamp)].

(** The endpoint getPavilionById queries. *)
Definition lookup_endpoint (id : jsstring) : jsstring :=
  lit "/rest/v1/" ++ TABLES_PAVILIONS ++ lit "?id=eq." ++ id ++ lit "&select=*".

(** The two requests updatePavilion can send. *)
Definition lookup_request (id : jsstring) : Request :=
  {| url := SUPABASE_URL env ++ lookup_endpoint id; method := GET; body := None |}.

Definition patch_request (id : jsstring) (data : obj) (now : Z) : Request :=
  {| url := SUPABASE_URL env ++ lit "/rest/v1/" ++ TABLES_PAVILIONS
            ++ lit "?id=eq." ++ id;
     method := PATCH;
     body := Some (JSON_stringify env
                     (VObj (obj_set (lit "updated_at")
                              (VStr (toISOString env now))
                              (obj_spread [] data)))) |}.

(** One of the three checks of updatePavilion and deletePavilion fails. *)
Definition checks_fail (id : jsstring) (w : World) : Prop :=
  (* no tenant is authenticated *)
  truthy (currentTenant w) = false
  \/ exists pavilion w1,
       getPavilionById env id w = (Return pavilion, w1)
       /\ ((* the pavilion does not exist *)
           truthy pavilion = false
           \/ (* it belongs to another tenant *)
           strict_eq (prop pavilion (lit "tenant_id"))
                     (prop (currentTenant w) (lit "id")) = false).

(** A refused call: an error, no write, the list in memory as it was. *)
Definition refused (w : World) (run : result value * World) : Prop :=
  exists e, run.1 = Throw e
    /\ writes (requests run.2) = writes (requests w)
    /\ pavilions run.2 = pavilions w.

(** The array [pavilion.discounts] as addDiscount and removeDiscount read
    it: empty when the field is missing. *)
Definition stored_discounts (pavilion : value) : list value :=
  let stored := prop pavilion (lit "discounts") in
  if truthy stored && is_array stored then items_of stored else [].

(** A write of the discounts of pavilion [id]: a PATCH of its row in the
    pavilions table whose body holds the field discounts and the time
    stamp updated_at, nothing else. *)
Definition discounts_patch (id : jsstring) (discounts : list value)
    (r : Request) : Prop :=
  exists now,
    r = {| url := SUPABASE_URL env ++ lit "/rest/v1/pavilions?id=eq." ++ id;
           method := PATCH;
           body := Some (JSON_stringify env
                           (VObj [(lit "discounts", VArr discounts);
                                  (lit "updated_at", VStr (toISOString env now))])) |}.

(** The requests [extra] of a run: reads of the pavilions table, and
    writes of the discounts field of the pavilion's row. *)
Definition embedded_only (id : jsstring) (discounts : list value)
    (extra : list Request) : Prop :=
  Forall (fun r =>
            startsWith (url r) (SUPABASE_URL env ++ lit "/rest/v1/pavilions?") = true
            /\ (method r <> GET -> discounts_patch id discounts r)) extra.

(** The write of the discounts of pavilion [id] at time [now]: the PATCH
    of its row in the pavilions table whose body holds the field
    discounts and the time stamp updated_at, nothing else. *)
Definition discounts_write (id : jsstring) (discounts : list value) (now : Z)
  : Request :=
  {| url := SUPABASE_URL env ++ lit "/rest/v1/pavilions?id=eq." ++ id;
     method := PATCH;
     body := Some (JSON_stringify env
                     (VObj [(lit "discounts", VArr discounts);
                            (lit "updated_at", VStr (toISOString env now))])) |}.

(** The world in which addDiscount calls updatePavilion, from the world
    [w] in which the identifier has been drawn.  The array pushed to is
    the pavilion's own when the pavilion is held in memory, at [place],
    and its discounts are an array: the list in memory then sees the new
    entry before anything is sent. *)
Definition discounts_pushed (pavilion : value) (place : option nat)
    (discounts : list value) (w : World) : World :=
  let stored := prop pavilion (lit "discounts") in
  match truthy stored && is_array stored, place with
  | true, Some i => (push_in_place i discounts w).2
  | _, _ => w
  end.

(** The requests of a run, started in [w], that handed [discounts] for
    pavilion [id] to updatePavilion in world [w2].  When the pavilion is
    held in memory ([place] is its index) the write is the one request of
    the run.  In any case the write follows the lookup updatePavilion
    makes as soon as that lookup gives a pavilion of the tenant.  And no
    request of the run is anything but a read of the pavilions table or
    that write. *)
Definition writes_discounts (id : jsstring) (discounts : list value)
    (place : option nat) (w w2 : World) (run : result value * World) : Prop :=
  (is_Some place ->
   requests run.2 = requests w ++ [discounts_write id discounts (clock w)])
  /\ (forall pavilion2 place2 w3,
        lookupPavilion env id w2 = (Return (pavilion2, place2), w3) ->
        truthy pavilion2 = true ->
        strict_eq (prop pavilion2 (lit "tenant_id"))
                  (prop (currentTenant w) (lit "id")) = true ->
        requests run.2 = requests w3 ++ [discounts_write id discounts (clock w)])
  /\ exists extra,
       requests run.2 = requests w ++ extra
       /\ embedded_only id discounts extra.

End DataVocabulary.

Section DataOpsVocabulary.
Import JS Net Data DataOps.
Variable env : Env.

(** The callback returned true (and did not throw). *)
Definition returns_true (r : result bool) : bool :=
  match r with
  | Return true => true
  | _ => false
  end.

(** The key under which the pavilion list is cached. *)
Definition pavilions_cache_key : jsstring := CACHE_PREFIX ++ lit "pavilions".

(** The record createPavilion sends for [data] at time [now]. *)
Definition new_pavilion_record (tenant : value) (data : obj) (now : Z) : obj :=
  obj_set (lit "updated_at") (VStr (toISOString env now))
    (obj_set (lit "created_at") (VStr (toISOString env now))
       (obj_set (lit "tenant_id") (prop tenant (lit "id"))
          (obj_spread [] data))).

Definition create_request (tenant : value) (data : obj) (now : Z) : Request :=
  {| url := SUPABASE_URL env ++ lit "/rest/v1/pavilions";
     method := POST;
     body := Some (JSON_stringify env (VObj (new_pavilion_record tenant data now))) |}.

(** The request getAllPavilions sends on a cache miss. *)
Definition list_request : Request :=
  {| url := SUPABASE_URL env ++ lit "/rest/v1/pavilions?select=*";
     method := GET; body := None |}.

(** The request getTenantByPhone sends. *)
Definition tenant_request (phone : jsstring) : Request :=
  {| url := SUPABASE_URL env ++ lit "/rest/v1/tenants?phone=eq." ++ phone
            ++ lit "&select=*";
     method := GET; body := None |}.

(** What updateDiscount makes of one stored discount. *)
Definition merged_discount (discountId : jsstring) (data : obj) (now : Z)
    (d : value) : value :=
  if strict_eq (prop d (lit "id")) (VStr discountId)
  then VObj (obj_set (lit "updated_at") (VStr (toISOString env now))
               (obj_spread (obj_spread [] (props_of d)) data))
  else d.

End DataOpsVocabulary.

(* ================================================================== *)
(** * Properties: auth.js *)
(* ================================================================== *)

Section AuthFacts.
Import JS Net Auth.

Lemma normalized_digits_length phone :
  length (normalized_digits phone)
  = length (filter (fun c => is_digit c = true) phone).
Proof.
  unfold normalized_digits.
  destruct (filter _ phone) as [|d rest]; [done|].
  by destruct (d =? 56)%N.
Qed.

Lemma normalized_digits_all_digits phone :
  forallb is_digit (normalized_digits phone) = true.
Proof.
  unfold normalized_digits.
  assert (Hall : Forall (fun c => is_digit c = true)
                   (filter (fun c => is_digit c = true) phone)).
  { apply Forall_forall. intros c Hc. by apply list_elem_of_filter in Hc as [? _]. }
  destruct (filter _ phone) as [|d rest]; [done|].
  inversion Hall as [|? ? Hd Hrest]; subst.
  assert (forallb is_digit rest = true) as Hr.
  { apply forallb_forall. intros c Hc. rewrite Forall_forall in Hrest.
    apply Hrest. by apply list_elem_of_In. }
  destruct (d =? 56)%N; simpl; rewrite ?Hd, Hr; done.
Qed.

Lemma startsWith_nil s : startsWith s [] = true.
Proof. by destruct s. Qed.

Lemma startsWith_cons d s c p :
  startsWith (d :: s) (c :: p) = (c =? d)%N && startsWith s p.
Proof. done. Qed.

Lemma formatPhoneNumber_normalized phone :
  formatPhoneNumber phone
  = if (length (normalized_digits phone) =? 11)%nat
    then Return (43%N :: normalized_digits phone)
    else Throw (Error msg_must_have_11_digits).
Proof.
  unfold formatPhoneNumber, normalized_digits.
  change (lit "8") with [56%N]. change (lit "7") with [55%N].
  change (lit "+") with [43%N].
  destruct (filter _ phone) as [|d rest]; [done|].
  rewrite startsWith_cons, startsWith_nil, andb_true_r, N.eqb_sym.
  destruct (d =? 56)%N; cbn [app drop length]; rewrite ?drop_0;
    by destruct (S (length rest) =? 11)%nat.
Qed.

Lemma digit_not_ws c : is_digit c = true -> is_ws c = false.
Proof.
  unfold is_digit, is_ws. intros H.
  apply andb_true_iff in H as [H1 H2].
  apply N.leb_le in H1, H2.
  apply bool_decide_eq_false. intros Hin.
  repeat (apply elem_of_cons in Hin as [->|Hin]; [lia|]).
  by apply elem_of_nil in Hin.
Qed.

Lemma trimStart_keeps c s : is_ws c = false -> trimStart (c :: s) = c :: s.
Proof. intros H. simpl. by rewrite H. Qed.

Lemma trimEnd_keeps s c : is_ws c = false -> trimEnd (s ++ [c]) = s ++ [c].
Proof.
  intros H. unfold trimEnd. rewrite rev_app_distr. simpl.
  rewrite H. simpl. by rewrite rev_involutive.
Qed.

(** A plus sign followed by digits has nothing to trim. *)
Lemma trim_plus_digits ds :
  ds <> [] -> forallb is_digit ds = true -> trim (43%N :: ds) = 43%N :: ds.
Proof.
  intros Hne Hall. unfold trim.
  rewrite trimStart_keeps by (by vm_compute).
  destruct (exists_last Hne) as (front & c & ->).
  rewrite app_comm_cons. apply trimEnd_keeps, digit_not_ws.
  rewrite forallb_app in Hall. apply andb_true_iff in Hall as [_ Hc].
  simpl in Hc. by rewrite andb_true_r in Hc.
Qed.

End AuthFacts.

Section AuthClaims.
Import JS Net Auth.

(** C9: formatPhoneNumber throws exactly when the digits of the input, a
    leading 8 replaced by 7, are not 11 in number; otherwise it returns a
    plus sign followed by those digits, and validatePhoneNumber accepts
    that result if and only if the digits begin with 7. *)
Theorem formatPhoneNumber_validate (phone : jsstring) :
  let digits := normalized_digits phone in
  (length digits <> 11%nat ->
     formatPhoneNumber phone = Throw (Error msg_must_have_11_digits))
  /\ (length digits = 11%nat ->
        formatPhoneNumber phone = Return (lit "+" ++ digits)
        /\ (validatePhoneNumber (lit "+" ++ digits) = true
            <-> head digits = Some 55%N)).
Proof.
  intros digits. rewrite formatPhoneNumber_normalized. fold digits.
  change (lit "+") with [43%N]. cbn [app].
  split; intros Hlen.
  - apply Nat.eqb_neq in Hlen. by rewrite Hlen.
  - rewrite Hlen. split; [done|].
    pose proof (normalized_digits_all_digits phone) as Hall. fold digits in Hall.
    unfold validatePhoneNumber.
    rewrite trim_plus_digits; [|by intros ->|done].
    destruct digits as [|d ds]; [done|].
    simpl in Hlen. injection Hlen as Hlen.
    cbn [phoneRegex_test head]. simpl in Hall.
    apply andb_true_iff in Hall as [_ Hds].
    rewrite Hds, Hlen, N.eqb_refl, Nat.eqb_refl, !andb_true_r. cbn [andb].
    rewrite N.eqb_eq. split; [by intros ->|by intros [= ->]].
Qed.

Lemma strict_eq_str v s : strict_eq v (VStr s) = true <-> v = VStr s.
Proof.
  destruct v; simpl; try (split; [done|by intros [=]]).
  unfold str_eqb. rewrite bool_decide_eq_true.
  split; [by intros ->|by intros [= ->]].
Qed.

Lemma prop_length_arr l :
  prop (VArr l) (lit "length") = VNum (Z.of_nat (length l)).
Proof. done. Qed.

(** What checkPhone computes from a well-formed number and the selected
    rows: the first row when it is approved. *)
Lemma checkPhone_selected env fetch rows phone :
  validatePhoneNumber phone = true ->
  is_Some (SUPABASE_ANON_KEY env) ->
  fetch (checkPhone_request env phone) = select_answer env rows ->
  checkPhone env fetch phone
  = Return match rows with
           | [] => VNull
           | row :: _ =>
               if truthy (obj_get (lit "approved") row) then VObj row else VNull
           end.
Proof.
  intros Hvalid [key Hkey] Hfetch. unfold checkPhone.
  rewrite Hvalid, Hkey, Hfetch.
  cbn [negb select_answer ok json truthy orb mbind result_bind].
  rewrite prop_length_arr.
  destruct rows as [|row rows]; [done|].
  cbn [fmap list_fmap length index0 strict_eq].
  replace (Z.of_nat (S (length (list_fmap _ _ VObj rows))) =? 0) with false
    by (symmetry; apply Z.eqb_neq; lia).
  cbn [get_prop nullish mbind result_bind prop].
  by destruct (truthy _).
Qed.

(** C1, amended: a number that validatePhoneNumber rejects makes
    checkPhone throw the format error, whatever the configuration and the
    network, instead of returning null.  For a number in the format
    validatePhoneNumber accepts, answered by the tenants table (the page's
    configuration loaded), checkPhone returns normally; what it returns
    is null or a row of the table whose phone equals the number and whose
    approved flag is set; it is null when no row with that phone is
    approved (none matches, or the matching row is not approved). *)
Theorem checkPhone_whitelist (env : Env) (fetch : Request -> FetchResult)
    (table : list obj) (phone : jsstring) :
  (validatePhoneNumber phone = false ->
   checkPhone env fetch phone = Throw (Error msg_invalid_phone_format))
  /\ (validatePhoneNumber phone = true ->
      is_Some (SUPABASE_ANON_KEY env) ->
      fetch (checkPhone_request env phone)
        = select_answer env (rows_with_phone table phone) ->
      exists r, checkPhone env fetch phone = Return r
        /\ (r <> VNull ->
              exists row, r = VObj row /\ row ∈ table
                /\ obj_get (lit "phone") row = VStr phone
                /\ truthy (obj_get (lit "approved") row) = true)
        /\ ((forall row, row ∈ table ->
               obj_get (lit "phone") row = VStr phone ->
               truthy (obj_get (lit "approved") row) = false) ->
            r = VNull)).
Proof.
  split.
  { intros Hinvalid. unfold checkPhone. by rewrite Hinvalid. }
  intros Hvalid Hkey Hfetch.
  rewrite (checkPhone_selected _ _ _ _ Hvalid Hkey Hfetch).
  eexists; split; [done|].
  destruct (rows_with_phone table phone) as [|row rest] eqn:Hrows.
  { split; [done|done]. }
  assert (row ∈ rows_with_phone table phone) as Hin
    by (rewrite Hrows; apply list_elem_of_here).
  apply list_elem_of_filter in Hin as [Hphone Hin].
  apply strict_eq_str in Hphone.
  destruct (truthy (obj_get (lit "approved") row)) eqn:Happr.
  - split; [intros _; by exists row|].
    intros Hnone. specialize (Hnone row Hin Hphone). congruence.
  - split; [done|done].
Qed.

Lemma checkPhone_whitelist_witness :
  exists r,
    checkPhone Browser.env
      (fun _ => select_answer Browser.env
                  (rows_with_phone Sample.tenants_table (lit "+79991234567")))
      (lit "+79991234567") = Return r
    /\ (r <> VNull ->
          exists row, r = VObj row /\ row ∈ Sample.tenants_table
            /\ obj_get (lit "phone") row = VStr (lit "+79991234567")
            /\ truthy (obj_get (lit "approved") row) = true)
    /\ ((forall row, row ∈ Sample.tenants_table ->
           obj_get (lit "phone") row = VStr (lit "+79991234567") ->
           truthy (obj_get (lit "approved") row) = false) ->
        r = VNull).
Proof.
  apply (proj2 (checkPhone_whitelist Browser.env _ Sample.tenants_table
                  (lit "+79991234567"))).
  - vm_compute. reflexivity.
  - by eexists.
  - reflexivity.
Defined.

(** C1 as stated fails on a number that validatePhoneNumber rejects: the
    eleven digits 12345678901 are formatted to +12345678901, no row of the
    (empty) table matches it, and checkPhone throws instead of returning
    null. *)
Lemma checkPhone_malformed_number_throws :
  formatPhoneNumber (lit "12345678901") = Return (lit "+12345678901")
  /\ rows_with_phone [] (lit "+12345678901") = []
  /\ checkPhone Browser.env
       (fun _ => select_answer Browser.env (rows_with_phone [] (lit "+12345678901")))
       (lit "+12345678901")
     = Throw (Error msg_invalid_phone_format).
Proof. split; [|split]; vm_compute; reflexivity. Qed.

End AuthClaims.

(* ================================================================== *)
(** * Properties: floor-plan.service.js *)
(* ================================================================== *)

Section FloorPlanClaims.
Import JS FloorPlan.

Local Open Scope float_scope.

Lemma scan_none (l : list Pavilion) (xPercent yPercent : float) :
  scan l xPercent yPercent = None
  <-> forall pavilion c, pavilion ∈ l -> coordinates pavilion = Some c ->
        within_tolerance xPercent yPercent c = false.
Proof.
  induction l as [|p l IH]; simpl.
  - split; [|done]. intros _ q c Hq. by apply elem_of_nil in Hq.
  - destruct (coordinates p) as [c|] eqn:Hc.
    + destruct (within_tolerance xPercent yPercent c) eqn:Hw.
      * split; [done|]. intros H.
        specialize (H p c (list_elem_of_here _ _) Hc). congruence.
      * rewrite IH. split.
        -- intros H q c' Hq Hc'. apply elem_of_cons in Hq as [->|Hq].
           ++ congruence.
           ++ by apply (H q).
        -- intros H q c' Hq. apply H. by apply list_elem_of_further.
    + rewrite IH. split.
      * intros H q c' Hq Hc'. apply elem_of_cons in Hq as [->|Hq].
        -- congruence.
        -- by apply (H q).
      * intros H q c' Hq. apply H. by apply list_elem_of_further.
Qed.


Lemma findPavilionAtPoint_scan (l : list Pavilion) (xPercent yPercent : float) :
  findPavilionAtPoint l xPercent yPercent = scan l xPercent yPercent.
Proof. by destruct l. Qed.

(** C4, amended: findPavilionAtPoint returns null if and only if no
    pavilion of the list has a coordinates object whose x and y, each
    read as 0 when it is missing, zero or NaN (the code's [|| 0]), differ
    from the click's by less than 5 on both axes; the tolerance is the
    constant 5. *)
Theorem findPavilionAtPoint_null_iff (pavilionsList : list Pavilion)
    (xPercent yPercent : float) :
  tolerance = 5
  /\ (findPavilionAtPoint pavilionsList xPercent yPercent = None
      <-> ~ exists pavilion c,
            pavilion ∈ pavilionsList
            /\ coordinates pavilion = Some c
            /\ (PrimFloat.abs (or_zero (x c) - xPercent) <? 5) = true
            /\ (PrimFloat.abs (or_zero (y c) - yPercent) <? 5) = true).
Proof.
  split; [done|].
  rewrite findPavilionAtPoint_scan, scan_none. split.
  - intros H (p & c & Hp & Hc & Hx & Hy).
    specialize (H p c Hp Hc). unfold within_tolerance, tolerance in H.
    rewrite Hx, Hy in H. done.
  - intros H p c Hp Hc.
    destruct (within_tolerance xPercent yPercent c) eqn:Hw; [|done].
    exfalso. apply H. exists p, c.
    unfold within_tolerance, tolerance in Hw.
    apply andb_true_iff in Hw as [Hx Hy]. done.
Qed.

(** C4 as stated fails: a pavilion whose coordinates object holds no x
    and y, and one whose x and y are NaN, have no stored coordinate
    within 5 of the click at (1, 1), and each is returned for that click
    all the same, its components being read as 0. *)
Lemma findPavilionAtPoint_hits_unset_coordinates :
  findPavilionAtPoint [Scenario.unplaced_pavilion] 1 1
    = Some Scenario.unplaced_pavilion
  /\ ~ (exists pavilion c,
          pavilion ∈ [Scenario.unplaced_pavilion]
          /\ coordinates pavilion = Some c /\ stored_within 1 1 c)
  /\ findPavilionAtPoint [Scenario.nan_pavilion] 1 1 = Some Scenario.nan_pavilion
  /\ ~ (exists pavilion c,
          pavilion ∈ [Scenario.nan_pavilion]
          /\ coordinates pavilion = Some c /\ stored_within 1 1 c).
Proof.
  split; [by vm_compute|]. split; [|split; [by vm_compute|]].
  - intros (p & c & Hp & Hc & px & py & Hx & _).
    apply list_elem_of_singleton in Hp as ->.
    injection Hc as <-. discriminate Hx.
  - intros (p & c & Hp & Hc & px & py & Hx & _ & Hnear & _).
    apply list_elem_of_singleton in Hp as ->.
    injection Hc as <-. injection Hx as <-. by vm_compute in Hnear.
Qed.



End FloorPlanClaims.

(* ================================================================== *)
(** * Properties: sw.js *)
(* ================================================================== *)

Section ServiceWorkerClaims.
Import JS ServiceWorker.

Lemma filter_ext_elem {A} (P Q : A -> Prop)
    `{!forall x, Decision (P x)} `{!forall x, Decision (Q x)} (l : list A) :
  (forall x, x ∈ l -> (P x <-> Q x)) -> filter P l = filter Q l.
Proof.
  induction l as [|a l IH]; intros Hext; [done|].
  rewrite !filter_cons.
  rewrite IH by (intros x Hx; apply Hext; by apply list_elem_of_further).
  pose proof (Hext a (list_elem_of_here _ _)) as Ha.
  destruct (decide (P a)), (decide (Q a)); tauto.
Qed.

(** Deleting the caches of a list of names, one after the other, keeps
    the caches whose name is not in the list, in their order. *)
Lemma fold_caches_delete (names : list jsstring) (cs : CacheStorage) :
  fold_left (fun cs n => caches_delete n cs) names cs
  = filter (fun c => c.1 ∉ names) cs.
Proof.
  revert cs. induction names as [|n names IH]; intros cs; cbn [fold_left].
  - induction cs as [|c cs IHcs]; [done|].
    rewrite filter_cons_True by apply not_elem_of_nil. by f_equal.
  - rewrite IH. unfold caches_delete. rewrite list_filter_filter.
    apply list_filter_iff. intros c. rewrite not_elem_of_cons. tauto.
Qed.

Lemma isCacheStale_spec (name : jsstring) :
  isCacheStale name = true
  <-> startsWith name (lit "apra-shka-") = true /\ name <> CACHE_NAME.
Proof.
  unfold isCacheStale, str_eqb.
  rewrite andb_true_iff, negb_true_iff, bool_decide_eq_false. done.
Qed.

(** C7: on activation exactly the caches whose name starts with
    'apra-shka-' and differs from the current cache name are deleted;
    every other cache, the current one included, stays as it was, in
    place. *)
Theorem on_activate_deletes_stale_caches (w : World) :
  caches (on_activate w)
    = filter (fun c => ~ (startsWith c.1 (lit "apra-shka-") = true
                          /\ c.1 <> CACHE_NAME)) (caches w)
  /\ (forall name cache,
        (name, cache) ∈ caches (on_activate w)
        <-> (name, cache) ∈ caches w
            /\ ~ (startsWith name (lit "apra-shka-") = true
                  /\ name <> CACHE_NAME)).
Proof.
  assert (caches (on_activate w)
    = filter (fun c => ~ (startsWith c.1 (lit "apra-shka-") = true
                          /\ c.1 <> CACHE_NAME)) (caches w)) as Heq.
  { unfold on_activate. cbn [caches]. rewrite fold_caches_delete.
    apply filter_ext_elem. intros c Hc.
    rewrite list_elem_of_filter, isCacheStale_spec. split.
    - intros Hn Hs. apply Hn. split; [done|].
      apply list_elem_of_fmap. by exists c.
    - intros Hn [Hs _]. done. }
  split; [done|]. intros name cache.
  rewrite Heq, list_elem_of_filter. cbn [fst]. tauto.
Qed.

Lemma on_fetch_static (request : Request) (w : World) :
  method request = lit "GET" ->
  existsb (fun ext => endsWith (pathname request) ext) CACHEABLE_EXTENSIONS = true ->
  on_fetch request w
  = (RespondWith (cacheFirstStrategy request w).1, (cacheFirstStrategy request w).2).
Proof.
  intros Hm Hs. unfold on_fetch. rewrite Hm, Hs.
  replace (str_eqb (lit "GET") (lit "GET")) with true by (by vm_compute).
  cbn [negb]. by destruct (cacheFirstStrategy request w).
Qed.

(** C6: for a GET request whose path ends with a cacheable extension, a
    cached response is returned without contacting the network; the
    network is consulted only on a cache miss, and then once; the cache
    changes only by storing a network response of status 200. *)
Theorem on_fetch_static_cache_first (request : Request) (w : World) :
  method request = lit "GET" ->
  existsb (fun ext => endsWith (pathname request) ext) CACHEABLE_EXTENSIONS = true ->
  (forall cached,
     caches_match (url request) (caches w) = Some cached ->
     on_fetch request w = (RespondWith cached, w))
  /\ (fetched (on_fetch request w).2 <> fetched w ->
      caches_match (url request) (caches w) = None)
  /\ (caches_match (url request) (caches w) = None ->
      fetched (on_fetch request w).2 = fetched w ++ [request])
  /\ (caches (on_fetch request w).2 <> caches w ->
      exists networkResponse,
        head (network w) ≫= answer = Some networkResponse
        /\ status networkResponse = 200
        /\ (on_fetch request w).1 = RespondWith networkResponse
        /\ caches (on_fetch request w).2
           = caches_put CACHE_NAME (url request) networkResponse (caches w)).
Proof.
  intros Hm Hs. rewrite (on_fetch_static _ _ Hm Hs). cbn [fst snd].
  unfold cacheFirstStrategy.
  destruct (caches_match (url request) (caches w)) as [cached|] eqn:Hmatch.
  { cbn [fst snd]. repeat split; try done. by intros ? [= ->]. }
  unfold fetch.
  destruct (network w) as [|o rest] eqn:Hnet; cbn [mbind option_bind head fst snd caches].
  { rewrite Hmatch. cbn [fst snd caches fetched]. repeat split; try done. }
  destruct (answer o) as [r|] eqn:Hans; cbn [option_bind].
  - destruct (status r =? 200) eqn:Hst; cbn [fst snd caches fetched put_in_cache].
    + apply Z.eqb_eq in Hst. repeat split; try done.
      intros _. by exists r.
    + repeat split; try done.
  - rewrite Hmatch. cbn [fst snd caches fetched]. repeat split; try done.
Qed.

Lemma on_fetch_static_cache_first_witness :
  (forall cached,
     caches_match (url Sample.style_request) (caches Sample.sw_world) = Some cached ->
     on_fetch Sample.style_request Sample.sw_world = (RespondWith cached, Sample.sw_world))
  /\ (fetched (on_fetch Sample.style_request Sample.sw_world).2
        <> fetched Sample.sw_world ->
      caches_match (url Sample.style_request) (caches Sample.sw_world) = None)
  /\ (caches_match (url Sample.style_request) (caches Sample.sw_world) = None ->
      fetched (on_fetch Sample.style_request Sample.sw_world).2
        = fetched Sample.sw_world ++ [Sample.style_request])
  /\ (caches (on_fetch Sample.style_request Sample.sw_world).2
        <> caches Sample.sw_world ->
      exists networkResponse,
        head (network Sample.sw_world) ≫= answer = Some networkResponse
        /\ status networkResponse = 200
        /\ (on_fetch Sample.style_request Sample.sw_world).1
             = RespondWith networkResponse
        /\ caches (on_fetch Sample.style_request Sample.sw_world).2
           = caches_put CACHE_NAME (url Sample.style_request) networkResponse
               (caches Sample.sw_world)).
Proof.
  apply (on_fetch_static_cache_first Sample.style_request Sample.sw_world).
  - reflexivity.
  - vm_compute. reflexivity.
Defined.

End ServiceWorkerClaims.

(* ================================================================== *)
(** * Properties: data.js *)
(* ================================================================== *)

Section DataFacts.
Import JS Net Data.
Variable env : Env.

Lemma same_page_refl w : same_page w w.
Proof. by repeat split. Qed.

Lemma bind_run {A B} (m : M A) (f : A -> M B) (w : World) :
  (m ≫= f) w
  = match m w with
    | (Return a, w') => f a w'
    | (Throw e, w') => (Throw e, w')
    end.
Proof. done. Qed.

(** One request, recorded; nothing else of the world changes. *)
Lemma supabaseRequest_frame endpoint m b w :
  same_page w (supabaseRequest env endpoint m b w).2
  /\ requests (supabaseRequest env endpoint m b w).2
     = requests w ++ [{| url := SUPABASE_URL env ++ endpoint;
                         method := m; body := b |}]
  /\ network (supabaseRequest env endpoint m b w).2 = tail (network w).
Proof.
  unfold supabaseRequest. rewrite bind_run. unfold fetch.
  destruct (network w) as [|[|r] rest]; cbn [snd fst];
    try (by repeat split).
  destruct (ok r); cbn [negb]; [|by repeat split].
  destruct (bool_decide (m = DELETE)); [by repeat split|].
  destruct (json r); by repeat split.
Qed.

Lemma writes_app rs rs' : writes (rs ++ rs') = writes rs ++ writes rs'.
Proof. apply filter_app. Qed.

Lemma writes_get rs u b :
  writes (rs ++ [{| url := u; method := GET; body := b |}]) = writes rs.
Proof.
  rewrite writes_app. unfold writes at 2.
  rewrite filter_cons_False by (cbn; congruence).
  rewrite filter_nil. apply app_nil_r.
Qed.

Lemma cache_entry_timestamp v ts :
  get_prop (cache_entry v ts) (lit "timestamp") = Return (VNum ts).
Proof. done. Qed.

Lemma cache_entry_value v ts :
  get_prop (cache_entry v ts) (lit "value") = Return v.
Proof. done. Qed.

Lemma setCacheData_run key v w :
  setCacheData env key v w
  = (Return tt,
     with_localStorage
       (<[CACHE_PREFIX ++ key := JSON_stringify env (cache_entry v (clock w))]>
          (localStorage w)) w).
Proof. done. Qed.

(** getCacheData never throws and touches the storage only. *)
Lemma getCacheData_returns key w :
  exists v s,
    getCacheData env key w = (Return v, with_localStorage s w).
Proof.
  unfold getCacheData, try_catch. rewrite bind_run.
  cbn [localStorage_getItem gets].
  assert (Hid : with_localStorage (localStorage w) w = w) by (by destruct w).
  destruct (localStorage w !! _) as [s|];
    [|exists VNull, (localStorage w); by rewrite Hid].
  destruct (str_eqb s []); [exists VNull, (localStorage w); by rewrite Hid|].
  destruct (JSON_parse env s) as [data|];
    [|exists VNull, (localStorage w); by rewrite Hid].
  rewrite bind_run. unfold lift, get_prop.
  destruct (nullish data) eqn:Hn;
    [exists VNull, (localStorage w); by rewrite Hid|].
  rewrite bind_run. cbn [Date_now gets].
  destruct (truthy _ && cache_expired env _ _).
  - rewrite bind_run. cbn. eexists VNull, _. reflexivity.
  - eexists _, (localStorage w). by rewrite Hid.
Qed.

End DataFacts.

Section CacheClaims.
Import JS Net Data.
Variable env : Env.

(** C5: the read cache has a fixed TTL of one hour.  After setCacheData
    wrote a JSON-serializable value (one that JSON.parse gives back from
    its JSON.stringify), getCacheData returns the value when less than
    CACHE_TIMEOUT has passed since the write, and returns null and removes
    the entry when more has passed.  The write happens at a time other
    than the epoch itself: the code reads a zero time stamp as a missing
    one. *)
Theorem getCacheData_ttl (key : jsstring) (v : value) (w : World) (t : Z) :
  JSON_parse env (JSON_stringify env (cache_entry v (clock w)))
    = Some (cache_entry v (clock w)) ->
  clock w <> 0 ->
  let w1 := (setCacheData env key v w).2 in
  let w2 := with_clock t w1 in
  CACHE_TIMEOUT = 3600000
  /\ (t - clock w < CACHE_TIMEOUT ->
      getCacheData env key w2 = (Return v, w2))
  /\ (CACHE_TIMEOUT < t - clock w ->
      getCacheData env key w2
        = (Return VNull,
           with_localStorage (delete (CACHE_PREFIX ++ key) (localStorage w2)) w2)
      /\ localStorage (getCacheData env key w2).2 !! (CACHE_PREFIX ++ key) = None).
Proof.
  intros Hjson Hclock w1 w2. split; [done|].
  assert (Hstored : localStorage w2 !! (CACHE_PREFIX ++ key)
                    = Some (JSON_stringify env (cache_entry v (clock w)))).
  { subst w2 w1. rewrite setCacheData_run. cbn. apply lookup_insert_eq. }
  assert (Hnonempty : str_eqb (JSON_stringify env (cache_entry v (clock w))) [] = false).
  { apply bool_decide_eq_false. intros Hempty.
    rewrite Hempty, JSON_parse_empty in Hjson. done. }
  assert (Hrun : getCacheData env key w2
    = if CACHE_TIMEOUT <? t - clock w
      then (Return VNull,
            with_localStorage (delete (CACHE_PREFIX ++ key) (localStorage w2)) w2)
      else (Return v, w2)).
  { unfold getCacheData, try_catch. cbv zeta. rewrite bind_run.
    cbn [localStorage_getItem gets]. rewrite Hstored, Hnonempty, Hjson.
    rewrite bind_run. unfold lift at 1. rewrite cache_entry_timestamp.
    rewrite bind_run. cbn [Date_now gets].
    replace (clock w2) with t by done.
    cbn [truthy]. replace (clock w =? 0) with false
      by (symmetry; by apply Z.eqb_neq).
    cbn [negb andb]. unfold cache_expired. cbn [to_number].
    destruct (CACHE_TIMEOUT <? t - clock w).
    - rewrite bind_run. done.
    - unfold lift. by rewrite cache_entry_value. }
  split.
  - intros Hfresh. rewrite Hrun.
    replace (CACHE_TIMEOUT <? t - clock w) with false
      by (symmetry; apply Z.ltb_ge; lia). done.
  - intros Hold. rewrite Hrun.
    replace (CACHE_TIMEOUT <? t - clock w) with true
      by (symmetry; apply Z.ltb_lt; lia).
    split; [done|]. cbn. apply lookup_delete_eq.
Qed.

(** C10: getAllPavilions never throws.  With a fresh cache it returns the
    cached list and sends no request; when there is none and the request
    fails, it returns the list held in memory. *)
Theorem getAllPavilions_never_throws (w : World) :
  exists v w',
    getAllPavilions env w = (Return v, w')
    /\ (forall cached w1,
          getCacheData env (lit "pavilions") w = (Return cached, w1) ->
          truthy cached = true ->
          v = cached /\ w' = with_pavilions cached w1
          /\ requests w' = requests w /\ network w' = network w)
    /\ (forall cached w1 e w2,
          getCacheData env (lit "pavilions") w = (Return cached, w1) ->
          truthy cached = false ->
          supabaseRequest env
            (lit "/rest/v1/" ++ TABLES_PAVILIONS ++ lit "?select=*") GET None w1
          = (Throw e, w2) ->
          v = pavilions w /\ w' = w2).
Proof.
  destruct (getCacheData_returns env (lit "pavilions") w) as (cached & s & Hcache).
  unfold getAllPavilions, try_catch. rewrite bind_run, Hcache.
  destruct (truthy cached) eqn:Htruthy.
  - rewrite bind_run. cbn [modify mret M_ret].
    eexists _, _. split; [done|]. split.
    + intros ? ? [= <- <-] _. by repeat split.
    + intros ? ? ? ? [= <- <-] ?. congruence.
  - rewrite bind_run.
    destruct (supabaseRequest_frame env
                (lit "/rest/v1/" ++ TABLES_PAVILIONS ++ lit "?select=*")
                GET None (with_localStorage s w)) as ((_ & Hpav & _) & _).
    destruct (supabaseRequest env _ GET None (with_localStorage s w))
      as [[response|e] w2] eqn:Hreq.
    + rewrite bind_run. cbn [modify]. rewrite bind_run.
      rewrite setCacheData_run. rewrite bind_run.
      unfold lift, get_prop.
      destruct (nullish response); cbn [gets];
        (eexists _, _; split; [done|]; split;
         [intros ? ? [= <- <-] ?; congruence
         |intros ? ? ? ? [= <- <-] _ Hthrow; rewrite Hthrow in Hreq; done]).
    + cbn [gets]. eexists _, _. split; [done|]. split.
      * intros ? ? [= <- <-] ?. congruence.
      * intros ? ? ? ? [= <- <-] _ Hthrow. rewrite Hthrow in Hreq.
        injection Hreq as <- <-. done.
Qed.

End CacheClaims.


Section PavilionFacts.
Import JS Net Data.
Variable env : Env.

(** lookupPavilion, its monadic steps carried out. *)
Lemma lookupPavilion_run (id : jsstring) (w : World) :
  lookupPavilion env id w
  = match arr_findIndex (id_is id) (pavilions w) with
    | Throw _ => (Return (VNull, None), w)
    | Return found =>
        let pavilion := match found with Some (_, p) => p | None => VUndef end in
        if truthy pavilion then (Return (pavilion, fst <$> found), w)
        else
          match supabaseRequest env (lookup_endpoint id) GET None w with
          | (Throw _, w1) => (Return (VNull, None), w1)
          | (Return response, w1) =>
              if truthy response && gt_zero env (prop response (lit "length"))
              then
                if nullish (index0 response) then (Return (VNull, None), w1)
                else (Return (index0 response, None), w1)
              else (Return (VNull, None), w1)
          end
    end.
Proof.
  unfold lookupPavilion, try_catch. rewrite bind_run. cbn [gets].
  rewrite bind_run. unfold lift at 1.
  destruct (arr_findIndex (id_is id) (pavilions w)) as [found|e]; [|done].
  cbv zeta. destruct (truthy _); [done|].
  rewrite bind_run. fold (lookup_endpoint id).
  destruct (supabaseRequest env (lookup_endpoint id) GET None w)
    as [[response|e] w1]; [|done].
  destruct (truthy response && gt_zero env _); [|done].
  rewrite bind_run. unfold lift, get_prop.
  by destruct (nullish _).
Qed.

(** lookupPavilion never throws; it leaves the world as it is or sends
    one GET. *)
Lemma lookupPavilion_cases (id : jsstring) (w : World) :
  exists r,
    lookupPavilion env id w = (Return r, w)
    \/ lookupPavilion env id w
       = (Return r, (supabaseRequest env (lookup_endpoint id) GET None w).2).
Proof.
  rewrite lookupPavilion_run.
  destruct (arr_findIndex (id_is id) (pavilions w)) as [found|e];
    [|eexists; by left].
  cbv zeta. destruct (truthy _); [eexists; by left|].
  destruct (supabaseRequest env (lookup_endpoint id) GET None w)
    as [[response|e] w1]; [|eexists; by right].
  destruct (truthy response && gt_zero env _); [|eexists; by right].
  destruct (nullish _); eexists; by right.
Qed.

Lemma getPavilionById_cases (id : jsstring) (w : World) :
  exists pavilion,
    getPavilionById env id w = (Return pavilion, w)
    \/ getPavilionById env id w
       = (Return pavilion, (supabaseRequest env (lookup_endpoint id) GET None w).2).
Proof.
  unfold getPavilionById. rewrite bind_run.
  destruct (lookupPavilion_cases id w) as (r & [-> | ->]);
    exists r.1; [by left|by right].
Qed.

(** Looking a pavilion up changes neither the page's state nor the
    database. *)
Lemma getPavilionById_frame (id : jsstring) (w : World) pavilion w1 :
  getPavilionById env id w = (Return pavilion, w1) ->
  same_page w w1 /\ writes (requests w1) = writes (requests w).
Proof.
  intros Hget.
  destruct (supabaseRequest_frame env (lookup_endpoint id) GET None w)
    as (Hpage & Hreq & _).
  destruct (getPavilionById_cases id w) as (p & [H | H]);
    rewrite H in Hget; injection Hget as <- <-.
  - split; [apply same_page_refl|done].
  - split; [done|]. rewrite Hreq. apply writes_get.
Qed.

Lemma updatePavilion_refused id data w :
  checks_fail env id w -> refused w (updatePavilion env id data w).
Proof.
  intros Hfail. unfold updatePavilion. rewrite bind_run. cbn [gets].
  destruct (truthy (currentTenant w)) eqn:Htenant; cbn [negb];
    [|by eexists].
  destruct Hfail as [?|(pavilion & w1 & Hget & Hfail)]; [congruence|].
  rewrite bind_run, Hget.
  destruct (getPavilionById_frame _ _ _ _ Hget) as ((_ & Hpav & _) & Hwrites).
  destruct (truthy pavilion) eqn:Hfound; cbn [negb]; [|by eexists].
  destruct Hfail as [?|Hother]; [congruence|].
  rewrite Hother. cbn [negb]. by eexists.
Qed.

Lemma deletePavilion_refused id w :
  checks_fail env id w -> refused w (deletePavilion env id w).
Proof.
  intros Hfail. unfold deletePavilion. rewrite bind_run. cbn [gets].
  destruct (truthy (currentTenant w)) eqn:Htenant; cbn [negb];
    [|by eexists].
  destruct Hfail as [?|(pavilion & w1 & Hget & Hfail)]; [congruence|].
  rewrite bind_run, Hget.
  destruct (getPavilionById_frame _ _ _ _ Hget) as ((_ & Hpav & _) & Hwrites).
  destruct (truthy pavilion) eqn:Hfound; cbn [negb]; [|by eexists].
  destruct Hfail as [?|Hother]; [congruence|].
  rewrite Hother. cbn [negb]. by eexists.
Qed.

(** Read the other way: a run that sent a write passed the three checks. *)
Lemma updatePavilion_write_passed_checks id data w :
  writes (requests (updatePavilion env id data w).2) <> writes (requests w) ->
  ~ checks_fail env id w.
Proof.
  intros Hwrite Hfail.
  by destruct (updatePavilion_refused id data w Hfail) as (e & _ & Heq & _).
Qed.

Lemma deletePavilion_write_passed_checks id w :
  writes (requests (deletePavilion env id w).2) <> writes (requests w) ->
  ~ checks_fail env id w.
Proof.
  intros Hwrite Hfail.
  by destruct (deletePavilion_refused id w Hfail) as (e & _ & Heq & _).
Qed.

(** C3: updatePavilion and deletePavilion throw, send no write to the
    database and leave the list in memory unchanged whenever no tenant is
    authenticated, the pavilion does not exist, or its tenant_id differs
    from the current tenant's id.  (So a write is sent only when the
    three checks pass.) *)
Theorem pavilion_writes_guarded (id : jsstring) (data : obj) (w : World) :
  checks_fail env id w ->
  refused w (updatePavilion env id data w)
  /\ refused w (deletePavilion env id w).
Proof.
  intros Hfail. split.
  - by apply updatePavilion_refused.
  - by apply deletePavilion_refused.
Qed.

End PavilionFacts.

Section DiscountFacts.
Import JS Net Data.
Variable env : Env.

Lemma pavilions_set_network i x w : same_network w (pavilions_set i x w).2.
Proof. unfold pavilions_set, modify. cbn. by destruct (pavilions w). Qed.

Lemma push_in_place_run i l w :
  exists w', push_in_place i l w = (Return tt, w')
    /\ same_network w w' /\ clock w' = clock w /\ seed w' = seed w
    /\ currentTenant w' = currentTenant w /\ localStorage w' = localStorage w.
Proof.
  unfold push_in_place, modify. eexists. split; [done|].
  destruct (pavilions w) as [| | | | |items|]; try by repeat split.
  destruct (items !! i) as [[| | | | | |o]|]; by repeat split.
Qed.

Lemma lookupPavilion_frame id w r w1 :
  lookupPavilion env id w = (Return r, w1) ->
  same_page w w1
  /\ (requests w1 = requests w \/ requests w1 = requests w ++ [lookup_request env id]).
Proof.
  intros Hrun.
  destruct (supabaseRequest_frame env (lookup_endpoint id) GET None w)
    as (Hpage & Hreq & _).
  destruct (lookupPavilion_cases env id w) as (r' & [H | H]);
    rewrite H in Hrun; injection Hrun as <- <-.
  - split; [apply same_page_refl|by left].
  - split; [done|by right].
Qed.

(** The calls updatePavilion makes: at most the lookup, then at most the
    PATCH. *)
Lemma updatePavilion_requests id data w :
  exists extra,
    requests (updatePavilion env id data w).2 = requests w ++ extra
    /\ (extra = [] \/ extra = [lookup_request env id]
        \/ extra = [patch_request env id data (clock w)]
        \/ extra = [lookup_request env id; patch_request env id data (clock w)]).
Proof.
  unfold updatePavilion. rewrite bind_run. cbn [gets].
  destruct (truthy (currentTenant w)); cbn [negb];
    [|exists []; split; [by rewrite app_nil_r|by left]].
  rewrite bind_run. unfold getPavilionById. rewrite bind_run.
  destruct (lookupPavilion env id w) as [[r|e] w1] eqn:Hlookup;
    [|destruct (lookupPavilion_cases env id w) as (? & [H|H]); congruence].
  destruct (lookupPavilion_frame _ _ _ _ Hlookup)
    as ((_ & _ & _ & Hclock & _) & Hreq1).
  cbn [mret M_ret].
  assert (Hlook : exists pre, requests w1 = requests w ++ pre
                    /\ (pre = [] \/ pre = [lookup_request env id])).
  { destruct Hreq1 as [->| ->]; [exists []|exists [lookup_request env id]];
      (split; [by rewrite ?app_nil_r|tauto]). }
  destruct Hlook as (pre & Hpre & Hcases).
  destruct (truthy r.1); cbn [negb];
    [|exists pre; split; [done|tauto]].
  destruct (strict_eq _ _); cbn [negb];
    [|exists pre; split; [done|tauto]].
  rewrite bind_run. cbn [Date_now gets]. rewrite bind_run, Hclock.
  match goal with
  | |- context [supabaseRequest env ?ep PATCH ?b w1] =>
      destruct (supabaseRequest_frame env ep PATCH b w1) as (_ & Hreq2 & _);
      destruct (supabaseRequest env ep PATCH b w1) as [[response|e] w2]
  end.
  2:{ exists (pre ++ [patch_request env id data (clock w)]).
      cbn [snd] in *. rewrite Hreq2, Hpre, <- app_assoc. split; [done|].
      destruct Hcases as [-> | ->]; tauto. }
  assert (Hdone : requests w2 = requests w ++ pre ++ [patch_request env id data (clock w)]).
  { cbn [snd] in Hreq2. by rewrite Hreq2, Hpre, <- app_assoc. }
  exists (pre ++ [patch_request env id data (clock w)]). split;
    [|destruct Hcases as [-> | ->]; tauto].
  destruct (truthy response && truthy (index0 response)); [|done].
  rewrite bind_run. cbn [gets]. rewrite bind_run. unfold lift.
  destruct (arr_findIndex (id_is id) (pavilions w2)) as [[[i x]|]|e]; [| |done].
  - rewrite bind_run.
    destruct (pavilions_set_network i (index0 response) w2) as [Hr _].
    unfold pavilions_set, modify in *. cbn [snd] in Hr.
    rewrite bind_run. cbn. by rewrite Hr.
  - rewrite bind_run. cbn [mret M_ret]. rewrite bind_run. done.
Qed.

End DiscountFacts.

Section DiscountClaims.
Import JS Net Data.
Variable env : Env.

Lemma startsWith_app (p s : jsstring) : startsWith (p ++ s) p = true.
Proof.
  induction p as [|c p IH]; simpl; [by destruct s|].
  by rewrite N.eqb_refl, IH.
Qed.

Lemma lookup_request_embedded id discounts :
  startsWith (url (lookup_request env id))
             (SUPABASE_URL env ++ lit "/rest/v1/pavilions?") = true
  /\ (method (lookup_request env id) <> GET ->
      discounts_patch env id discounts (lookup_request env id)).
Proof.
  split; [|done]. cbn [url lookup_request]. unfold lookup_endpoint.
  change (lit "/rest/v1/" ++ TABLES_PAVILIONS ++ lit "?id=eq." ++ id ++ lit "&select=*")
    with (lit "/rest/v1/pavilions?" ++ (lit "id=eq." ++ id ++ lit "&select=*")).
  rewrite app_assoc. apply startsWith_app.
Qed.

Lemma patch_request_embedded id discounts now :
  startsWith (url (patch_request env id [(lit "discounts", VArr discounts)] now))
             (SUPABASE_URL env ++ lit "/rest/v1/pavilions?") = true
  /\ (method (patch_request env id [(lit "discounts", VArr discounts)] now) <> GET ->
      discounts_patch env id discounts
        (patch_request env id [(lit "discounts", VArr discounts)] now)).
Proof.
  split.
  - cbn [url patch_request].
    change (lit "/rest/v1/" ++ TABLES_PAVILIONS ++ lit "?id=eq." ++ id)
      with (lit "/rest/v1/pavilions?" ++ (lit "id=eq." ++ id)).
    rewrite app_assoc. apply startsWith_app.
  - intros _. by exists now.
Qed.

Lemma updatePavilion_embedded id discounts w :
  exists extra,
    requests (updatePavilion env id [(lit "discounts", VArr discounts)] w).2
      = requests w ++ extra
    /\ embedded_only env id discounts extra.
Proof.
  destruct (updatePavilion_requests env id [(lit "discounts", VArr discounts)] w)
    as (extra & Hreq & Hcases).
  exists extra. split; [done|]. unfold embedded_only.
  pose proof (lookup_request_embedded id discounts).
  pose proof (patch_request_embedded id discounts (clock w)).
  destruct Hcases as [-> | [-> | [-> | ->]]]; repeat constructor; tauto.
Qed.

Lemma generateId_run w :
  generateId env w
  = (Return (number_to_string (clock w) ++ lit "_" ++ random36 env (seed w)),
     with_seed (seed w + 1)%N w).
Proof. done. Qed.

Lemma filter_items_not_nullish discountId (l : list value) :
  Forall (fun d => nullish d = false) l ->
  filter_items (id_is_not discountId) l
  = Return (filter (fun d => strict_eq (prop d (lit "id")) (VStr discountId) = false) l).
Proof.
  induction 1 as [|d l Hd Hl IH]; [done|].
  cbn [filter_items]. rewrite IH. unfold id_is_not, get_prop. rewrite Hd.
  cbn [mbind result_bind]. rewrite filter_cons.
  destruct (strict_eq (prop d (lit "id")) (VStr discountId)) eqn:Heq; cbn [negb].
  - by rewrite decide_False by done.
  - by rewrite decide_True by done.
Qed.

End DiscountClaims.

(* ================================================================== *)
(** * The data.js properties on the sample data *)
(* ================================================================== *)

Lemma getCacheData_ttl_witness :
  Data.CACHE_TIMEOUT = 3600000
  /\ (1700000001000 - Data.clock Sample.data_world < Data.CACHE_TIMEOUT ->
      Data.getCacheData Browser.env (JS.lit "pavilions")
        (Data.with_clock 1700000001000
           (Data.setCacheData Browser.env (JS.lit "pavilions")
              (Data.pavilions Sample.data_world) Sample.data_world).2)
      = (JS.Return (Data.pavilions Sample.data_world),
         Data.with_clock 1700000001000
           (Data.setCacheData Browser.env (JS.lit "pavilions")
              (Data.pavilions Sample.data_world) Sample.data_world).2))
  /\ (Data.CACHE_TIMEOUT < 1700000001000 - Data.clock Sample.data_world ->
      Data.getCacheData Browser.env (JS.lit "pavilions")
        (Data.with_clock 1700000001000
           (Data.setCacheData Browser.env (JS.lit "pavilions")
              (Data.pavilions Sample.data_world) Sample.data_world).2)
      = (JS.Return JS.VNull,
         Data.with_localStorage
           (delete (Data.CACHE_PREFIX ++ JS.lit "pavilions")
              (Data.localStorage
                 (Data.with_clock 1700000001000
                    (Data.setCacheData Browser.env (JS.lit "pavilions")
                       (Data.pavilions Sample.data_world) Sample.data_world).2)))
           (Data.with_clock 1700000001000
              (Data.setCacheData Browser.env (JS.lit "pavilions")
                 (Data.pavilions Sample.data_world) Sample.data_world).2))
      /\ Data.localStorage
           (Data.getCacheData Browser.env (JS.lit "pavilions")
              (Data.with_clock 1700000001000
                 (Data.setCacheData Browser.env (JS.lit "pavilions")
                    (Data.pavilions Sample.data_world) Sample.data_world).2)).2
         !! (Data.CACHE_PREFIX ++ JS.lit "pavilions") = None).
Proof.
  apply (getCacheData_ttl Browser.env (JS.lit "pavilions")
           (Data.pavilions Sample.data_world) Sample.data_world 1700000001000).
  - vm_compute. reflexivity.
  - discriminate.
Defined.

Lemma pavilion_writes_guarded_witness :
  refused Sample.data_world
    (Data.updatePavilion Browser.env (JS.lit "p-2")
       [(JS.lit "name", JS.VStr (JS.lit "Mine"))] Sample.data_world)
  /\ refused Sample.data_world
       (Data.deletePavilion Browser.env (JS.lit "p-2") Sample.data_world).
Proof.
  apply (pavilion_writes_guarded Browser.env (JS.lit "p-2")
           [(JS.lit "name", JS.VStr (JS.lit "Mine"))] Sample.data_world).
  right. exists (JS.VObj Sample.other_pavilion), Sample.data_world.
  split; [vm_compute; reflexivity|].
  right. vm_compute. reflexivity.
Defined.

(* ================================================================== *)
(** * Runs on the sample data *)
(* ================================================================== *)

Example formatPhoneNumber_leading_8 :
  Auth.formatPhoneNumber (JS.lit "8 (999) 123-45-67")
  = JS.Return (JS.lit "+79991234567").
Proof. vm_compute. reflexivity. Qed.

Example checkPhone_pending_tenant :
  Auth.checkPhone Browser.env
    (fun _ => select_answer Browser.env
                (rows_with_phone Sample.tenants_table (JS.lit "+79990000000")))
    (JS.lit "+79990000000")
  = JS.Return JS.VNull.
Proof. vm_compute. reflexivity. Qed.

Example updatePavilion_own_pavilion :
  (Data.updatePavilion Browser.env (JS.lit "p-1")
     [(JS.lit "name", JS.VStr (JS.lit "Boots"))] Sample.data_world).1
  = JS.Return (JS.VObj Sample.own_pavilion)
  /\ Net.method <$> Data.requests
       (Data.updatePavilion Browser.env (JS.lit "p-1")
          [(JS.lit "name", JS.VStr (JS.lit "Boots"))] Sample.data_world).2
     = [Net.PATCH].
Proof. split; vm_compute; reflexivity. Qed.

Example removeDiscount_sends_the_rest :
  Net.body <$> Data.requests
    (Data.removeDiscount Browser.env (JS.lit "p-1") (JS.lit "d-1")
       Sample.data_world).2
  = [Some (JS.lit "{" ++ Browser.quote ++ JS.lit "discounts" ++ Browser.quote
           ++ JS.lit ":[]," ++ Browser.quote ++ JS.lit "updated_at"
           ++ Browser.quote ++ JS.lit ":" ++ Browser.quote
           ++ JS.lit "T1700000000000" ++ Browser.quote ++ JS.lit "}")].
Proof. vm_compute. reflexivity. Qed.

Example on_activate_sample :
  fst <$> ServiceWorker.caches (ServiceWorker.on_activate Sample.sw_world)
  = [JS.lit "apra-shka-v1"; JS.lit "other-app"].
Proof. vm_compute. reflexivity. Qed.

Example on_fetch_sample_miss_then_hit :
  let first := ServiceWorker.on_fetch Sample.style_request Sample.sw_world in
  let second := ServiceWorker.on_fetch Sample.style_request first.2 in
  first.1 = ServiceWorker.RespondWith Sample.page_response
  /\ second.1 = ServiceWorker.RespondWith Sample.page_response
  /\ ServiceWorker.fetched second.2 = [Sample.style_request].
Proof. repeat split; vm_compute; reflexivity. Qed.

(* ================================================================== *)
(** * Further properties: the cache of data.js *)
(* ================================================================== *)

Section CacheFacts.
Import JS Net Data.
Variable env : Env.

Lemma with_localStorage_same w : with_localStorage (localStorage w) w = w.
Proof. by destruct w. Qed.

(** getCacheData, its steps carried out. *)
Lemma getCacheData_run key w :
  getCacheData env key w
  = match localStorage w !! (CACHE_PREFIX ++ key) with
    | None => (Return VNull, w)
    | Some s =>
        if str_eqb s [] then (Return VNull, w)
        else
          match JSON_parse env s with
          | None => (Return VNull, w)
          | Some data =>
              if nullish data then (Return VNull, w)
              else if truthy (prop data (lit "timestamp"))
                      && cache_expired env (clock w) (prop data (lit "timestamp"))
              then (Return VNull,
                    with_localStorage
                      (delete (CACHE_PREFIX ++ key) (localStorage w)) w)
              else (Return (prop data (lit "value")), w)
          end
    end.
Proof.
  unfold getCacheData, try_catch. cbv zeta. rewrite bind_run.
  cbn [localStorage_getItem gets].
  destruct (localStorage w !! _) as [s|]; [|done].
  destruct (str_eqb s []); [done|].
  destruct (JSON_parse env s) as [data|]; [|done].
  rewrite bind_run. unfold lift, get_prop.
  destruct (nullish data); [done|].
  rewrite bind_run. cbn [Date_now gets].
  destruct (truthy _ && cache_expired env _ _); [|done].
  by rewrite bind_run.
Qed.

(** X1: getCacheData never throws, and all it can change is its own
    entry: the world after it is the world before, or the world before
    with the entry of the key removed and null returned.  A missing entry
    and an entry that is not JSON both give null and change nothing (the
    broken entry stays in the storage). *)
Theorem getCacheData_drops_own_entry_only (key : jsstring) (w : World) :
  (exists v,
     getCacheData env key w = (Return v, w)
     \/ (v = VNull
         /\ getCacheData env key w
            = (Return VNull,
               with_localStorage
                 (delete (CACHE_PREFIX ++ key) (localStorage w)) w)))
  /\ (localStorage w !! (CACHE_PREFIX ++ key) = None ->
      getCacheData env key w = (Return VNull, w))
  /\ (forall s, localStorage w !! (CACHE_PREFIX ++ key) = Some s ->
        JSON_parse env s = None ->
        getCacheData env key w = (Return VNull, w)).
Proof.
  rewrite getCacheData_run. split; [|split].
  - destruct (localStorage w !! _) as [s|]; [|eexists; by left].
    destruct (str_eqb s []); [eexists; by left|].
    destruct (JSON_parse env s) as [data|]; [|eexists; by left].
    destruct (nullish data); [eexists; by left|].
    destruct (truthy _ && _); eexists; [by right|by left].
  - by intros ->.
  - intros s -> Hparse. rewrite Hparse. by destruct (str_eqb s []).
Qed.

(** X2: the entries of two different keys do not interfere: writing one
    key leaves what getCacheData returns for another key as it was. *)
Theorem setCacheData_other_key (k1 k2 : jsstring) (v : value) (w : World) :
  k1 <> k2 ->
  (getCacheData env k2 (setCacheData env k1 v w).2).1
  = (getCacheData env k2 w).1.
Proof.
  intros Hne. rewrite setCacheData_run, !getCacheData_run. cbn [snd].
  cbn [localStorage with_localStorage clock].
  rewrite lookup_insert_ne by (intros Heq; by apply app_inv_head in Heq).
  destruct (localStorage w !! _) as [s|]; [|done].
  destruct (str_eqb s []); [done|].
  destruct (JSON_parse env s) as [data|]; [|done].
  destruct (nullish data); [done|].
  by destruct (truthy _ && _).
Qed.

End CacheFacts.

(* ================================================================== *)
(** * Further properties: pavilions in memory and in the database *)
(* ================================================================== *)

Section PavilionEffects.
Import JS Net Data DataOps.
Variable env : Env.

Lemma str_eqb_refl (k : jsstring) : str_eqb k k = true.
Proof. by apply bool_decide_eq_true. Qed.

Lemma str_eqb_ne (k k' : jsstring) : k <> k' -> str_eqb k k' = false.
Proof. intros. by apply bool_decide_eq_false. Qed.

Lemma obj_get_set_eq k v (o : obj) : obj_get k (obj_set k v o) = v.
Proof.
  induction o as [|[k' v'] o IH]; cbn [obj_set obj_get].
  - by rewrite str_eqb_refl.
  - destruct (str_eqb k' k) eqn:Hk; cbn [obj_get].
    + by rewrite str_eqb_refl.
    + by rewrite Hk.
Qed.

Lemma obj_get_set_ne k k' v (o : obj) :
  k <> k' -> obj_get k (obj_set k' v o) = obj_get k o.
Proof.
  intros Hne. induction o as [|[k0 v0] o IH]; cbn [obj_set obj_get].
  - by rewrite str_eqb_ne.
  - destruct (str_eqb k0 k') eqn:Hk; cbn [obj_get].
    + apply bool_decide_eq_true in Hk as ->. by rewrite !str_eqb_ne.
    + by rewrite IH.
Qed.

(** The tenant_id of the record sent is the current tenant's id, whatever
    [data] says. *)
Lemma new_pavilion_record_tenant tenant data now :
  obj_get (lit "tenant_id") (new_pavilion_record env tenant data now)
  = prop tenant (lit "id").
Proof.
  unfold new_pavilion_record.
  rewrite !obj_get_set_ne by (by vm_compute).
  apply obj_get_set_eq.
Qed.

Lemma find_from_none f (l : list value) i :
  Forall (fun q => f q = Return false) l -> find_from f l i = Return None.
Proof.
  intros H. revert i. induction H as [|q l Hq _ IH]; intros i; [done|].
  cbn [find_from]. rewrite Hq. cbn [mbind result_bind]. apply IH.
Qed.

Lemma find_from_first f (before after : list value) p i :
  Forall (fun q => f q = Return false) before ->
  f p = Return true ->
  find_from f (before ++ p :: after) i = Return (Some ((i + length before)%nat, p)).
Proof.
  intros H Hp. revert i. induction H as [|q l Hq _ IH]; intros i.
  - cbn [app find_from length]. rewrite Hp. cbn [mbind result_bind].
    by rewrite Nat.add_0_r.
  - cbn [app find_from length]. rewrite Hq. cbn [mbind result_bind].
    rewrite IH. do 3 f_equal. lia.
Qed.

(** What find_from found is an entry of the list the callback accepts. *)
Lemma find_from_some f (l : list value) i j p :
  find_from f l i = Return (Some (j, p)) ->
  (i <= j)%nat /\ l !! (j - i)%nat = Some p /\ f p = Return true.
Proof.
  revert i. induction l as [|q l IH]; intros i; cbn [find_from]; [done|].
  destruct (f q) as [[|]|e] eqn:Hq; cbn [mbind result_bind]; [| |done].
  - intros [= <- <-]. rewrite Nat.sub_diag. by repeat split.
  - intros H. destruct (IH _ H) as (Hle & Hl & Hp).
    repeat split; [lia| |done].
    replace (j - i)%nat with (S (j - S i)) by lia. done.
Qed.

Lemma id_is_true_truthy id p : id_is id p = Return true -> truthy p = true.
Proof.
  unfold id_is, get_prop. by destruct p.
Qed.

Lemma find_from_throws f (before after : list value) p e i :
  Forall (fun q => f q = Return false) before ->
  f p = Throw e ->
  find_from f (before ++ p :: after) i = Throw e.
Proof.
  intros H Hp. revert i. induction H as [|q l Hq _ IH]; intros i.
  - cbn [app find_from]. by rewrite Hp.
  - cbn [app find_from]. rewrite Hq. cbn [mbind result_bind]. apply IH.
Qed.

(** Where a scan for the id stops: nowhere, or at the first entry that
    has the id or is null. *)
Lemma id_scan_cases id (l : list value) :
  Forall (fun q => id_is id q = Return false) l
  \/ exists before p after,
       l = before ++ p :: after
       /\ Forall (fun q => id_is id q = Return false) before
       /\ (id_is id p = Return true \/ nullish p = true).
Proof.
  induction l as [|q l IH]; [by left|].
  destruct (id_is id q) as [[|]|e] eqn:Hq.
  - right. exists [], q, l. by repeat split; [|left].
  - destruct IH as [Hall|(before & p & after & -> & Hbefore & Hp)].
    + left. by constructor.
    + right. exists (q :: before), p, after. by repeat split; [constructor|].
  - right. exists [], q, l. repeat split; [done|]. right.
    unfold id_is, get_prop in Hq. by destruct (nullish q).
Qed.

(** X3: getPavilionById looks in memory first.  The scan of the list in
    memory stops at the first entry that has the id or is null: a
    pavilion with the id is returned, a null entry gives null (the
    TypeError of reading its id is caught), both without a request; when
    the list holds neither, exactly one GET for the id is sent.  Every
    list is of one of these three kinds; a value in memory that is not an
    array gives null without a request. *)
Theorem getPavilionById_memory_first (id : jsstring) (w : World) :
  (forall before p after,
     pavilions w = VArr (before ++ p :: after) ->
     Forall (fun q => id_is id q = Return false) before ->
     (id_is id p = Return true -> getPavilionById env id w = (Return p, w))
     /\ (nullish p = true -> getPavilionById env id w = (Return VNull, w)))
  /\ (forall l,
        pavilions w = VArr l ->
        Forall (fun q => id_is id q = Return false) l ->
        exists v w1,
          getPavilionById env id w = (Return v, w1)
          /\ requests w1 = requests w ++ [lookup_request env id])
  /\ (forall l,
        pavilions w = VArr l ->
        Forall (fun q => id_is id q = Return false) l
        \/ exists before p after,
             l = before ++ p :: after
             /\ Forall (fun q => id_is id q = Return false) before
             /\ (id_is id p = Return true \/ nullish p = true))
  /\ (is_array (pavilions w) = false ->
      getPavilionById env id w = (Return VNull, w)).
Proof.
  split; [|split; [|split]].
  - intros before p after Hl Hbefore. split.
    + intros Hp.
      unfold getPavilionById. rewrite bind_run, lookupPavilion_run, Hl.
      cbn [arr_findIndex]. rewrite (find_from_first _ _ _ _ _ Hbefore Hp).
      cbv zeta. by rewrite (id_is_true_truthy _ _ Hp).
    + intros Hp.
      unfold getPavilionById. rewrite bind_run, lookupPavilion_run, Hl.
      cbn [arr_findIndex].
      rewrite (find_from_throws _ before after p TypeError); [done|done|].
      unfold id_is, get_prop. by rewrite Hp.
  - intros l Hl Hnone.
    unfold getPavilionById. rewrite bind_run, lookupPavilion_run, Hl.
    cbn [arr_findIndex]. rewrite (find_from_none _ _ _ Hnone).
    cbv zeta. cbn [truthy].
    destruct (supabaseRequest_frame env (lookup_endpoint id) GET None w)
      as (_ & Hreq & _).
    destruct (supabaseRequest env (lookup_endpoint id) GET None w)
      as [[response|e] w1]; cbn [snd] in Hreq.
    + destruct (truthy response && gt_zero env _);
        [destruct (nullish _)|]; by eexists _, _.
    + by eexists _, _.
  - intros l _. apply id_scan_cases.
  - intros Hnot.
    unfold getPavilionById. rewrite bind_run, lookupPavilion_run.
    by destruct (pavilions w).
Qed.

(** updatePavilion, its steps carried out. *)
Lemma updatePavilion_run id data w :
  updatePavilion env id data w
  = if negb (truthy (currentTenant w))
    then (Throw (Error msg_auth_required_update), w)
    else
      match getPavilionById env id w with
      | (Throw e, w1) => (Throw e, w1)
      | (Return pavilion, w1) =>
          if negb (truthy pavilion) then (Throw (Error msg_pavilion_not_found), w1)
          else if negb (strict_eq (prop pavilion (lit "tenant_id"))
                                  (prop (currentTenant w) (lit "id")))
          then (Throw (Error msg_not_owner_update), w1)
          else
            match supabaseRequest env
                    (lit "/rest/v1/" ++ TABLES_PAVILIONS ++ lit "?id=eq." ++ id)
                    PATCH (body (patch_request env id data (clock w1))) w1 with
            | (Throw e, w2) => (Throw e, w2)
            | (Return response, w2) =>
                if truthy response && truthy (index0 response) then
                  match arr_findIndex (id_is id) (pavilions w2) with
                  | Throw e => (Throw e, w2)
                  | Return (Some (i, _)) =>
                      (Return (index0 response),
                       (clearCacheData (lit "pavilions")
                          (pavilions_set i (index0 response) w2).2).2)
                  | Return None =>
                      (Return (index0 response),
                       (clearCacheData (lit "pavilions") w2).2)
                  end
                else (Throw (Error msg_update_failed), w2)
            end
      end.
Proof.
  unfold updatePavilion. rewrite bind_run. cbn [gets].
  destruct (truthy (currentTenant w)); cbn [negb]; [|done].
  rewrite bind_run.
  destruct (getPavilionById env id w) as [[pavilion|e] w1]; [|done].
  destruct (truthy pavilion); cbn [negb]; [|done].
  destruct (strict_eq _ _); cbn [negb]; [|done].
  rewrite bind_run. cbn [Date_now gets]. rewrite bind_run.
  cbn [body patch_request].
  destruct (supabaseRequest env _ PATCH _ w1) as [[response|e] w2]; [|done].
  destruct (truthy response && truthy (index0 response)); [|done].
  rewrite bind_run. cbn [gets]. rewrite bind_run. unfold lift.
  destruct (arr_findIndex (id_is id) (pavilions w2)) as [[[i x]|]|e]; [| |done].
  - rewrite bind_run. unfold pavilions_set at 1, modify at 1.
    rewrite bind_run. unfold clearCacheData at 1, localStorage_removeItem, modify.
    done.
  - rewrite bind_run. cbn [mret M_ret]. rewrite bind_run.
    unfold clearCacheData at 1, localStorage_removeItem, modify. done.
Qed.

(** deletePavilion, its steps carried out. *)
Lemma deletePavilion_run id w :
  deletePavilion env id w
  = if negb (truthy (currentTenant w))
    then (Throw (Error msg_auth_required_delete), w)
    else
      match getPavilionById env id w with
      | (Throw e, w1) => (Throw e, w1)
      | (Return pavilion, w1) =>
          if negb (truthy pavilion) then (Throw (Error msg_pavilion_not_found), w1)
          else if negb (strict_eq (prop pavilion (lit "tenant_id"))
                                  (prop (currentTenant w) (lit "id")))
          then (Throw (Error msg_not_owner_delete), w1)
          else
            match supabaseRequest env
                    (lit "/rest/v1/" ++ TABLES_PAVILIONS ++ lit "?id=eq." ++ id)
                    DELETE None w1 with
            | (Throw e, w2) => (Throw e, w2)
            | (Return _, w2) =>
                match arr_filter (id_is_not id) (pavilions w2) with
                | Throw e => (Throw e, w2)
                | Return kept =>
                    (Return (VBool true),
                     (clearCacheData (lit "pavilions")
                        (with_pavilions (VArr kept) w2)).2)
                end
            end
      end.
Proof.
  unfold deletePavilion. rewrite bind_run. cbn [gets].
  destruct (truthy (currentTenant w)); cbn [negb]; [|done].
  rewrite bind_run.
  destruct (getPavilionById env id w) as [[pavilion|e] w1]; [|done].
  destruct (truthy pavilion); cbn [negb]; [|done].
  destruct (strict_eq _ _); cbn [negb]; [|done].
  rewrite bind_run.
  destruct (supabaseRequest env _ DELETE _ w1) as [[response|e] w2]; [|done].
  rewrite bind_run. cbn [gets]. rewrite bind_run. unfold lift.
  destruct (arr_filter (id_is_not id) (pavilions w2)) as [kept|e]; [|done].
  rewrite bind_run. cbn [modify]. rewrite bind_run.
  unfold clearCacheData at 1, localStorage_removeItem, modify. done.
Qed.

(** createPavilion, its steps carried out. *)
Lemma createPavilion_run data w :
  createPavilion env data w
  = if negb (truthy (currentTenant w))
    then (Throw (Error msg_auth_required_create), w)
    else
      match supabaseRequest env (lit "/rest/v1/" ++ TABLES_PAVILIONS) POST
              (body (create_request env (currentTenant w) data (clock w))) w with
      | (Throw e, w1) => (Throw e, w1)
      | (Return response, w1) =>
          if truthy response && truthy (index0 response) then
            match pavilions w1 with
            | VArr l =>
                (Return (index0 response),
                 (clearCacheData (lit "pavilions")
                    (with_pavilions (VArr (l ++ [index0 response])) w1)).2)
            | _ => (Throw TypeError, w1)
            end
          else (Throw (Error msg_create_failed), w1)
      end.
Proof.
  unfold createPavilion. rewrite bind_run. cbn [gets].
  destruct (truthy (currentTenant w)); cbn [negb]; [|done].
  rewrite bind_run. cbn [Date_now gets]. rewrite bind_run.
  cbn [body create_request]. fold (new_pavilion_record env (currentTenant w) data (clock w)).
  destruct (supabaseRequest env _ POST _ w) as [[response|e] w1]; [|done].
  destruct (truthy response && truthy (index0 response)); [|done].
  rewrite bind_run. unfold pavilions_push.
  by destruct (pavilions w1).
Qed.

(** X4: a write that succeeds invalidates the cached pavilion list: after
    updatePavilion, deletePavilion or createPavilion has returned, the
    storage holds no entry for the list, so the next getAllPavilions cannot
    serve the old one. *)
Theorem successful_write_clears_cache (w : World) :
  (forall id data v w',
     updatePavilion env id data w = (Return v, w') ->
     localStorage w' !! pavilions_cache_key = None)
  /\ (forall id v w',
        deletePavilion env id w = (Return v, w') ->
        localStorage w' !! pavilions_cache_key = None)
  /\ (forall data v w',
        createPavilion env data w = (Return v, w') ->
        localStorage w' !! pavilions_cache_key = None).
Proof.
  unfold pavilions_cache_key. split; [|split].
  - intros id data v w'. rewrite updatePavilion_run.
    destruct (negb _); [done|].
    destruct (getPavilionById env id w) as [[pavilion|e] w1]; [|done].
    destruct (negb _); [done|]. destruct (negb _); [done|].
    destruct (supabaseRequest env _ PATCH _ w1) as [[response|e] w2]; [|done].
    destruct (truthy response && _); [|done].
    destruct (arr_findIndex _ _) as [[[i x]|]|e]; [| |done];
      intros [= _ <-]; cbn; apply lookup_delete_eq.
  - intros id v w'. rewrite deletePavilion_run.
    destruct (negb _); [done|].
    destruct (getPavilionById env id w) as [[pavilion|e] w1]; [|done].
    destruct (negb _); [done|]. destruct (negb _); [done|].
    destruct (supabaseRequest env _ DELETE _ w1) as [[response|e] w2]; [|done].
    destruct (arr_filter _ _) as [kept|e]; [|done].
    intros [= _ <-]. cbn. apply lookup_delete_eq.
  - intros data v w'. rewrite createPavilion_run.
    destruct (negb _); [done|].
    destruct (supabaseRequest env _ POST _ w) as [[response|e] w1]; [|done].
    destruct (truthy response && _); [|done].
    destruct (pavilions w1); try done.
    intros [= _ <-]. cbn. apply lookup_delete_eq.
Qed.

(** X5: createPavilion refuses a visitor without touching anything.  For
    a tenant it sends one POST to the pavilions table, and the record
    sent carries the current tenant's id as tenant_id whatever the data
    say; when it returns, the new row is the last of the list in
    memory. *)
Theorem createPavilion_stamps_owner (data : obj) (w : World) :
  (truthy (currentTenant w) = false ->
   createPavilion env data w = (Throw (Error msg_auth_required_create), w))
  /\ (truthy (currentTenant w) = true ->
      requests (createPavilion env data w).2
        = requests w ++ [create_request env (currentTenant w) data (clock w)]
      /\ obj_get (lit "tenant_id")
           (new_pavilion_record env (currentTenant w) data (clock w))
         = prop (currentTenant w) (lit "id"))
  /\ (forall v w',
        createPavilion env data w = (Return v, w') ->
        truthy v = true
        /\ exists l, pavilions w = VArr l /\ pavilions w' = VArr (l ++ [v])).
Proof.
  rewrite createPavilion_run.
  destruct (supabaseRequest_frame env (lit "/rest/v1/" ++ TABLES_PAVILIONS) POST
              (body (create_request env (currentTenant w) data (clock w))) w)
    as ((_ & Hpav & _) & Hreq & _).
  split; [|split].
  - by intros ->.
  - intros ->. cbn [negb]. split; [|apply new_pavilion_record_tenant].
    destruct (supabaseRequest env _ POST _ w) as [[response|e] w1];
      cbn [snd] in *; [|done].
    destruct (truthy response && _); [|done].
    by destruct (pavilions w1).
  - intros v w'. destruct (negb _); [done|].
    destruct (supabaseRequest env _ POST _ w) as [[response|e] w1];
      cbn [snd] in *; [|done].
    destruct (truthy response && truthy (index0 response)) eqn:Hrow; [|done].
    apply andb_true_iff in Hrow as [_ Hrow].
    destruct (pavilions w1) as [| | | | |l|] eqn:Hl; try done.
    intros [= <- <-]. split; [done|]. exists l. by rewrite <- Hpav.
Qed.

(** X6: when updatePavilion returns, the list in memory has the returned
    row in the place of the first pavilion with the id, has the length it
    had, and holds every pavilion with another id where it was. *)
Theorem updatePavilion_replaces_in_memory (id : jsstring) (data : obj)
    (w : World) (v : value) (w' : World) :
  updatePavilion env id data w = (Return v, w') ->
  truthy v = true
  /\ exists l l',
       pavilions w = VArr l /\ pavilions w' = VArr l'
       /\ length l' = length l
       /\ (forall j q, l !! j = Some q -> id_is id q <> Return true ->
             l' !! j = Some q)
       /\ (forall before p after,
             l = before ++ p :: after ->
             Forall (fun q => id_is id q = Return false) before ->
             id_is id p = Return true ->
             l' = before ++ v :: after).
Proof.
  rewrite updatePavilion_run. destruct (negb _); [done|].
  destruct (getPavilionById env id w) as [[pavilion|e] w1] eqn:Hget; [|done].
  destruct (getPavilionById_frame env _ _ _ _ Hget) as ((_ & Hpav1 & _) & _).
  destruct (negb _); [done|]. destruct (negb _); [done|].
  match goal with
  | |- context [supabaseRequest env ?ep PATCH ?b w1] =>
      destruct (supabaseRequest_frame env ep PATCH b w1) as ((_ & Hpav2 & _) & _);
      destruct (supabaseRequest env ep PATCH b w1) as [[response|e] w2]
  end; [|done].
  cbn [snd] in Hpav2.
  destruct (truthy response && truthy (index0 response)) eqn:Hrow; [|done].
  apply andb_true_iff in Hrow as [_ Hrow].
  destruct (pavilions w2) as [| | | | |l|] eqn:Hl; try done.
  assert (Hw : pavilions w = VArr l) by congruence.
  cbn [arr_findIndex].
  destruct (find_from (id_is id) l 0) as [[[i x]|]|e] eqn:Hfind; [| |done].
  - intros [= <- <-]. split; [done|].
    destruct (find_from_some _ _ _ _ _ Hfind) as (_ & Hi & Hx).
    rewrite Nat.sub_0_r in Hi.
    exists l, (<[i := index0 response]> l).
    split; [done|]. split; [cbn; by rewrite Hl|].
    split; [apply length_insert|]. split.
    + intros j q Hj Hq. rewrite list_lookup_insert_ne; [done|].
      intros ->. congruence.
    + intros before p after -> Hbefore Hp.
      rewrite (find_from_first _ _ _ _ _ Hbefore Hp) in Hfind.
      injection Hfind as <- _. cbn [Nat.add].
      rewrite insert_app_r_alt by lia. by rewrite Nat.sub_diag.
  - intros [= <- <-]. split; [done|]. exists l, l.
    split; [done|]. split; [cbn; by rewrite Hl|]. split; [done|]. split; [done|].
    intros before p after -> Hbefore Hp.
    by rewrite (find_from_first _ _ _ _ _ Hbefore Hp) in Hfind.
Qed.

Lemma filter_items_id_is_not id (l kept : list value) :
  filter_items (id_is_not id) l = Return kept ->
  Forall (fun p => nullish p = false) l
  /\ kept = filter (fun p => strict_eq (prop p (lit "id")) (VStr id) = false) l.
Proof.
  revert kept. induction l as [|p l IH]; intros kept; cbn [filter_items].
  - intros [= <-]. by split.
  - destruct (filter_items (id_is_not id) l) as [rest|e];
      unfold id_is_not, get_prop;
      (destruct (nullish p) eqn:Hp; cbn [mbind result_bind]; [done|]);
      [|done].
    destruct (IH rest eq_refl) as (Hall & ->).
    intros [= <-]. split; [by constructor|].
    rewrite filter_cons.
    destruct (strict_eq (prop p (lit "id")) (VStr id)) eqn:Heq; cbn [negb].
    + by rewrite decide_False by done.
    + by rewrite decide_True by done.
Qed.

(** X7: when deletePavilion returns, it returns true, and the list in
    memory has lost every pavilion with the id (not the first one only)
    and keeps the others in their order. *)
Theorem deletePavilion_removes_every_match (id : jsstring) (w : World)
    (v : value) (w' : World) :
  deletePavilion env id w = (Return v, w') ->
  v = VBool true
  /\ exists l,
       pavilions w = VArr l
       /\ pavilions w'
          = VArr (filter (fun p => strict_eq (prop p (lit "id")) (VStr id) = false) l).
Proof.
  rewrite deletePavilion_run. destruct (negb _); [done|].
  destruct (getPavilionById env id w) as [[pavilion|e] w1] eqn:Hget; [|done].
  destruct (getPavilionById_frame env _ _ _ _ Hget) as ((_ & Hpav1 & _) & _).
  destruct (negb _); [done|]. destruct (negb _); [done|].
  match goal with
  | |- context [supabaseRequest env ?ep DELETE ?b w1] =>
      destruct (supabaseRequest_frame env ep DELETE b w1) as ((_ & Hpav2 & _) & _);
      destruct (supabaseRequest env ep DELETE b w1) as [[response|e] w2]
  end; [|done].
  cbn [snd] in Hpav2.
  destruct (pavilions w2) as [| | | | |l|] eqn:Hl; try done.
  cbn [arr_filter].
  destruct (filter_items (id_is_not id) l) as [kept|e] eqn:Hkept; [|done].
  destruct (filter_items_id_is_not _ _ _ Hkept) as (_ & ->).
  intros [= <- <-]. split; [done|]. exists l. split; [congruence|done].
Qed.

End PavilionEffects.

(* ================================================================== *)
(** * Further properties: reading through the cache, queries *)
(* ================================================================== *)

Section QueryFacts.
Import JS Net Data DataOps.
Variable env : Env.

(** A request the network answers with a JSON body. *)
Lemma supabaseRequest_answered endpoint m b w r rest v :
  network w = Responds r :: rest ->
  ok r = true -> json r = Some v -> m <> DELETE ->
  supabaseRequest env endpoint m b w
  = (Return v,
     with_network rest
       (requests w ++ [{| url := SUPABASE_URL env ++ endpoint;
                          method := m; body := b |}]) w).
Proof.
  intros Hnet Hok Hjson Hm. unfold supabaseRequest. rewrite bind_run.
  unfold fetch. rewrite Hnet, Hok, Hjson. cbn [negb].
  by rewrite bool_decide_eq_false_2.
Qed.

Lemma with_pavilions_same w : with_pavilions (pavilions w) w = w.
Proof. by destruct w. Qed.

(** X8: fetch, then serve from the cache.  With no cached list, a
    network that answers with a (truthy) JSON value and a value that
    survives JSON, getAllPavilions returns the answer after one GET, and a
    second call no later than CACHE_TIMEOUT after the first returns the
    same value without a request and without changing anything. *)
Theorem getAllPavilions_then_cached (w : World) (r : Response)
    (rest : list FetchResult) (response : value) (t : Z) :
  localStorage w !! pavilions_cache_key = None ->
  network w = Responds r :: rest ->
  ok r = true -> json r = Some response -> truthy response = true ->
  JSON_parse env (JSON_stringify env (cache_entry response (clock w)))
    = Some (cache_entry response (clock w)) ->
  t - clock w <= CACHE_TIMEOUT ->
  let w1 := (getAllPavilions env w).2 in
  getAllPavilions env w = (Return response, w1)
  /\ requests w1 = requests w ++ [list_request env]
  /\ pavilions w1 = response
  /\ getAllPavilions env (with_clock t w1) = (Return response, with_clock t w1).
Proof.
  intros Hmiss Hnet Hok Hjson Htruthy Hround Ht.
  assert (Hnn : nullish response = false) by (by destruct response).
  assert (Hfirst : getAllPavilions env w
    = (Return response,
       with_localStorage
         (<[pavilions_cache_key
            := JSON_stringify env (cache_entry response (clock w))]>
            (localStorage w))
         (with_pavilions response
            (with_network rest (requests w ++ [list_request env]) w)))).
  { unfold getAllPavilions, try_catch. rewrite bind_run, getCacheData_run.
    fold pavilions_cache_key. rewrite Hmiss. cbn [truthy].
    rewrite bind_run.
    rewrite (supabaseRequest_answered _ _ _ _ _ _ _ Hnet Hok Hjson) by done.
    rewrite bind_run. cbn [modify]. rewrite bind_run, setCacheData_run.
    rewrite bind_run. unfold lift, get_prop. rewrite Hnn. done. }
  intros w1. subst w1. rewrite Hfirst. cbn [snd].
  split; [done|]. split; [done|]. split; [done|].
  unfold getAllPavilions, try_catch. rewrite bind_run, getCacheData_run.
  fold pavilions_cache_key.
  cbn [localStorage with_clock with_localStorage clock with_pavilions with_network].
  rewrite lookup_insert_eq.
  assert (Hne : str_eqb (JSON_stringify env (cache_entry response (clock w))) [] = false).
  { apply bool_decide_eq_false. intros Hempty.
    by rewrite Hempty, JSON_parse_empty in Hround. }
  rewrite Hne, Hround.
  cbn [nullish cache_entry prop].
  change (obj_get (lit "timestamp") _) with (VNum (clock w)).
  change (obj_get (lit "value") _) with response.
  unfold cache_expired. cbn [to_number].
  replace (CACHE_TIMEOUT <? t - clock w) with false
    by (symmetry; apply Z.ltb_ge; lia).
  rewrite andb_false_r, Htruthy. rewrite bind_run. done.
Qed.

Lemma map_items_merge discountId data now (l : list value) :
  Forall (fun d => nullish d = false) l ->
  map_items (merge_discount env discountId data now) l
  = Return (merged_discount env discountId data now <$> l).
Proof.
  induction 1 as [|d l Hd _ IH]; [done|].
  cbn [map_items fmap list_fmap]. rewrite IH.
  unfold merge_discount, merged_discount, get_prop. rewrite Hd.
  cbn [mbind result_bind]. by destruct (strict_eq _ _).
Qed.

(** X9: when the owner's checks pass and the stored discounts are an
    array without null entries, updateDiscount hands updatePavilion a
    discounts array of the same length in which every entry with another
    id is the stored one, and the entries with the id carry the fields of
    [data] over their own and a fresh updated_at. *)
Theorem updateDiscount_merges_in_place (pavilionId discountId : jsstring)
    (data : obj) (w : World) (pavilion : value) (w1 : World) (l : list value) :
  truthy (currentTenant w) = true ->
  getPavilionById env pavilionId w = (Return pavilion, w1) ->
  truthy pavilion = true ->
  strict_eq (prop pavilion (lit "tenant_id")) (prop (currentTenant w) (lit "id")) = true ->
  prop pavilion (lit "discounts") = VArr l ->
  Forall (fun d => nullish d = false) l ->
  let discounts := merged_discount env discountId data (clock w) <$> l in
  updateDiscount env pavilionId discountId data w
    = updatePavilion env pavilionId [(lit "discounts", VArr discounts)] w1
  /\ length discounts = length l
  /\ (forall j d, l !! j = Some d ->
        strict_eq (prop d (lit "id")) (VStr discountId) = false ->
        discounts !! j = Some d)
  /\ (forall j d, l !! j = Some d ->
        strict_eq (prop d (lit "id")) (VStr discountId) = true ->
        exists merged,
          discounts !! j = Some (VObj merged)
          /\ obj_get (lit "updated_at") merged = VStr (toISOString env (clock w))).
Proof.
  intros Htenant Hget Hfound Hown Hstored Hentries discounts.
  destruct (getPavilionById_frame env _ _ _ _ Hget) as ((_ & _ & _ & Hclock & _) & _).
  split; [|split; [|split]].
  - unfold updateDiscount. rewrite bind_run. cbn [gets]. rewrite Htenant.
    cbn [negb]. rewrite bind_run, Hget, Hfound, Hown. cbn [negb].
    rewrite bind_run. cbn [Date_now gets]. rewrite bind_run, Hstored.
    cbn [truthy arr_map]. unfold lift. rewrite Hclock.
    by rewrite map_items_merge.
  - apply length_fmap.
  - intros j d Hj Hne. subst discounts.
    rewrite list_lookup_fmap, Hj. cbn. unfold merged_discount. by rewrite Hne.
  - intros j d Hj Heq. subst discounts.
    rewrite list_lookup_fmap, Hj. cbn. unfold merged_discount. rewrite Heq.
    eexists. split; [done|]. apply obj_get_set_eq.
Qed.

(** X10: getTenantByPhone never throws: it sends one GET to the tenants
    table and returns null when the request fails.  The number goes into
    the query as it is, so the URL is the one checkPhone queries only for
    a number that encodeURIComponent leaves unchanged. *)
Theorem getTenantByPhone_one_query (phone : jsstring) (w : World) :
  (exists v w1,
     getTenantByPhone env phone w = (Return v, w1)
     /\ requests w1 = requests w ++ [tenant_request env phone]
     /\ (forall e w2,
           supabaseRequest env
             (lit "/rest/v1/" ++ TABLES_TENANTS ++ lit "?phone=eq." ++ phone
              ++ lit "&select=*") GET None w = (Throw e, w2) ->
           v = VNull))
  /\ (url (tenant_request env phone) = url (Auth.checkPhone_request env phone)
      <-> encodeURIComponent env phone = phone).
Proof.
  split.
  - unfold getTenantByPhone, try_catch. rewrite bind_run.
    match goal with
    | |- context [supabaseRequest env ?ep GET None w] =>
        destruct (supabaseRequest_frame env ep GET None w) as (_ & Hreq & _);
        destruct (supabaseRequest env ep GET None w) as [[response|e] w1]
    end; cbn [snd] in Hreq.
    + destruct (truthy response && gt_zero env _).
      * rewrite bind_run. unfold lift, get_prop.
        destruct (nullish _); eexists _, _; by repeat split.
      * eexists _, _; by repeat split.
    + eexists _, _; by repeat split.
  - cbn [url tenant_request Auth.checkPhone_request].
    change (lit "/rest/v1/" ++ Auth.DB_TABLE_TENANTS ++ lit "?phone=eq."
            ++ encodeURIComponent env phone ++ lit "&select=*")
      with (lit "/rest/v1/tenants?phone=eq."
            ++ encodeURIComponent env phone ++ lit "&select=*").
    split.
    + intros H. apply app_inv_head in H. apply app_inv_head in H.
      by apply app_inv_tail in H.
    + by intros ->.
Qed.

Lemma filter_items_sublist f (l kept : list value) :
  filter_items f l = Return kept -> kept `sublist_of` l.
Proof.
  revert kept. induction l as [|x l IH]; intros kept; cbn [filter_items].
  - by intros [= <-].
  - destruct (f x) as [b|e]; cbn [mbind result_bind]; [|done].
    destruct (filter_items f l) as [rest|e]; cbn [mbind result_bind]; [|done].
    intros [= <-]. destruct b.
    + by apply sublist_skip, IH.
    + by apply sublist_cons, IH.
Qed.

Lemma filter_items_nullish f (l : list value) p :
  (forall q, nullish q = true -> f q = Throw TypeError) ->
  (forall q e, f q = Throw e -> e = TypeError) ->
  p ∈ l -> nullish p = true ->
  filter_items f l = Throw TypeError.
Proof.
  intros Hnull Honly Hin Hp.
  induction l as [|x l IH]; [by apply elem_of_nil in Hin|].
  cbn [filter_items].
  apply elem_of_cons in Hin as [<-|Hin].
  - by rewrite (Hnull _ Hp).
  - destruct (f x) as [b|e] eqn:Hx; cbn [mbind result_bind].
    + by rewrite (IH Hin).
    + by rewrite (Honly _ _ Hx).
Qed.

(** X11: searchPavilions never throws and changes nothing.  An empty or
    blank query returns the list in memory as it is; any other query
    returns an array whose entries are entries of that list, in its
    order. *)
Theorem searchPavilions_total (toLowerCase : jsstring -> jsstring)
    (query : jsstring) (w : World) :
  exists v,
    searchPavilions toLowerCase query w = (Return v, w)
    /\ (query = [] \/ trim query = [] -> v = pavilions w)
    /\ (query <> [] -> trim query <> [] ->
        exists results,
          v = VArr results
          /\ forall l, pavilions w = VArr l -> results `sublist_of` l).
Proof.
  unfold searchPavilions, try_catch. rewrite bind_run. cbn [gets].
  destruct (str_eqb query []) eqn:Hq; cbn [orb].
  { apply bool_decide_eq_true in Hq. eexists. by repeat split. }
  apply bool_decide_eq_false in Hq.
  destruct (length (trim query) =? 0)%nat eqn:Ht.
  { apply Nat.eqb_eq, nil_length_inv in Ht. eexists. by repeat split. }
  apply Nat.eqb_neq in Ht.
  assert (Htrim : trim query <> []) by (intros H; by rewrite H in Ht).
  rewrite bind_run. unfold lift.
  destruct (arr_filter _ (pavilions w)) as [results|e] eqn:Hfilter.
  - eexists. split; [done|]. split; [by intros [?|?]|].
    intros _ _. exists results. split; [done|].
    intros l Hl. rewrite Hl in Hfilter. by apply filter_items_sublist in Hfilter.
  - cbn [mret M_ret]. eexists. split; [done|]. split; [by intros [?|?]|].
    intros _ _. exists []. split; [done|]. intros l _. apply sublist_nil_l.
Qed.

(** X12: getPavilionsByTenant returns an empty array for an empty id.
    For any other id and a list in memory without null entries it returns
    exactly the pavilions whose tenant_id is the id, in their order; a null
    entry in the list makes it throw a TypeError (it has no try). *)
Theorem getPavilionsByTenant_owned (tenantId : jsstring) (w : World) :
  (tenantId = [] -> getPavilionsByTenant tenantId w = (Return (VArr []), w))
  /\ (forall l,
        tenantId <> [] -> pavilions w = VArr l ->
        Forall (fun p => nullish p = false) l ->
        getPavilionsByTenant tenantId w
        = (Return (VArr (filter (fun p => strict_eq (prop p (lit "tenant_id"))
                                            (VStr tenantId) = true) l)), w))
  /\ (forall l p,
        tenantId <> [] -> pavilions w = VArr l ->
        p ∈ l -> nullish p = true ->
        getPavilionsByTenant tenantId w = (Throw TypeError, w)).
Proof.
  unfold getPavilionsByTenant. split; [|split].
  - by intros ->.
  - intros l Hne Hl Hall. rewrite str_eqb_ne by done.
    rewrite bind_run. cbn [gets]. rewrite bind_run, Hl. unfold lift.
    cbn [arr_filter].
    assert (Hrun : filter_items
              (fun p => t ← get_prop p (lit "tenant_id");
                        Return (strict_eq t (VStr tenantId))) l
            = Return (filter (fun p => strict_eq (prop p (lit "tenant_id"))
                                         (VStr tenantId) = true) l)).
    { clear Hl. induction Hall as [|p l Hp _ IH]; [done|].
      cbn [filter_items]. rewrite IH. unfold get_prop. rewrite Hp.
      cbn [mbind result_bind]. rewrite filter_cons.
      destruct (strict_eq _ _); [by rewrite decide_True|by rewrite decide_False]. }
    by rewrite Hrun.
  - intros l p Hne Hl Hin Hp. rewrite str_eqb_ne by done.
    rewrite bind_run. cbn [gets]. rewrite bind_run, Hl. unfold lift.
    cbn [arr_filter].
    rewrite (filter_items_nullish _ l p); [done| | |done|done].
    + intros q Hq. unfold get_prop. by rewrite Hq.
    + intros q e. unfold get_prop. by destruct (nullish q); intros [= <-].
Qed.

End QueryFacts.

(* ================================================================== *)
(** * Further properties: sw.js *)
(* ================================================================== *)

Section ServiceWorkerFacts.
Import JS ServiceWorker ServiceWorkerEvents.

Lemma find_filter_out (u : jsstring) (c : Cache) :
  find (fun e => str_eqb e.1 u) (filter (fun e => e.1 <> u) c) = None.
Proof.
  induction c as [|e c IH]; [done|].
  rewrite filter_cons. destruct (decide (e.1 <> u)) as [Hne|]; [|done].
  cbn [find]. by rewrite str_eqb_ne.
Qed.

Lemma find_app_none {A} (f : A -> bool) (l l' : list A) :
  find f l = None -> find f (l ++ l') = find f l'.
Proof.
  induction l as [|x l IH]; [done|]. cbn [find app].
  destruct (f x); [done|]. apply IH.
Qed.

(** What was put is what matches. *)
Lemma cache_match_put (u : jsstring) (r : Response) (c : Cache) :
  cache_match u (cache_put u r c) = Some r.
Proof.
  unfold cache_match, cache_put.
  rewrite find_app_none by apply find_filter_out.
  cbn [find fst]. by rewrite str_eqb_refl.
Qed.

Lemma cache_match_single (u : jsstring) (r : Response) :
  cache_match u [(u, r)] = Some r.
Proof. unfold cache_match. cbn [find fst]. by rewrite str_eqb_refl. Qed.

(** After a put the URL matches in some cache. *)
Lemma caches_match_put_some name u r (cs : CacheStorage) :
  is_Some (caches_match u (caches_put name u r cs)).
Proof.
  induction cs as [|[n c] cs IH]; cbn [caches_put caches_match].
  - by rewrite cache_match_single.
  - destruct (str_eqb n name); cbn [caches_match].
    + by rewrite cache_match_put.
    + destruct (cache_match u c); [done|apply IH].
Qed.

(** When no other cache holds the URL, the match is the response put. *)
Lemma caches_match_put_fresh name u r (cs : CacheStorage) :
  (forall n c, (n, c) ∈ cs -> n <> name -> cache_match u c = None) ->
  caches_match u (caches_put name u r cs) = Some r.
Proof.
  induction cs as [|[n c] cs IH]; intros Hother; cbn [caches_put caches_match].
  - by rewrite cache_match_single.
  - destruct (str_eqb n name) eqn:Hn; cbn [caches_match].
    + by rewrite cache_match_put.
    + apply bool_decide_eq_false in Hn.
      rewrite (Hother n c) by (done || apply list_elem_of_here).
      apply IH. intros n' c' Hin. apply Hother. by apply list_elem_of_further.
Qed.

Lemma caches_match_none_each u (cs : CacheStorage) :
  caches_match u cs = None ->
  forall n c, (n, c) ∈ cs -> cache_match u c = None.
Proof.
  induction cs as [|[n0 c0] cs IH]; intros Hnone n c Hin.
  - by apply elem_of_nil in Hin.
  - cbn [caches_match] in Hnone.
    destruct (cache_match u c0) eqn:Hc0; [done|].
    apply elem_of_cons in Hin as [[= -> ->]|Hin]; [done|by apply (IH Hnone n)].
Qed.

Lemma on_fetch_dynamic (request : Request) (w : World) :
  method request = lit "GET" ->
  existsb (fun ext => endsWith (pathname request) ext) CACHEABLE_EXTENSIONS = false ->
  on_fetch request w
  = (RespondWith (networkFirstStrategy request w).1, (networkFirstStrategy request w).2).
Proof.
  intros Hm Hs. unfold on_fetch. rewrite Hm, Hs.
  replace (str_eqb (lit "GET") (lit "GET")) with true by (by vm_compute).
  cbn [negb]. by destruct (networkFirstStrategy request w).
Qed.

Lemma filter_none {A} (P : A -> Prop) `{!forall x, Decision (P x)} (l : list A) :
  (forall x, x ∈ l -> ~ P x) -> filter P l = [].
Proof.
  induction l as [|a l IH]; intros Hnone; [done|].
  rewrite filter_cons_False by (apply Hnone, list_elem_of_here).
  apply IH. intros x Hx. by apply Hnone, list_elem_of_further.
Qed.

Lemma on_activate_caches (w : World) :
  caches (on_activate w) = filter (fun c => isCacheStale c.1 <> true) (caches w).
Proof.
  unfold on_activate. cbn [caches]. rewrite fold_caches_delete.
  apply filter_ext_elem. intros c Hc.
  rewrite list_elem_of_filter. split.
  - intros Hn Hs. apply Hn. split; [done|]. apply list_elem_of_fmap. by exists c.
  - intros Hn [Hs _]. done.
Qed.

Lemma isCacheStale_current : isCacheStale CACHE_NAME = false.
Proof. by vm_compute. Qed.

Lemma filter_caches_put name u r (cs : CacheStorage) :
  isCacheStale name <> true ->
  filter (fun c => isCacheStale c.1 <> true) (caches_put name u r cs)
  = caches_put name u r (filter (fun c => isCacheStale c.1 <> true) cs).
Proof.
  intros Hname. induction cs as [|[n c] cs IH]; cbn [caches_put].
  - by rewrite filter_cons_True, filter_nil.
  - destruct (str_eqb n name) eqn:Hn.
    + apply bool_decide_eq_true in Hn as ->.
      rewrite !filter_cons_True by done. cbn [caches_put].
      by rewrite str_eqb_refl.
    + rewrite !filter_cons. cbn [fst]. destruct (decide (isCacheStale n <> true)).
      * cbn [caches_put]. by rewrite Hn, IH.
      * apply IH.
Qed.

(** X13: a static asset that was not cached and that the network answers
    with status 200 is served from the cache from then on: the same
    request again gets the same response, and neither the network nor the
    caches are touched. *)
Theorem static_asset_cached_after_first_fetch (request : Request) (w : World)
    (o : Outcome) (rest : list Outcome) (r : Response) :
  method request = lit "GET" ->
  existsb (fun ext => endsWith (pathname request) ext) CACHEABLE_EXTENSIONS = true ->
  caches_match (url request) (caches w) = None ->
  network w = o :: rest ->
  answer o = Some r ->
  status r = 200 ->
  (on_fetch request w).1 = RespondWith r
  /\ on_fetch request (on_fetch request w).2
     = (RespondWith r, (on_fetch request w).2)
  /\ fetched (on_fetch request w).2 = fetched w ++ [request].
Proof.
  intros Hm Hs Hmiss Hnet Ha Hst.
  assert (cacheFirstStrategy request w
          = (r, put_in_cache request r
                  {| caches := caches w; network := rest;
                     fetched := fetched w ++ [request] |})) as Hfirst.
  { unfold cacheFirstStrategy, fetch. rewrite Hmiss, Hnet. cbn [mbind option_bind].
    rewrite Ha, Hst. done. }
  rewrite !on_fetch_static by done. rewrite Hfirst. cbn [fst snd].
  split; [done|]. split; [|done].
  unfold cacheFirstStrategy, put_in_cache. cbn [caches].
  rewrite caches_match_put_fresh; [done|].
  intros n c Hin _. by apply (caches_match_none_each _ _ Hmiss n).
Qed.

(** X14: a response of status 200 that the network gave in time to a
    request that is not for a static asset is kept for offline use: when
    the next fetch of that request fails or misses the timeout, the reply
    is a cached response and not the 503 placeholder, and it is the
    response just stored provided no cache created before the
    application's holds the URL. *)
Theorem api_response_survives_offline (request : Request) (w : World)
    (o : Outcome) (rest : list Outcome) (r : Response) :
  method request = lit "GET" ->
  existsb (fun ext => endsWith (pathname request) ext) CACHEABLE_EXTENSIONS = false ->
  network w = o :: rest ->
  answer o = Some r ->
  delay o < NETWORK_TIMEOUT ->
  status r = 200 ->
  (o' ← head rest; if delay o' <? NETWORK_TIMEOUT then answer o' else None) = None ->
  (on_fetch request w).1 = RespondWith r
  /\ exists r',
       caches_match (url request) (caches (on_fetch request w).2) = Some r'
       /\ (on_fetch request (on_fetch request w).2).1 = RespondWith r'
       /\ ((forall n c, (n, c) ∈ caches w -> n <> CACHE_NAME ->
              cache_match (url request) c = None) -> r' = r).
Proof.
  intros Hm Hs Hnet Ha Hd Hst Hfail.
  assert (networkFirstStrategy request w
          = (r, put_in_cache request r
                  {| caches := caches w; network := rest;
                     fetched := fetched w ++ [request] |})) as Hfirst.
  { unfold networkFirstStrategy, fetch. rewrite Hnet. cbn [mbind option_bind].
    apply Z.ltb_lt in Hd. rewrite Hd, Ha, Hst. done. }
  rewrite !on_fetch_dynamic by done. rewrite Hfirst. cbn [fst snd].
  split; [done|].
  destruct (caches_match_put_some CACHE_NAME (url request) r (caches w))
    as [r' Hr'].
  exists r'. unfold put_in_cache. cbn [caches]. split; [done|]. split.
  - unfold networkFirstStrategy, fetch. cbn [network caches].
    destruct rest as [|o2 rest']; cbn [head mbind option_bind] in Hfail |- *.
    + cbn [caches]. by rewrite Hr'.
    + rewrite Hfail. cbn [caches]. by rewrite Hr'.
  - intros Hother. rewrite caches_match_put_fresh in Hr' by done. congruence.
Qed.

(** X15: activation is idempotent, and it commutes with storing a
    response in the application's cache: what a fetch cached before the
    worker was activated is cached in the same way afterwards. *)
Theorem on_activate_keeps_cached_responses (request : Request) (r : Response)
    (w : World) :
  on_activate (on_activate w) = on_activate w
  /\ on_activate (put_in_cache request r w) = put_in_cache request r (on_activate w).
Proof.
  assert (forall w1 w2 : World,
            caches w1 = caches w2 -> network w1 = network w2 ->
            fetched w1 = fetched w2 -> w1 = w2) as Hext.
  { intros [] []; cbn; congruence. }
  split; apply Hext; try done; rewrite !on_activate_caches.
  - rewrite list_filter_filter. apply list_filter_iff. tauto.
  - unfold put_in_cache. cbn [caches]. rewrite on_activate_caches.
    apply filter_caches_put.
    by rewrite isCacheStale_current.
Qed.

(** X16: the CLEAR_CACHE message empties the cache storage without
    calling skipWaiting or the network; while the network is down, every
    GET request is then answered with a 503 placeholder. *)
Theorem clear_cache_leaves_nothing_offline (new_Request : jsstring -> Request)
    (urls : option (list jsstring)) (w : World) :
  let after := on_message new_Request (lit "CLEAR_CACHE") urls w in
  after.1 = false
  /\ caches after.2 = []
  /\ network after.2 = network w
  /\ fetched after.2 = fetched w
  /\ forall request,
       method request = lit "GET" ->
       head (network w) ≫= answer = None ->
       (on_fetch request after.2).1
       = RespondWith
           (if existsb (fun ext => endsWith (pathname request) ext)
                 CACHEABLE_EXTENSIONS
            then offline_response else api_unavailable_response).
Proof.
  assert (on_message new_Request (lit "CLEAR_CACHE") urls w
          = (false, {| caches := []; network := network w; fetched := fetched w |}))
    as ->.
  { unfold on_message.
    replace (str_eqb (lit "CLEAR_CACHE") (lit "SKIP_WAITING")) with false
      by (by vm_compute).
    replace (str_eqb (lit "CLEAR_CACHE") (lit "CLEAR_CACHE")) with true
      by (by vm_compute).
    cbv zeta. rewrite fold_caches_delete. do 2 f_equal.
    apply filter_none. intros c Hc Hn. apply Hn.
    apply list_elem_of_fmap. by exists c. }
  cbv zeta. cbn [fst snd caches network fetched].
  do 4 (split; [done|]).
  intros request Hm Hfail.
  destruct (existsb _ CACHEABLE_EXTENSIONS) eqn:Hs.
  - rewrite on_fetch_static by done.
    unfold cacheFirstStrategy, fetch. cbn [caches network caches_match].
    destruct (network w) as [|o rest]; cbn [head mbind option_bind] in Hfail |- *;
      [done|]. by rewrite Hfail.
  - rewrite on_fetch_dynamic by done.
    unfold networkFirstStrategy, fetch. cbn [caches network caches_match].
    destruct (network w) as [|o rest]; cbn [head mbind option_bind] in Hfail |- *;
      [done|]. rewrite Hfail. by destruct (delay o <? NETWORK_TIMEOUT).
Qed.

End ServiceWorkerFacts.

(* ================================================================== *)
(** * Further properties: the session of auth.js *)
(* ================================================================== *)

Section SessionFacts.
Import JS Net Auth Session.
Variable env : Env.
Variable engine_message : exn -> jsstring.

Lemma truthy_not_nullish (v : value) : truthy v = true -> nullish v = false.
Proof. by destruct v. Qed.

(** X17: whatever the server answers, checkPhone returns null or a tenant
    whose approved flag is truthy, and it returns at all only for a number
    of the form +7 and ten digits that the server answered with an ok
    status and a JSON body; the tenant is the first element of that body. *)
Theorem checkPhone_returns_only_approved (fetch : Request -> FetchResult)
    (phone : jsstring) (tenant : value) :
  checkPhone env fetch phone = Return tenant ->
  validatePhoneNumber phone = true
  /\ exists response data,
       fetch (checkPhone_request env phone) = Responds response
       /\ ok response = true
       /\ json response = Some data
       /\ (tenant = VNull
           \/ (tenant = index0 data
               /\ truthy (prop tenant (lit "approved")) = true)).
Proof.
  unfold checkPhone.
  destruct (validatePhoneNumber phone); cbn [negb]; [|done].
  destruct (SUPABASE_ANON_KEY env); cbn [mbind result_bind]; [|done].
  destruct (fetch _) as [|response] eqn:Hfetch; [done|].
  destruct (ok response) eqn:Hok; cbn [negb]; [|done].
  destruct (json response) as [d|] eqn:Hjson; [|done].
  intros Hrun. split; [done|]. exists response, d. do 3 (split; [done|]).
  destruct (negb (truthy d) || _); [left; congruence|].
  destruct (get_prop (index0 d) _); cbn [mbind result_bind] in Hrun; [|done].
  destruct (truthy (prop (index0 d) (lit "approved"))) eqn:Happroved;
    cbn [negb] in Hrun; injection Hrun as <-; [by right|by left].
Qed.

Lemma createSession_run (tenant : value) (p : Page) :
  nullish tenant = false ->
  createSession env tenant p
  = (Return tt,
     with_storage
       (<[SESSION_KEY :=
            JSON_stringify env (session_record env tenant (Data.clock (data p)))]>
          (Data.localStorage (data p)))
       (with_currentTenant (session_record env tenant (Data.clock (data p))) p)).
Proof. intros Hn. unfold createSession, get_prop. by rewrite Hn. Qed.

(** X18: a submitted login form either opens a session or shows one
    error.  A session is opened only for a tenant that checkPhone returned
    for the formatted number, whose approved flag is therefore truthy; it
    is kept in memory and in the storage, and the page is sent to
    admin.html.  In every other case one alert is shown and the tenant,
    the storage and the location stay as they were.  The loading flag is
    off at the end in both cases. *)
Theorem login_opens_session_or_alerts (fetch : Request -> FetchResult)
    (input : option jsstring) (p : Page) :
  isLoading (handleLoginFormSubmit env engine_message fetch input p) = false
  /\ ((exists raw phone tenant,
         input = Some raw
         /\ formatPhoneNumber raw = Return phone
         /\ checkPhone env fetch phone = Return tenant
         /\ truthy (prop tenant (lit "approved")) = true
         /\ getCurrentTenant (handleLoginFormSubmit env engine_message fetch input p)
            = session_record env tenant (Data.clock (data p))
         /\ Data.localStorage
              (data (handleLoginFormSubmit env engine_message fetch input p))
            = <[SESSION_KEY :=
                  JSON_stringify env
                    (session_record env tenant (Data.clock (data p)))]>
                (Data.localStorage (data p))
         /\ alerts (handleLoginFormSubmit env engine_message fetch input p)
            = alerts p
         /\ location (handleLoginFormSubmit env engine_message fetch input p)
            = location p ++ [lit "admin.html"])
      \/ (data (handleLoginFormSubmit env engine_message fetch input p) = data p
          /\ (exists text,
                alerts (handleLoginFormSubmit env engine_message fetch input p)
                = alerts p ++ [text])
          /\ location (handleLoginFormSubmit env engine_message fetch input p)
             = location p)).
Proof.
  split; [done|].
  unfold handleLoginFormSubmit. cbv zeta.
  destruct input as [raw|]; [|right; split; [done|split; [by eexists|done]]].
  destruct (formatPhoneNumber raw) as [phone|e] eqn:Hformat;
    [|right; split; [done|split; [by eexists|done]]].
  destruct (checkPhone env fetch phone) as [tenant|e] eqn:Hcheck;
    [|right; split; [done|split; [by eexists|done]]].
  destruct (truthy tenant) eqn:Htruthy; cbn [negb];
    [|right; split; [done|split; [by eexists|done]]].
  rewrite createSession_run by by apply truthy_not_nullish.
  left. exists raw, phone, tenant. do 3 (split; [done|]).
  split; [|done].
  destruct (checkPhone_returns_only_approved _ _ _ Hcheck)
    as (_ & response & d & _ & _ & _ & [->|[_ Happroved]]); done.
Qed.

Lemma initAuth_restores (p : Page) (text : jsstring) (session : value) :
  Data.localStorage (data p) !! SESSION_KEY = Some text ->
  JSON_parse env text = Some session ->
  nullish session = false ->
  initAuth env true p
  = {| data := data (with_currentTenant session p); isLoading := isLoading p;
       lastActivity := Some (Data.clock (data p)); isInitialized := true;
       alerts := alerts p; location := location p |}.
Proof.
  intros Hstored Hparse Hn. unfold initAuth. cbv zeta. cbn [negb].
  rewrite Hstored.
  destruct (str_eqb text []) eqn:Hempty.
  { apply bool_decide_eq_true in Hempty as ->.
    by rewrite JSON_parse_empty in Hparse. }
  rewrite Hparse. unfold get_prop, getCurrentTenant. cbn [with_currentTenant with_data data Data.currentTenant].
  by rewrite Hn.
Qed.

(** X19: initAuth takes the stored session at its word.  Whatever JSON
    value other than null is stored under the session key becomes the
    current tenant and counts as authenticated, without a request to the
    server and without a look at the approved flag or the login time the
    session carries; the storage is left as it was. *)
Theorem initAuth_trusts_stored_session (p : Page) (text : jsstring)
    (session : value) :
  Data.localStorage (data p) !! SESSION_KEY = Some text ->
  JSON_parse env text = Some session ->
  nullish session = false ->
  getCurrentTenant (initAuth env true p) = session
  /\ isAuthenticated (initAuth env true p) = true
  /\ canEditPavilions (initAuth env true p) = true
  /\ isInitialized (initAuth env true p) = true
  /\ Data.localStorage (data (initAuth env true p)) = Data.localStorage (data p)
  /\ Data.requests (data (initAuth env true p)) = Data.requests (data p)
  /\ location (initAuth env true p) = location p.
Proof.
  intros Hstored Hparse Hn.
  rewrite (initAuth_restores _ _ _ Hstored Hparse Hn).
  unfold canEditPavilions, isAuthenticated, getCurrentTenant.
  cbn [with_currentTenant with_data data Data.currentTenant Data.localStorage
       Data.requests isInitialized location].
  split; [done|]. by destruct session.
Qed.

(** X20: a session survives a reload.  When the stored text parses back
    to the session record, a page that starts with the storage left by
    createSession has, after initAuth, the tenant createSession set. *)
Theorem session_survives_reload (tenant : value) (p p0 : Page) :
  nullish tenant = false ->
  JSON_parse env
    (JSON_stringify env (session_record env tenant (Data.clock (data p))))
  = Some (session_record env tenant (Data.clock (data p))) ->
  Data.localStorage (data p0)
  = Data.localStorage (data (createSession env tenant p).2) ->
  (createSession env tenant p).1 = Return tt
  /\ getCurrentTenant (initAuth env true p0)
     = getCurrentTenant (createSession env tenant p).2
  /\ isAuthenticated (initAuth env true p0) = true.
Proof.
  intros Hn Hround. rewrite createSession_run by done. cbn [fst snd].
  intros Hstorage. split; [done|].
  cbn [with_storage with_currentTenant with_data data Data.with_localStorage
       Data.localStorage] in Hstorage.
  rewrite (initAuth_restores p0 _ _ (eq_trans (f_equal (.!! SESSION_KEY) Hstorage)
                                      (lookup_insert_eq _ _ _)) Hround eq_refl).
  done.
Qed.

Lemma cache_key_not_session (key : jsstring) :
  Data.CACHE_PREFIX ++ key <> SESSION_KEY.
Proof. intros Heq. vm_compute in Heq. discriminate Heq. Qed.

(** X21: logout ends the session and nothing else.  The tenant is
    forgotten and the session entry removed, so the next page load stays
    unauthenticated and requireAuth sends the visitor away; the access
    layer refuses to create, change or delete a pavilion without asking
    the server; the cached data of the access layer stays readable. *)
Theorem logout_ends_session_only (p : Page) :
  isAuthenticated (logout p) = false
  /\ Data.localStorage (data (logout p))
     = delete SESSION_KEY (Data.localStorage (data p))
  /\ location (logout p) = location p ++ [lit "index.html"]
  /\ (forall config_found p0,
        getCurrentTenant p0 = VNull ->
        Data.localStorage (data p0) = Data.localStorage (data (logout p)) ->
        isAuthenticated (initAuth env config_found p0) = false)
  /\ (forall redirectTo,
        requireAuth redirectTo (logout p)
        = (Return false,
           navigate (default (lit "index.html") redirectTo) (logout p)))
  /\ (forall id d,
        Data.updatePavilion env id d (data (logout p))
        = (Throw (Error Data.msg_auth_required_update), data (logout p)))
  /\ (forall id,
        Data.deletePavilion env id (data (logout p))
        = (Throw (Error Data.msg_auth_required_delete), data (logout p)))
  /\ (forall d,
        DataOps.createPavilion env d (data (logout p))
        = (Throw (Error DataOps.msg_auth_required_create), data (logout p)))
  /\ (forall key,
        (Data.getCacheData env key (data (logout p))).1
        = (Data.getCacheData env key (data p)).1).
Proof.
  split; [done|]. split; [done|]. split; [done|]. split; [|split].
  - intros config_found p0 Hnull Hstorage.
    unfold initAuth. cbv zeta.
    destruct config_found; cbn [negb]; [|by unfold isAuthenticated; rewrite Hnull].
    rewrite Hstorage.
    replace (Data.localStorage (data (logout p)) !! SESSION_KEY)
      with (@None jsstring) by (symmetry; apply lookup_delete_eq).
    unfold isAuthenticated, getCurrentTenant in *. cbn [data]. by rewrite Hnull.
  - done.
  - split; [|split; [|split]].
    + intros id d. by rewrite updatePavilion_run.
    + intros id. by rewrite deletePavilion_run.
    + intros d. by rewrite createPavilion_run.
    + intros key. rewrite !getCacheData_run.
      cbn [logout navigate with_storage with_currentTenant with_data data
           Data.with_localStorage Data.localStorage Data.clock].
      rewrite lookup_delete_ne by (intros Heq; by apply (cache_key_not_session key)).
      destruct (Data.localStorage (data p) !! _) as [s|]; [|done].
      destruct (str_eqb s []); [done|].
      destruct (JSON_parse env s) as [d|]; [|done].
      destruct (nullish d); [done|].
      by destruct (truthy _ && _).
Qed.

End SessionFacts.

(* ================================================================== *)
(** * The further properties on the sample data *)
(* ================================================================== *)

Lemma setCacheData_other_key_witness :
  (Data.getCacheData Browser.env (JS.lit "tenants")
     (Data.setCacheData Browser.env (JS.lit "pavilions")
        (JS.VArr [JS.VObj Sample.own_pavilion]) Sample.data_world).2).1
  = (Data.getCacheData Browser.env (JS.lit "tenants") Sample.data_world).1.
Proof.
  apply (setCacheData_other_key Browser.env (JS.lit "pavilions") (JS.lit "tenants")).
  vm_compute. discriminate.
Defined.

Lemma updatePavilion_replaces_in_memory_witness :
  JS.truthy (JS.VObj Sample.own_pavilion) = true
  /\ exists l l',
       Data.pavilions Sample.data_world = JS.VArr l
       /\ Data.pavilions
            (Data.updatePavilion Browser.env (JS.lit "p-1")
               [(JS.lit "name", JS.VStr (JS.lit "Boots"))] Sample.data_world).2
          = JS.VArr l'
       /\ length l' = length l
       /\ (forall j q, l !! j = Some q ->
             Data.id_is (JS.lit "p-1") q <> JS.Return true -> l' !! j = Some q)
       /\ (forall before p after,
             l = before ++ p :: after ->
             Forall (fun q => Data.id_is (JS.lit "p-1") q = JS.Return false) before ->
             Data.id_is (JS.lit "p-1") p = JS.Return true ->
             l' = before ++ JS.VObj Sample.own_pavilion :: after).
Proof.
  apply (updatePavilion_replaces_in_memory Browser.env (JS.lit "p-1")
           [(JS.lit "name", JS.VStr (JS.lit "Boots"))] Sample.data_world).
  vm_compute. reflexivity.
Defined.

Lemma deletePavilion_removes_every_match_witness :
  JS.VBool true = JS.VBool true
  /\ exists l,
       Data.pavilions Sample.data_world = JS.VArr l
       /\ Data.pavilions
            (Data.deletePavilion Browser.env (JS.lit "p-1") Sample.data_world).2
          = JS.VArr
              (filter
                 (fun p => JS.strict_eq (JS.prop p (JS.lit "id"))
                             (JS.VStr (JS.lit "p-1")) = false) l).
Proof.
  apply (deletePavilion_removes_every_match Browser.env (JS.lit "p-1")
           Sample.data_world).
  vm_compute. reflexivity.
Defined.

Lemma getAllPavilions_then_cached_witness :
  Data.getAllPavilions Browser.env Sample.data_world
  = (JS.Return (JS.VArr [JS.VObj Sample.own_pavilion]),
     (Data.getAllPavilions Browser.env Sample.data_world).2)
  /\ Data.requests (Data.getAllPavilions Browser.env Sample.data_world).2
     = Data.requests Sample.data_world ++ [list_request Browser.env]
  /\ Data.pavilions (Data.getAllPavilions Browser.env Sample.data_world).2
     = JS.VArr [JS.VObj Sample.own_pavilion]
  /\ Data.getAllPavilions Browser.env
       (Data.with_clock 1700000060000
          (Data.getAllPavilions Browser.env Sample.data_world).2)
     = (JS.Return (JS.VArr [JS.VObj Sample.own_pavilion]),
        Data.with_clock 1700000060000
          (Data.getAllPavilions Browser.env Sample.data_world).2).
Proof.
  apply (getAllPavilions_then_cached Browser.env Sample.data_world
           {| Net.ok := true; Net.status := 200; Net.text := [];
              Net.json := Some (JS.VArr [JS.VObj Sample.own_pavilion]) |}
           [] (JS.VArr [JS.VObj Sample.own_pavilion]) 1700000060000).
  - vm_compute. reflexivity.
  - reflexivity.
  - reflexivity.
  - reflexivity.
  - reflexivity.
  - vm_compute. reflexivity.
  - vm_compute. discriminate.
Defined.

Lemma updateDiscount_merges_in_place_witness :
  let discounts :=
    merged_discount Browser.env (JS.lit "d-1")
      [(JS.lit "title", JS.VStr (JS.lit "Spring"))]
      (Data.clock Sample.data_world) <$> [Sample.winter_discount] in
  DataOps.updateDiscount Browser.env (JS.lit "p-1") (JS.lit "d-1")
    [(JS.lit "title", JS.VStr (JS.lit "Spring"))] Sample.data_world
  = Data.updatePavilion Browser.env (JS.lit "p-1")
      [(JS.lit "discounts", JS.VArr discounts)] Sample.data_world
  /\ length discounts = length [Sample.winter_discount]
  /\ (forall j d, [Sample.winter_discount] !! j = Some d ->
        JS.strict_eq (JS.prop d (JS.lit "id")) (JS.VStr (JS.lit "d-1")) = false ->
        discounts !! j = Some d)
  /\ (forall j d, [Sample.winter_discount] !! j = Some d ->
        JS.strict_eq (JS.prop d (JS.lit "id")) (JS.VStr (JS.lit "d-1")) = true ->
        exists merged,
          discounts !! j = Some (JS.VObj merged)
          /\ JS.obj_get (JS.lit "updated_at") merged
             = JS.VStr (toISOString Browser.env (Data.clock Sample.data_world))).
Proof.
  apply (updateDiscount_merges_in_place Browser.env (JS.lit "p-1") (JS.lit "d-1")
           [(JS.lit "title", JS.VStr (JS.lit "Spring"))] Sample.data_world
           (JS.VObj Sample.own_pavilion) Sample.data_world
           [Sample.winter_discount]).
  - reflexivity.
  - vm_compute. reflexivity.
  - reflexivity.
  - vm_compute. reflexivity.
  - vm_compute. reflexivity.
  - repeat constructor.
Defined.

Lemma static_asset_cached_after_first_fetch_witness :
  (ServiceWorker.on_fetch Sample.style_request Sample.sw_world).1
  = ServiceWorker.RespondWith Sample.page_response
  /\ ServiceWorker.on_fetch Sample.style_request
       (ServiceWorker.on_fetch Sample.style_request Sample.sw_world).2
     = (ServiceWorker.RespondWith Sample.page_response,
        (ServiceWorker.on_fetch Sample.style_request Sample.sw_world).2)
  /\ ServiceWorker.fetched
       (ServiceWorker.on_fetch Sample.style_request Sample.sw_world).2
     = ServiceWorker.fetched Sample.sw_world ++ [Sample.style_request].
Proof.
  apply (static_asset_cached_after_first_fetch Sample.style_request
           Sample.sw_world Scenario.static_answer
           [{| ServiceWorker.delay := 20;
               ServiceWorker.answer := Some Sample.missing_response |}]
           Sample.page_response).
  - vm_compute. reflexivity.
  - vm_compute. reflexivity.
  - vm_compute. reflexivity.
  - reflexivity.
  - reflexivity.
  - reflexivity.
Defined.

Lemma api_response_survives_offline_witness :
  (ServiceWorker.on_fetch Scenario.api_request Scenario.api_world).1
  = ServiceWorker.RespondWith Scenario.api_response
  /\ exists r',
       ServiceWorker.caches_match (ServiceWorker.url Scenario.api_request)
         (ServiceWorker.caches
            (ServiceWorker.on_fetch Scenario.api_request Scenario.api_world).2)
       = Some r'
       /\ (ServiceWorker.on_fetch Scenario.api_request
             (ServiceWorker.on_fetch Scenario.api_request Scenario.api_world).2).1
          = ServiceWorker.RespondWith r'
       /\ ((forall n c, (n, c) ∈ ServiceWorker.caches Scenario.api_world ->
              n <> ServiceWorker.CACHE_NAME ->
              ServiceWorker.cache_match (ServiceWorker.url Scenario.api_request) c
              = None) ->
           r' = Scenario.api_response).
Proof.
  apply (api_response_survives_offline Scenario.api_request Scenario.api_world
           Scenario.in_time
           [{| ServiceWorker.delay := 30; ServiceWorker.answer := None |}]
           Scenario.api_response).
  - vm_compute. reflexivity.
  - vm_compute. reflexivity.
  - reflexivity.
  - reflexivity.
  - vm_compute. reflexivity.
  - reflexivity.
  - vm_compute. reflexivity.
Defined.

Lemma checkPhone_returns_only_approved_witness :
  Auth.validatePhoneNumber (JS.lit "+79991234567") = true
  /\ exists response data,
       select_answer Browser.env
         (rows_with_phone Sample.tenants_table (JS.lit "+79991234567"))
       = Net.Responds response
       /\ Net.ok response = true
       /\ Net.json response = Some data
       /\ (JS.VObj Sample.approved_tenant = JS.VNull
           \/ (JS.VObj Sample.approved_tenant = JS.index0 data
               /\ JS.truthy (JS.prop (JS.VObj Sample.approved_tenant)
                               (JS.lit "approved")) = true)).
Proof.
  apply (checkPhone_returns_only_approved Browser.env
           (fun _ => select_answer Browser.env
                       (rows_with_phone Sample.tenants_table (JS.lit "+79991234567")))
           (JS.lit "+79991234567") (JS.VObj Sample.approved_tenant)).
  vm_compute. reflexivity.
Defined.

Lemma initAuth_trusts_stored_session_witness :
  Session.getCurrentTenant (Session.initAuth Browser.env true Scenario.returning_page)
  = JS.VObj Sample.pending_tenant
  /\ Session.isAuthenticated
       (Session.initAuth Browser.env true Scenario.returning_page) = true
  /\ Session.canEditPavilions
       (Session.initAuth Browser.env true Scenario.returning_page) = true
  /\ Session.isInitialized
       (Session.initAuth Browser.env true Scenario.returning_page) = true
  /\ Data.localStorage
       (Session.data (Session.initAuth Browser.env true Scenario.returning_page))
     = Data.localStorage (Session.data Scenario.returning_page)
  /\ Data.requests
       (Session.data (Session.initAuth Browser.env true Scenario.returning_page))
     = Data.requests (Session.data Scenario.returning_page)
  /\ Session.location (Session.initAuth Browser.env true Scenario.returning_page)
     = Session.location Scenario.returning_page.
Proof.
  apply (initAuth_trusts_stored_session Browser.env Scenario.returning_page
           (JSON_stringify Browser.env (JS.VObj Sample.pending_tenant))).
  - vm_compute. reflexivity.
  - vm_compute. reflexivity.
  - reflexivity.
Defined.

Lemma session_survives_reload_witness :
  (Session.createSession Browser.env Scenario.tenant_row Scenario.login_page).1
  = JS.Return tt
  /\ Session.getCurrentTenant
       (Session.initAuth Browser.env true
          (Session.with_currentTenant JS.VNull
             (Session.createSession Browser.env Scenario.tenant_row
                Scenario.login_page).2))
     = Session.getCurrentTenant
         (Session.createSession Browser.env Scenario.tenant_row
            Scenario.login_page).2
  /\ Session.isAuthenticated
       (Session.initAuth Browser.env true
          (Session.with_currentTenant JS.VNull
             (Session.createSession Browser.env Scenario.tenant_row
                Scenario.login_page).2)) = true.
Proof.
  apply (session_survives_reload Browser.env Scenario.tenant_row
           Scenario.login_page).
  - reflexivity.
  - vm_compute. reflexivity.
  - reflexivity.
Defined.

(* ================================================================== *)
(** * Further properties: the phone number functions of auth.js *)
(* ================================================================== *)

Section PhoneFacts.
Import JS Auth.

Lemma ws_not_digit c : is_ws c = true -> is_digit c = false.
Proof.
  intros Hws. destruct (is_digit c) eqn:Hd; [|done].
  apply digit_not_ws in Hd. congruence.
Qed.

Lemma filter_digits_trimStart s :
  filter (fun c => is_digit c = true) (trimStart s)
  = filter (fun c => is_digit c = true) s.
Proof.
  induction s as [|c t IH]; [done|]. cbn [trimStart].
  destruct (is_ws c) eqn:Hws; [|done].
  rewrite IH, (filter_cons_False _ c); [done|].
  by rewrite (ws_not_digit _ Hws).
Qed.

Lemma filter_digits_rev s :
  filter (fun c => is_digit c = true) (rev s)
  = rev (filter (fun c => is_digit c = true) s).
Proof.
  induction s as [|c t IH]; [done|]. cbn [rev].
  rewrite filter_app, IH, !filter_cons, filter_nil.
  destruct (decide (is_digit c = true)); cbn [rev]; [done|].
  by rewrite app_nil_r.
Qed.

(** Trimming removes no digit. *)
Lemma filter_digits_trim s :
  filter (fun c => is_digit c = true) (trim s)
  = filter (fun c => is_digit c = true) s.
Proof.
  unfold trim, trimEnd.
  by rewrite filter_digits_rev, filter_digits_trimStart, filter_digits_rev,
    rev_involutive, filter_digits_trimStart.
Qed.

Lemma filter_digits_all ds :
  forallb is_digit ds = true -> filter (fun c => is_digit c = true) ds = ds.
Proof.
  induction ds as [|d ds IH]; [done|]. cbn [forallb].
  intros [Hd Hds]%andb_true_iff.
  by rewrite filter_cons_True, IH.
Qed.

Lemma normalized_digits_head phone d rest :
  normalized_digits phone = d :: rest -> (d =? 56)%N = false.
Proof.
  unfold normalized_digits.
  destruct (filter _ phone) as [|d0 rest0]; [done|].
  destruct (d0 =? 56)%N eqn:Hd0; intros [= <- <-]; done.
Qed.

(** X22: formatPhoneNumber is idempotent: a number it returned is
    returned unchanged when formatted again. *)
Theorem formatPhoneNumber_idempotent (phone formatted : jsstring) :
  formatPhoneNumber phone = Return formatted ->
  formatPhoneNumber formatted = Return formatted.
Proof.
  rewrite !formatPhoneNumber_normalized.
  destruct (length (normalized_digits phone) =? 11)%nat eqn:Hlen; [|done].
  intros [= <-].
  assert (normalized_digits (43%N :: normalized_digits phone)
          = normalized_digits phone) as ->.
  { unfold normalized_digits at 1.
    rewrite filter_cons_False by (by vm_compute).
    rewrite filter_digits_all by apply normalized_digits_all_digits.
    destruct (normalized_digits phone) as [|d rest] eqn:Hnd; [done|].
    by rewrite (normalized_digits_head _ _ _ Hnd). }
  by rewrite Hlen.
Qed.

(** X23: the two functions agree on well-formed numbers: a number that
    validatePhoneNumber accepts is formatted to itself, white space at its
    ends trimmed, and never rejected by formatPhoneNumber. *)
Theorem formatPhoneNumber_keeps_valid (phone : jsstring) :
  validatePhoneNumber phone = true ->
  formatPhoneNumber phone = Return (trim phone).
Proof.
  unfold validatePhoneNumber. cbv zeta. intros Hvalid.
  rewrite formatPhoneNumber_normalized. unfold normalized_digits.
  rewrite <- filter_digits_trim.
  destruct (trim phone) as [|plus [|seven ds]]; [done|done|].
  cbn [phoneRegex_test] in Hvalid.
  apply andb_true_iff in Hvalid as [Hvalid Hds].
  apply andb_true_iff in Hvalid as [Hvalid Hlen].
  apply andb_true_iff in Hvalid as [->%N.eqb_eq ->%N.eqb_eq].
  apply Nat.eqb_eq in Hlen.
  rewrite filter_cons_False by (by vm_compute).
  rewrite filter_cons_True by (by vm_compute).
  rewrite filter_digits_all by done.
  cbn [N.eqb Pos.eqb length]. by rewrite Hlen.
Qed.

End PhoneFacts.

Lemma formatPhoneNumber_idempotent_witness :
  Auth.formatPhoneNumber (JS.lit "+79991234567") = JS.Return (JS.lit "+79991234567").
Proof.
  apply (formatPhoneNumber_idempotent (JS.lit "8 (999) 123-45-67")).
  vm_compute. reflexivity.
Defined.

Lemma formatPhoneNumber_keeps_valid_witness :
  Auth.formatPhoneNumber (JS.lit " +79991234567 ")
  = JS.Return (JS.trim (JS.lit " +79991234567 ")).
Proof.
  apply (formatPhoneNumber_keeps_valid (JS.lit " +79991234567 ")).
  vm_compute. reflexivity.
Defined.

(* ================================================================== *)
(** * Further properties: the CACHE_URLS message of sw.js *)
(* ================================================================== *)

Section MessageFacts.
Import JS ServiceWorker ServiceWorkerEvents.
Variable new_Request : jsstring -> Request.

Lemma cache_add_or_warn_trace name u w :
  fetched (cache_add_or_warn new_Request name u w)
  = fetched w ++ [new_Request u]
  /\ network (cache_add_or_warn new_Request name u w) = drop 1 (network w).
Proof.
  unfold cache_add_or_warn, fetch.
  destruct (network w) as [|o rest]; cbn [mbind option_bind]; [done|].
  rewrite ?drop_0. cbn [drop].
  destruct (answer o) as [r|]; [|done].
  by destruct (response_ok r).
Qed.

Lemma cache_urls_trace name us w :
  fetched (fold_left (fun w' u => cache_add_or_warn new_Request name u w') us w)
  = fetched w ++ (new_Request <$> us)
  /\ network (fold_left (fun w' u => cache_add_or_warn new_Request name u w') us w)
     = drop (length us) (network w).
Proof.
  revert w. induction us as [|u us IH]; intros w; cbn [fold_left].
  - by rewrite app_nil_r.
  - destruct (IH (cache_add_or_warn new_Request name u w)) as [-> ->].
    destruct (cache_add_or_warn_trace name u w) as [-> ->].
    by rewrite drop_drop, <- app_assoc.
Qed.

(** X24: the CACHE_URLS message tries every URL of the list: each one is
    fetched once, in the order of the list, whether or not the fetches
    before it failed or were answered with an error status; skipWaiting is
    not called. *)
Theorem cache_urls_tries_every_url (us : list jsstring) (w : World) :
  (on_message new_Request (lit "CACHE_URLS") (Some us) w).1 = false
  /\ fetched (on_message new_Request (lit "CACHE_URLS") (Some us) w).2
     = fetched w ++ (new_Request <$> us)
  /\ network (on_message new_Request (lit "CACHE_URLS") (Some us) w).2
     = drop (length us) (network w).
Proof.
  unfold on_message.
  replace (str_eqb (lit "CACHE_URLS") (lit "SKIP_WAITING")) with false
    by (by vm_compute).
  replace (str_eqb (lit "CACHE_URLS") (lit "CLEAR_CACHE")) with false
    by (by vm_compute).
  replace (str_eqb (lit "CACHE_URLS") (lit "CACHE_URLS")) with true
    by (by vm_compute).
  cbv zeta. cbn [fst snd]. split; [done|].
  apply (cache_urls_trace CACHE_NAME us
           {| caches := caches_open CACHE_NAME (caches w);
              network := network w; fetched := fetched w |}).
Qed.

End MessageFacts.

(* ================================================================== *)
(** * Properties: the discounts of data.js *)
(* ================================================================== *)

Section DiscountWrites.
Import JS Net Data.
Variable env : Env.

Lemma patch_discounts_write id discounts now :
  patch_request env id [(lit "discounts", VArr discounts)] now
  = discounts_write env id discounts now.
Proof. done. Qed.

(** updatePavilion sends the PATCH, right after its lookup, as soon as
    the lookup gives a pavilion of the tenant. *)
Lemma updatePavilion_sends id data w p place w1 :
  truthy (currentTenant w) = true ->
  lookupPavilion env id w = (Return (p, place), w1) ->
  truthy p = true ->
  strict_eq (prop p (lit "tenant_id")) (prop (currentTenant w) (lit "id")) = true ->
  requests (updatePavilion env id data w).2
  = requests w1 ++ [patch_request env id data (clock w)].
Proof.
  intros Htenant Hlookup Hp Hown.
  destruct (lookupPavilion_frame env _ _ _ _ Hlookup)
    as ((_ & _ & _ & Hclock & _) & _).
  rewrite updatePavilion_run, Htenant. cbn [negb].
  unfold getPavilionById. rewrite bind_run, Hlookup. cbn [mret M_ret fst].
  rewrite Hp, Hown. cbn [negb]. rewrite Hclock.
  match goal with
  | |- context [supabaseRequest env ?ep PATCH ?b w1] =>
      destruct (supabaseRequest_frame env ep PATCH b w1) as (_ & Hreq & _);
      destruct (supabaseRequest env ep PATCH b w1) as [[response|e] w2]
  end; cbn [snd] in Hreq; [|done].
  destruct (truthy response && truthy (index0 response)); [|done].
  destruct (arr_findIndex (id_is id) (pavilions w2)) as [[[i x]|]|e]; [| |done].
  - cbn [snd]. unfold clearCacheData, localStorage_removeItem, pavilions_set, modify.
    cbn [snd]. by destruct (pavilions w2).
  - done.
Qed.

(** A pavilion returned with its place was found in memory: nothing was
    sent, and the scan of the list stopped at it. *)
Lemma lookupPavilion_held id w pavilion i w1 :
  lookupPavilion env id w = (Return (pavilion, Some i), w1) ->
  w1 = w
  /\ exists l, pavilions w = VArr l
       /\ find_from (id_is id) l 0 = Return (Some (i, pavilion)).
Proof.
  rewrite lookupPavilion_run.
  destruct (pavilions w) as [| | | | |l|] eqn:Hl; cbn [arr_findIndex]; try done.
  destruct (find_from (id_is id) l 0) as [[[j p]|]|e] eqn:Hfind; [| |done].
  - cbv zeta. destruct (truthy p).
    + cbn [fmap option_fmap option_map fst]. intros [= <- <- <-]. split; [done|]. by exists l.
    + destruct (supabaseRequest env _ GET None w) as [[response|e] w'];
        [|done].
      destruct (truthy response && gt_zero env _); [|done].
      by destruct (nullish _).
  - cbv zeta. cbn [truthy].
    destruct (supabaseRequest env _ GET None w) as [[response|e] w'];
      [|done].
    destruct (truthy response && gt_zero env _); [|done].
    by destruct (nullish _).
Qed.

Lemma lookupPavilion_found id w l i p :
  pavilions w = VArr l ->
  find_from (id_is id) l 0 = Return (Some (i, p)) ->
  lookupPavilion env id w = (Return (p, Some i), w).
Proof.
  intros Hl Hfind. rewrite lookupPavilion_run, Hl. cbn [arr_findIndex].
  rewrite Hfind. cbv zeta.
  destruct (find_from_some _ _ _ _ _ Hfind) as (_ & _ & Hp).
  by rewrite (id_is_true_truthy _ _ Hp).
Qed.

(** Replacing the entry found by one the callback accepts too does not
    move the place where the scan stops. *)
Lemma find_from_insert f (l : list value) k j p p' :
  find_from f l k = Return (Some (j, p)) ->
  f p' = Return true ->
  find_from f (<[(j - k)%nat := p']> l) k = Return (Some (j, p')).
Proof.
  intros Hfind Hp'. revert k Hfind.
  induction l as [|q l IH]; intros k; cbn [find_from]; [done|].
  destruct (f q) as [[|]|e] eqn:Hq; cbn [mbind result_bind]; [| |done].
  - intros [= <- <-]. rewrite Nat.sub_diag.
    change (<[0%nat := p']> (q :: l)) with (p' :: l). cbn [find_from].
    by rewrite Hp'.
  - intros Hfind. destruct (find_from_some _ _ _ _ _ Hfind) as (Hle & _).
    replace (j - k)%nat with (S (j - S k)) by lia.
    change (<[S (j - S k) := p']> (q :: l)) with (q :: <[(j - S k)%nat := p']> l).
    cbn [find_from]. rewrite Hq. cbn [mbind result_bind]. by apply IH.
Qed.

Lemma id_is_true_obj id p : id_is id p = Return true -> exists o, p = VObj o.
Proof.
  unfold id_is, get_prop.
  destruct p as [| | |n|s|l|o]; [done|done|done|done| | |by eexists];
    cbn [nullish mbind result_bind prop];
    replace (str_eqb (lit "id") (lit "length")) with false by (by vm_compute);
    done.
Qed.

Lemma discounts_pushed_frame pavilion place discounts w :
  requests (discounts_pushed pavilion place discounts w) = requests w
  /\ network (discounts_pushed pavilion place discounts w) = network w
  /\ clock (discounts_pushed pavilion place discounts w) = clock w
  /\ currentTenant (discounts_pushed pavilion place discounts w) = currentTenant w.
Proof.
  unfold discounts_pushed. cbv zeta.
  destruct (truthy _ && is_array _), place as [i|]; try done.
  unfold push_in_place, modify. cbn [snd].
  destruct (pavilions w) as [| | | | |items|]; try done.
  by destruct (items !! i) as [[| | | | | |o]|].
Qed.

(** After the push the pavilion is still found in memory, at its place,
    and it is still the tenant's. *)
Lemma discounts_pushed_held id pavilion i discounts w l :
  pavilions w = VArr l ->
  find_from (id_is id) l 0 = Return (Some (i, pavilion)) ->
  exists pavilion2,
    lookupPavilion env id (discounts_pushed pavilion (Some i) discounts w)
    = (Return (pavilion2, Some i), discounts_pushed pavilion (Some i) discounts w)
    /\ truthy pavilion2 = true
    /\ prop pavilion2 (lit "tenant_id") = prop pavilion (lit "tenant_id").
Proof.
  intros Hl Hfind.
  destruct (find_from_some _ _ _ _ _ Hfind) as (_ & Hi & Hp).
  rewrite Nat.sub_0_r in Hi.
  unfold discounts_pushed. cbv zeta.
  destruct (truthy _ && is_array _).
  - destruct (id_is_true_obj _ _ Hp) as [o ->].
    unfold push_in_place, modify. cbn [snd]. rewrite Hl, Hi.
    exists (VObj (obj_set (lit "discounts") (VArr discounts) o)).
    split; [|split; [done|]].
    + apply (lookupPavilion_found _ _
               (<[i := VObj (obj_set (lit "discounts") (VArr discounts) o)]> l));
        [done|].
      rewrite <- (Nat.sub_0_r i) at 1.
      apply (find_from_insert _ _ _ _ _ _ Hfind).
      unfold id_is, get_prop in Hp |- *. cbn [nullish mbind result_bind prop] in Hp |- *.
      by rewrite obj_get_set_ne by (by vm_compute).
    + cbn [prop]. by rewrite obj_get_set_ne by (by vm_compute).
  - exists pavilion. split; [by apply (lookupPavilion_found _ _ l)|].
    split; [by apply (id_is_true_truthy id)|done].
Qed.

Lemma writes_discounts_run id discounts place w w1 w2 pavilion :
  truthy (currentTenant w) = true ->
  lookupPavilion env id w = (Return (pavilion, place), w1) ->
  strict_eq (prop pavilion (lit "tenant_id")) (prop (currentTenant w) (lit "id")) = true ->
  requests w2 = requests w1 ->
  clock w2 = clock w1 ->
  currentTenant w2 = currentTenant w1 ->
  (forall i l,
     place = Some i -> pavilions w1 = VArr l ->
     find_from (id_is id) l 0 = Return (Some (i, pavilion)) ->
     exists pavilion2 place2,
       lookupPavilion env id w2 = (Return (pavilion2, place2), w2)
       /\ truthy pavilion2 = true
       /\ prop pavilion2 (lit "tenant_id") = prop pavilion (lit "tenant_id")) ->
  writes_discounts env id discounts place w w2
    (updatePavilion env id [(lit "discounts", VArr discounts)] w2).
Proof.
  intros Htenant Hlookup Hown Hreq2 Hclock2 Htenant2 Hheld.
  destruct (lookupPavilion_frame env _ _ _ _ Hlookup)
    as ((Htenant1 & _ & _ & Hclock & _) & Hreq1).
  assert (Hsend : forall pavilion2 place2 w3,
    lookupPavilion env id w2 = (Return (pavilion2, place2), w3) ->
    truthy pavilion2 = true ->
    strict_eq (prop pavilion2 (lit "tenant_id"))
              (prop (currentTenant w) (lit "id")) = true ->
    requests (updatePavilion env id [(lit "discounts", VArr discounts)] w2).2
    = requests w3 ++ [discounts_write env id discounts (clock w)]).
  { intros pavilion2 place2 w3 Hlookup2 Hfound2 Hown2.
    rewrite (updatePavilion_sends id _ _ pavilion2 place2 w3); try done.
    - by rewrite patch_discounts_write, Hclock2, Hclock.
    - by rewrite Htenant2, Htenant1.
    - by rewrite Htenant2, Htenant1. }
  split; [|split; [done|]].
  - intros [i ->].
    destruct (lookupPavilion_held _ _ _ _ _ Hlookup) as (-> & l & Hl & Hfind).
    destruct (Hheld i l eq_refl Hl Hfind)
      as (pavilion2 & place2 & Hlookup2 & Hfound2 & Hsame).
    rewrite (Hsend _ _ _ Hlookup2 Hfound2) by (by rewrite Hsame).
    by rewrite Hreq2.
  - destruct (updatePavilion_embedded env id discounts w2)
      as (extra & Hextra & Hok).
    rewrite Hextra, Hreq2.
    destruct Hreq1 as [-> | ->].
    + by exists extra.
    + exists (lookup_request env id :: extra). split; [by rewrite <- app_assoc|].
      constructor; [apply (lookup_request_embedded env id discounts)|done].
Qed.

(** C8, amended: discounts live in the array field of the pavilion
    record.  When a tenant is signed in and the lookup gives a pavilion
    of that tenant, addDiscount appends exactly one new entry to the
    pavilion's discounts (none when the field is missing or not an
    array) and removeDiscount, when the stored discounts are an array
    without null entries or are missing, keeps in their order exactly the
    entries whose id differs from discountId; each hands the new array to
    updatePavilion as the only field.  The write is the PATCH of the
    pavilion's row carrying the discounts field and the updated_at stamp:
    it is the one request of the run when the pavilion is held in memory,
    it follows updatePavilion's lookup whenever that lookup gives a
    pavilion of the tenant, and no request of a run is anything but a
    read of the pavilions table or that write.  removeDiscount throws a
    TypeError, having sent no write, when the stored discounts hold a
    null entry or are not an array. *)
Theorem discounts_embedded_in_pavilion (pavilionId : jsstring) (w : World)
    (pavilion : value) (place : option nat) (w1 : World) :
  truthy (currentTenant w) = true ->
  lookupPavilion env pavilionId w = (Return (pavilion, place), w1) ->
  truthy pavilion = true ->
  strict_eq (prop pavilion (lit "tenant_id")) (prop (currentTenant w) (lit "id")) = true ->
  (forall discountData : obj,
     let newDiscount :=
       VObj (obj_set (lit "created_at") (VStr (toISOString env (clock w)))
               (obj_spread
                  [(lit "id", VStr (number_to_string (clock w) ++ lit "_"
                                    ++ random36 env (seed w)))]
                  discountData)) in
     let discounts := stored_discounts pavilion ++ [newDiscount] in
     let w2 := discounts_pushed pavilion place discounts
                 (with_seed (seed w + 1)%N w1) in
     addDiscount env pavilionId discountData w
       = updatePavilion env pavilionId [(lit "discounts", VArr discounts)] w2
     /\ writes_discounts env pavilionId discounts place w w2
          (addDiscount env pavilionId discountData w))
  /\ (forall discountId : jsstring,
        let stored := prop pavilion (lit "discounts") in
        let kept := filter (fun d => strict_eq (prop d (lit "id")) (VStr discountId) = false)
                           (stored_discounts pavilion) in
        (Forall (fun d => nullish d = false) (stored_discounts pavilion) ->
         (truthy stored = true -> is_array stored = true) ->
         removeDiscount env pavilionId discountId w
           = updatePavilion env pavilionId [(lit "discounts", VArr kept)] w1
         /\ writes_discounts env pavilionId kept place w w1
              (removeDiscount env pavilionId discountId w))
        /\ ((exists d, d ∈ stored_discounts pavilion /\ nullish d = true)
            \/ (truthy stored = true /\ is_array stored = false) ->
            removeDiscount env pavilionId discountId w = (Throw TypeError, w1)
            /\ writes (requests w1) = writes (requests w))).
Proof.
  intros Htenant Hlookup Hfound Hown.
  destruct (lookupPavilion_frame env _ _ _ _ Hlookup)
    as ((Htenant1 & _ & _ & Hclock & Hseed) & Hreq1).
  split.
  - intros discountData newDiscount discounts w2.
    assert (Hadd : addDiscount env pavilionId discountData w
      = updatePavilion env pavilionId [(lit "discounts", VArr discounts)] w2).
    { unfold addDiscount. rewrite bind_run. cbn [gets]. rewrite Htenant.
      cbn [negb]. rewrite bind_run, Hlookup. cbn [fst snd].
      rewrite Hfound, Hown. cbn [negb].
      rewrite bind_run, generateId_run. rewrite bind_run.
      cbn [Date_now gets clock with_seed].
      rewrite Hclock, Hseed. fold newDiscount. fold (stored_discounts pavilion).
      fold discounts. rewrite bind_run.
      subst w2. unfold discounts_pushed. cbv zeta.
      by destruct (truthy (prop pavilion (lit "discounts"))
                   && is_array (prop pavilion (lit "discounts"))), place as [i|]. }
    split; [done|]. rewrite Hadd.
    destruct (discounts_pushed_frame pavilion place discounts
                (with_seed (seed w + 1)%N w1)) as (Hreq2 & _ & Hclock2 & Htenant2).
    apply (writes_discounts_run _ _ _ _ w1 _ pavilion); try done.
    intros i l -> Hl Hfind.
    destruct (discounts_pushed_held pavilionId pavilion i discounts
                (with_seed (seed w + 1)%N w1) l Hl Hfind)
      as (pavilion2 & Hlookup2 & Hrest).
    by exists pavilion2, (Some i).
  - intros discountId stored kept. split.
    + intros Hnonull Harray.
      assert (Hremove : removeDiscount env pavilionId discountId w
        = updatePavilion env pavilionId [(lit "discounts", VArr kept)] w1).
      { unfold removeDiscount. rewrite bind_run. cbn [gets]. rewrite Htenant.
        cbn [negb]. rewrite bind_run. unfold getPavilionById.
        rewrite bind_run, Hlookup. cbn [mret M_ret fst].
        rewrite Hfound, Hown. cbn [negb]. rewrite bind_run. unfold lift.
        subst kept stored. unfold stored_discounts in *.
        destruct (truthy (prop pavilion (lit "discounts"))) eqn:Hstored;
          cbn [andb] in *; [|done].
        specialize (Harray eq_refl).
        destruct (prop pavilion (lit "discounts")) as [| | | | |l|]; try done.
        cbn [is_array items_of arr_filter] in *.
        by rewrite (filter_items_not_nullish _ _ Hnonull). }
      split; [done|]. rewrite Hremove.
      apply (writes_discounts_run _ _ _ _ w1 _ pavilion); try done.
      intros i l -> Hl Hfind. exists pavilion, (Some i).
      split; [by apply (lookupPavilion_found _ _ l)|done].
    + intros Hbad.
      split.
      * unfold removeDiscount. rewrite bind_run. cbn [gets]. rewrite Htenant.
        cbn [negb]. rewrite bind_run. unfold getPavilionById.
        rewrite bind_run, Hlookup. cbn [mret M_ret fst].
        rewrite Hfound, Hown. cbn [negb]. rewrite bind_run. unfold lift.
        subst stored. unfold stored_discounts in Hbad.
        destruct Hbad as [(d & Hin & Hd)|[Htruthy Hnot]].
        -- destruct (truthy (prop pavilion (lit "discounts"))) eqn:Hstored;
             cbn [andb] in Hin; [|by apply elem_of_nil in Hin].
           destruct (prop pavilion (lit "discounts")) as [| | | | |l|];
             cbn [is_array items_of] in Hin;
             try (by apply elem_of_nil in Hin).
           cbn [arr_filter].
           rewrite (filter_items_nullish _ _ d); try done.
           ++ intros q Hq. unfold id_is_not, get_prop. by rewrite Hq.
           ++ intros q e. unfold id_is_not, get_prop.
              destruct (nullish q); cbn [mbind result_bind]; congruence.
        -- rewrite Htruthy. by destruct (prop pavilion (lit "discounts")).
      * destruct Hreq1 as [-> | ->]; [done|]. apply writes_get.
Qed.

End DiscountWrites.

Section DiscountRuns.
Import JS Net Data.

(** C8 as stated fails on a pavilion whose discounts hold a null entry:
    removeDiscount throws a TypeError there, the entry with the id stays
    in the array, and nothing is sent. *)
Lemma removeDiscount_null_entry_throws :
  stored_discounts (VObj Scenario.legacy_pavilion)
    = [VNull; Sample.winter_discount]
  /\ prop Sample.winter_discount (lit "id") = VStr (lit "d-1")
  /\ removeDiscount Browser.env (lit "p-3") (lit "d-1") Scenario.legacy_world
     = (Throw TypeError, Scenario.legacy_world).
Proof. split; [|split]; vm_compute; reflexivity. Qed.

Lemma discounts_embedded_in_pavilion_witness :
  (forall discountData : obj,
     let newDiscount :=
       VObj (obj_set (lit "created_at")
               (VStr (toISOString Browser.env (clock Sample.data_world)))
               (obj_spread
                  [(lit "id",
                    VStr (number_to_string (clock Sample.data_world) ++ lit "_"
                          ++ random36 Browser.env (seed Sample.data_world)))]
                  discountData)) in
     let discounts := stored_discounts (VObj Sample.own_pavilion) ++ [newDiscount] in
     let w2 := discounts_pushed (VObj Sample.own_pavilion) (Some 0%nat) discounts
                 (with_seed (seed Sample.data_world + 1)%N Sample.data_world) in
     addDiscount Browser.env (lit "p-1") discountData Sample.data_world
       = updatePavilion Browser.env (lit "p-1")
           [(lit "discounts", VArr discounts)] w2
     /\ writes_discounts Browser.env (lit "p-1") discounts (Some 0%nat)
          Sample.data_world w2
          (addDiscount Browser.env (lit "p-1") discountData Sample.data_world))
  /\ (forall discountId : jsstring,
        let stored := prop (VObj Sample.own_pavilion) (lit "discounts") in
        let kept :=
          filter (fun d => strict_eq (prop d (lit "id")) (VStr discountId) = false)
                 (stored_discounts (VObj Sample.own_pavilion)) in
        (Forall (fun d => nullish d = false)
                (stored_discounts (VObj Sample.own_pavilion)) ->
         (truthy stored = true -> is_array stored = true) ->
         removeDiscount Browser.env (lit "p-1") discountId Sample.data_world
           = updatePavilion Browser.env (lit "p-1")
               [(lit "discounts", VArr kept)] Sample.data_world
         /\ writes_discounts Browser.env (lit "p-1") kept (Some 0%nat)
              Sample.data_world Sample.data_world
              (removeDiscount Browser.env (lit "p-1") discountId Sample.data_world))
        /\ ((exists d, d ∈ stored_discounts (VObj Sample.own_pavilion)
                       /\ nullish d = true)
            \/ (truthy stored = true /\ is_array stored = false) ->
            removeDiscount Browser.env (lit "p-1") discountId Sample.data_world
              = (Throw TypeError, Sample.data_world)
            /\ writes (requests Sample.data_world)
               = writes (requests Sample.data_world))).
Proof.
  apply (discounts_embedded_in_pavilion Browser.env (lit "p-1")
           Sample.data_world (VObj Sample.own_pavilion) (Some 0%nat)
           Sample.data_world).
  - reflexivity.
  - vm_compute. reflexivity.
  - reflexivity.
  - vm_compute. reflexivity.
Defined.

(** On the sample data: the one request addDiscount sends is the write of
    the stored discount followed by the new one. *)
Example addDiscount_sends_the_write :
  requests
    (addDiscount Browser.env (lit "p-1") [(lit "title", VStr (lit "Spring"))]
       Sample.data_world).2
  = [discounts_write Browser.env (lit "p-1")
       [Sample.winter_discount;
        VObj [(lit "id",
               VStr (number_to_string (clock Sample.data_world) ++ lit "_"
                     ++ random36 Browser.env (seed Sample.data_world)));
              (lit "title", VStr (lit "Spring"));
              (lit "created_at",
               VStr (toISOString Browser.env (clock Sample.data_world)))]]
       (clock Sample.data_world)].
Proof. vm_compute. reflexivity. Qed.

End DiscountRuns.
